(** * Image Compressor: a model of [script.js] and the properties of its
      transcoding pipeline and batch orchestration.

    The script is browser JavaScript.  Its numbers are IEEE-754 binary64
    values, modelled by Rocq's primitive [float]; its strings are modelled
    as [string] (sequences of bytes, UTF-8 for text outside ASCII); its
    module-level variables and the DOM controls it reads and writes are the
    fields of one explicit [State] record that every handler takes and
    returns.  What the browser decides (whether a file can be read, decoded
    or encoded) is a [Host] record of oracles, and the calls made to it
    are logged in the state.

    The page itself ([index.html]) is not among the sources: the controls
    are taken as plain holders of text and of check marks, whatever their
    initial values, and nothing is assumed about what the page lets a user
    type into them. *)

From Stdlib Require Import ZArith List String Ascii Bool Lia Floats.
From stdpp Require Import base gmap.
Import ListNotations.

Local Open Scope string_scope.
Local Open Scope Z_scope.

(** ** The JavaScript primitives the script relies on *)

Module JS.

(** A value that is either a string or [undefined]: what
    [inputType.split('/')[1]] yields. *)
Inductive value : Type :=
| undefined
| Str (s : string).

(** Template-literal interpolation, [`${v}`]. *)
Definition ToString (v : value) : string :=
  match v with
  | undefined => "undefined"
  | Str s => s
  end.

(** *** Numbers *)

(** The Number nearest to an integer (ties to even, overflow to infinity). *)
Definition NumberOfZ (z : Z) : float :=
  SF2Prim (binary_normalize prec emax z 0 false).

Definition NumberOfN (n : N) : float := NumberOfZ (Z.of_N n).

(** [ToBoolean] on a Number: [NaN], [+0] and [-0] are falsy. *)
Definition ToBoolean (x : float) : bool :=
  negb (PrimFloat.is_nan x || PrimFloat.is_zero x).

(** [a || b] on Numbers. *)
Definition or_else (a b : float) : float :=
  if ToBoolean a then a else b.

(** [Math.round]: the integer nearest to [x], ties towards +infinity,
    computed exactly; [NaN], the infinities and the zeros are returned
    unchanged, and a result of zero keeps the sign of [x]. *)
Definition Math_round (x : float) : float :=
  match Prim2SF x with
  | S754_finite s m e =>
      if 0 <=? e then x
      else
        let v := cond_Zopp s (Z.pos m) in
        let n := (2 * v + 2 ^ (- e)) / 2 ^ (1 - e) in
        if n =? 0 then (if s then neg_zero else zero) else NumberOfZ n
  | _ => x
  end.

(** *** [parseInt(string)] with no radix argument *)

(** Leading white space and line terminators, as UTF-8 byte sequences:
    TAB, LF, VT, FF, CR, SP, NBSP, the Unicode space separators,
    LS, PS and the byte order mark. *)
Definition white_space : list string :=
  let b (l : list nat) :=
    fold_right (fun n s => String (ascii_of_nat n) s) EmptyString l in
  [ b [9]; b [10]; b [11]; b [12]; b [13]; b [32]; b [194; 160];
    b [225; 154; 128];
    b [226; 128; 128]; b [226; 128; 129]; b [226; 128; 130];
    b [226; 128; 131]; b [226; 128; 132]; b [226; 128; 133];
    b [226; 128; 134]; b [226; 128; 135]; b [226; 128; 136];
    b [226; 128; 137]; b [226; 128; 138];
    b [226; 128; 168]; b [226; 128; 169]; b [226; 128; 175];
    b [226; 129; 159]; b [227; 128; 128]; b [239; 187; 191] ]%nat.

Fixpoint strip_prefix (p s : string) : option string :=
  match p, s with
  | EmptyString, _ => Some s
  | String a p', String c s' =>
      if Ascii.eqb a c then strip_prefix p' s' else None
  | String _ _, EmptyString => None
  end.

(** One white-space character removed from the front, if there is one. *)
Definition strip_one_space (s : string) : option string :=
  fold_right
    (fun w r => match strip_prefix w s with Some t => Some t | None => r end)
    None white_space.

Fixpoint trim_start_fuel (fuel : nat) (s : string) : string :=
  match fuel with
  | O => s
  | S fuel' =>
      match strip_one_space s with
      | Some t => trim_start_fuel fuel' t
      | None => s
      end
  end.

(** Every removal shortens the string, so its length is fuel enough. *)
Definition trim_start (s : string) : string :=
  trim_start_fuel (String.length s) s.

(** The value of a character as a digit of the given radix (10 or 16). *)
Definition digit_value (radix : Z) (c : ascii) : option Z :=
  let n := Z.of_nat (nat_of_ascii c) in
  let d :=
    if (48 <=? n) && (n <=? 57) then Some (n - 48)
    else if (97 <=? n) && (n <=? 102) then Some (n - 87)
    else if (65 <=? n) && (n <=? 70) then Some (n - 55)
    else None in
  match d with
  | Some k => if k <? radix then Some k else None
  | None => None
  end.

(** The longest prefix of radix digits, as digit values. *)
Fixpoint leading_digits (radix : Z) (s : string) : list Z :=
  match s with
  | EmptyString => []
  | String c s' =>
      match digit_value radix c with
      | Some d => d :: leading_digits radix s'
      | None => []
      end
  end.

Definition digits_value (radix : Z) (ds : list Z) : Z :=
  fold_left (fun acc d => radix * acc + d) ds 0.

Definition split_sign (s : string) : bool * string :=
  match s with
  | String "-" r => (true, r)
  | String "+" r => (false, r)
  | _ => (false, s)
  end.

Definition split_radix (s : string) : Z * string :=
  match s with
  | String "0" (String "x" r) => (16, r)
  | String "0" (String "X" r) => (16, r)
  | _ => (10, s)
  end.

Definition parseInt (input : string) : float :=
  let (negative, s) := split_sign (trim_start input) in
  let (radix, s) := split_radix s in
  match leading_digits radix s with
  | [] => nan
  | ds =>
      let mathInt := digits_value radix ds in
      if mathInt =? 0 then (if negative then neg_zero else zero)
      else NumberOfZ (if negative then - mathInt else mathInt)
  end.

(** *** [Number::toString] (radix 10) *)

Definition digit_char (d : Z) : ascii := ascii_of_nat (Z.to_nat (48 + d)).

Fixpoint digits_fuel (fuel : nat) (n : Z) : list Z :=
  match fuel with
  | O => []
  | S fuel' =>
      (if n <? 10 then [] else digits_fuel fuel' (n / 10)) ++ [n mod 10]
  end.

Definition string_of_digits (ds : list Z) : string :=
  fold_right (fun d s => String (digit_char d) s) "" ds.

(** The decimal digits of a natural number, most significant first; a
    number has at most one more decimal digit than its binary logarithm. *)
Definition decimal (n : Z) : string :=
  string_of_digits (digits_fuel (S (Z.to_nat (Z.log2 n))) n).

Definition zeros (n : Z) : string :=
  fold_right (fun _ s => String "0" s) "" (seq 0 (Z.to_nat n)).

(** Exact comparison of the rationals [a * 2^ea] and [b * 10^eb]. *)
Definition compare_scaled (a ea b eb : Z) : comparison :=
  (a * 2 ^ Z.max ea 0 * 10 ^ Z.max (- eb) 0)
    ?= (b * 10 ^ Z.max eb 0 * 2 ^ Z.max (- ea) 0).

(** Whether the decimal [s * 10^p] is read back as the Number [m * 2^e]:
    it lies between the midpoints to the two neighbouring Numbers, the
    midpoints themselves counting when [m] is even. *)
Definition rounds_to (m e s p : Z) : bool :=
  let lo := if (m =? 2 ^ 52) && (-1074 <? e) then 4 * m - 1 else 4 * m - 2 in
  let hi := 4 * m + 2 in
  let above :=
    match compare_scaled lo (e - 2) s p with
    | Lt => true | Eq => Z.even m | Gt => false
    end in
  let below :=
    match compare_scaled hi (e - 2) s p with
    | Gt => true | Eq => Z.even m | Lt => false
    end in
  above && below.

Fixpoint small_exponent (fuel : nat) (j m den : Z) : Z :=
  match fuel with
  | O => j
  | S fuel' =>
      if den <=? m * 10 then j else small_exponent fuel' (j + 1) (m * 10) den
  end.

(** The [n] with [10^(n-1) <= m * 2^e < 10^n]. *)
Definition decimal_exponent (m e : Z) : Z :=
  let whole := (m * 2 ^ Z.max e 0) / 2 ^ Z.max (- e) 0 in
  if 1 <=? whole then Z.of_nat (String.length (decimal whole))
  else 1 - small_exponent 400 1 m (2 ^ (- e)).

(** The [k]-digit decimal nearest to [m * 2^e], if one is read back as
    that Number. *)
Definition digits_of_length (m e n k : Z) : option (Z * Z) :=
  let p := n - k in
  let s :=
    (m * 2 ^ Z.max e 0 * 10 ^ Z.max (- p) 0)
      / (2 ^ Z.max (- e) 0 * 10 ^ Z.max p 0) in
  let pick (c : Z) :=
    if c =? 10 ^ k then Some (10 ^ (k - 1), n + 1) else Some (c, n) in
  match rounds_to m e s p, rounds_to m e (s + 1) p with
  | true, false => pick s
  | false, true => pick (s + 1)
  | true, true =>
      match compare_scaled (2 * m) e (2 * s + 1) p with
      | Lt => pick s
      | Gt => pick (s + 1)
      | Eq => pick (if Z.even s then s else s + 1)
      end
  | false, false => None
  end.

Fixpoint shortest_digits (fuel : nat) (m e n k : Z) : Z * Z :=
  match fuel with
  | O => ((m * 2 ^ Z.max e 0 * 10 ^ Z.max (k - n) 0)
            / (2 ^ Z.max (- e) 0 * 10 ^ Z.max (n - k) 0), n)
  | S fuel' =>
      match digits_of_length m e n k with
      | Some r => r
      | None => shortest_digits fuel' m e n (k + 1)
      end
  end.

(** The text of the positive finite Number [m * 2^e]. *)
Definition positive_toString (m e : Z) : string :=
  let (s, n) := shortest_digits 17 m e (decimal_exponent m e) 1 in
  let ds := decimal s in
  let k := Z.of_nat (String.length ds) in
  if (k <=? n) && (n <=? 21) then ds ++ zeros (n - k)
  else if (0 <? n) && (n <=? 21) then
    substring 0 (Z.to_nat n) ds ++ "."
      ++ substring (Z.to_nat n) (Z.to_nat (k - n)) ds
  else if (-6 <? n) && (n <=? 0) then "0." ++ zeros (- n) ++ ds
  else
    let exponent :=
      (if n - 1 <? 0 then "e-" else "e+") ++ decimal (Z.abs (n - 1)) in
    if k =? 1 then ds ++ exponent
    else
      substring 0 1 ds ++ "." ++ substring 1 (Z.to_nat (k - 1)) ds
        ++ exponent.

Definition Number_toString (x : float) : string :=
  match Prim2SF x with
  | S754_nan => "NaN"
  | S754_zero _ => "0"
  | S754_infinity false => "Infinity"
  | S754_infinity true => "-Infinity"
  | S754_finite sign m e =>
      (if sign then "-" else "") ++ positive_toString (Z.pos m) e
  end.

(** *** Strings *)

(** [s.split(sep)] for a one-character separator. *)
Fixpoint split (sep : ascii) (s : string) : list string :=
  match s with
  | EmptyString => [""]
  | String c r =>
      if Ascii.eqb c sep then "" :: split sep r
      else
        match split sep r with
        | segment :: rest => String c segment :: rest
        | [] => [String c ""]
        end
  end.

(** [array[i]]: [undefined] past the end. *)
Definition index (l : list string) (i : nat) : value :=
  match nth_error l i with
  | Some s => Str s
  | None => undefined
  end.

(** [v === s] for a string [s]. *)
Definition strict_eq (v : value) (s : string) : bool :=
  match v with
  | undefined => false
  | Str t => String.eqb t s
  end.

Fixpoint no_dot (s : string) : bool :=
  match s with
  | EmptyString => true
  | String c r => negb (Ascii.eqb c ".") && no_dot r
  end.

(** Whether [/\.[^\.]+$/] matches at the very start of [s]: a dot, then
    one or more characters other than a dot, then the end of the input. *)
Definition extension_here (s : string) : bool :=
  match s with
  | String "." (String c r) => no_dot (String c r)
  | _ => false
  end.

(** [s.replace(/\.[^\.]+$/, '')]: the leftmost match is removed; it runs to
    the end of the input, so what is left is the text before it. *)
Fixpoint remove_extension (s : string) : string :=
  match s with
  | EmptyString => ""
  | String c r =>
      if extension_here s then "" else String c (remove_extension r)
  end.

End JS.

Import JS.

(** ** Data *)

(** A [Blob] is its bytes and its MIME type; a [File] is a named blob. *)
Record Blob : Type := {
  blob_data : string;
  blob_type : string
}.

Record File : Type := {
  file_name : string;
  file_type : string;
  file_data : string
}.

Definition blob_size (b : Blob) : N := N.of_nat (String.length (blob_data b)).
Definition file_size (f : File) : N := N.of_nat (String.length (file_data f)).

(** A decoded image: its natural dimensions and what it shows. *)
Record Image : Type := {
  img_width : N;
  img_height : N;
  img_pixels : string
}.

(** A canvas after [canvas.width = w; canvas.height = h;
    ctx.drawImage(img, 0, 0, w, h)]. *)
Record Canvas : Type := {
  canvas_width : float;
  canvas_height : float;
  canvas_image : Image
}.

(** What the browser decides: whether [FileReader.readAsDataURL] succeeds
    on a file, whether bytes load as an image, and what [canvas.toBlob]
    hands to its callback ([None] for [null]). *)
Record Host : Type := {
  readable : File -> bool;
  decode : string -> option Image;
  toBlob : Canvas -> string -> float -> option Blob
}.

(** The calls made to the host, in the order they are made. *)
Inductive HostCall : Type :=
| ReadAsDataURL (f : File)
| LoadImage (data : string)
| ToBlob (c : Canvas) (mime : string) (quality : float).

(** What an object URL keeps alive until it is revoked. *)
Inductive UrlTarget : Type :=
| OfBlob (b : Blob)
| OfFile (f : File)
| OfWorkerCode.

(** The object [compressImage] resolves with. *)
Record CompressionResult : Type := {
  result_blob : Blob;
  result_url : nat;
  result_size : N;
  result_width : float;
  result_height : float;
  result_originalSize : N;
  result_originalWidth : N;
  result_originalHeight : N;
  result_name : string;
  result_type : string
}.

(** A settled promise. *)
Inductive Settled : Type :=
| Resolved (r : CompressionResult)
| Rejected (message : string).

(** The message posted to the worker, and the one it posts back. *)
Record WorkerRequest : Type := {
  req_file : File;
  req_quality : float;
  req_resize : bool;
  req_width : float;
  req_height : float;
  req_outputFormat : string
}.

Record WorkerReply : Type := {
  reply_blob : Blob;
  reply_name : string;
  reply_size : N;
  reply_originalSize : N;
  reply_width : float;
  reply_height : float
}.

(** An element of the [compressedFiles] array. *)
Record CompressedEntry : Type := {
  entry_blob : Blob;
  entry_name : string;
  entry_url : nat;
  entry_size : N;
  entry_originalSize : N
}.

(** A row of the batch results list: the preview URL created for it and
    the figures it shows. *)
Record BatchItem : Type := {
  item_url : nat;
  item_size : N;
  item_originalSize : N;
  item_width : float;
  item_height : float
}.

(** ** State *)

(** The controls the script reads. *)
Record Controls : Type := {
  qualitySlider_value : string;
  resizeToggle_checked : bool;
  resize_pixels_checked : bool;
  resize_percentage_checked : bool;
  widthInput_value : string;
  heightInput_value : string;
  maintainAspect_checked : bool;
  percentageInput_value : string;
  formatSelect_value : string
}.

Inductive Display : Type := block | none.

Inductive Src : Type :=
| NoSrc
| DataSrc (f : File)
| UrlSrc (u : nat).

(** The elements the script writes.  The captions that only format sizes
    and dimensions for display are left out. *)
Record View : Type := {
  fileInput_value : string;
  uploadSection_display : Display;
  controlsSection_display : Display;
  previewSection_display : Display;
  batchSection_display : Display;
  originalPreview_src : Src;
  compressedPreview_src : Src;
  progressFill_width : string;
  processedCount_text : string;
  totalCount_text : string;
  batchResults : list BatchItem;
  compressBtn_disabled : bool;
  downloadBtn_disabled : bool;
  downloadAllBtn_disabled : bool
}.

(** The module-level variables, the page, the object URLs alive, the
    alerts shown and the host calls made. *)
Record State : Type := {
  uploadedFiles : list File;
  currentFile : option File;
  compressedFile : option Blob;
  compressedFiles : list CompressedEntry;
  originalAspectRatio : float;
  controls : Controls;
  view : View;
  object_urls : gmap nat UrlTarget;
  next_url : nat;
  alerts : list string;
  host_calls : list HostCall
}.

Definition with_uploadedFiles (x : list File) (st : State) : State :=
  {| uploadedFiles := x; currentFile := currentFile st;
     compressedFile := compressedFile st;
     compressedFiles := compressedFiles st;
     originalAspectRatio := originalAspectRatio st;
     controls := controls st; view := view st;
     object_urls := object_urls st; next_url := next_url st;
     alerts := alerts st; host_calls := host_calls st |}.

Definition with_currentFile (x : option File) (st : State) : State :=
  {| uploadedFiles := uploadedFiles st; currentFile := x;
     compressedFile := compressedFile st;
     compressedFiles := compressedFiles st;
     originalAspectRatio := originalAspectRatio st;
     controls := controls st; view := view st;
     object_urls := object_urls st; next_url := next_url st;
     alerts := alerts st; host_calls := host_calls st |}.

Definition with_compressedFile (x : option Blob) (st : State) : State :=
  {| uploadedFiles := uploadedFiles st; currentFile := currentFile st;
     compressedFile := x;
     compressedFiles := compressedFiles st;
     originalAspectRatio := originalAspectRatio st;
     controls := controls st; view := view st;
     object_urls := object_urls st; next_url := next_url st;
     alerts := alerts st; host_calls := host_calls st |}.

Definition with_compressedFiles (x : list CompressedEntry) (st : State)
  : State :=
  {| uploadedFiles := uploadedFiles st; currentFile := currentFile st;
     compressedFile := compressedFile st;
     compressedFiles := x;
     originalAspectRatio := originalAspectRatio st;
     controls := controls st; view := view st;
     object_urls := object_urls st; next_url := next_url st;
     alerts := alerts st; host_calls := host_calls st |}.

Definition with_originalAspectRatio (x : float) (st : State) : State :=
  {| uploadedFiles := uploadedFiles st; currentFile := currentFile st;
     compressedFile := compressedFile st;
     compressedFiles := compressedFiles st;
     originalAspectRatio := x;
     controls := controls st; view := view st;
     object_urls := object_urls st; next_url := next_url st;
     alerts := alerts st; host_calls := host_calls st |}.

Definition with_controls (x : Controls) (st : State) : State :=
  {| uploadedFiles := uploadedFiles st; currentFile := currentFile st;
     compressedFile := compressedFile st;
     compressedFiles := compressedFiles st;
     originalAspectRatio := originalAspectRatio st;
     controls := x; view := view st;
     object_urls := object_urls st; next_url := next_url st;
     alerts := alerts st; host_calls := host_calls st |}.

Definition with_view (x : View) (st : State) : State :=
  {| uploadedFiles := uploadedFiles st; currentFile := currentFile st;
     compressedFile := compressedFile st;
     compressedFiles := compressedFiles st;
     originalAspectRatio := originalAspectRatio st;
     controls := controls st; view := x;
     object_urls := object_urls st; next_url := next_url st;
     alerts := alerts st; host_calls := host_calls st |}.

Definition with_object_urls (x : gmap nat UrlTarget) (n : nat) (st : State)
  : State :=
  {| uploadedFiles := uploadedFiles st; currentFile := currentFile st;
     compressedFile := compressedFile st;
     compressedFiles := compressedFiles st;
     originalAspectRatio := originalAspectRatio st;
     controls := controls st; view := view st;
     object_urls := x; next_url := n;
     alerts := alerts st; host_calls := host_calls st |}.

(** [alert(message)]. *)
Definition alert (message : string) (st : State) : State :=
  {| uploadedFiles := uploadedFiles st; currentFile := currentFile st;
     compressedFile := compressedFile st;
     compressedFiles := compressedFiles st;
     originalAspectRatio := originalAspectRatio st;
     controls := controls st; view := view st;
     object_urls := object_urls st; next_url := next_url st;
     alerts := alerts st ++ [message]; host_calls := host_calls st |}.

(** A call to the host is recorded. *)
Definition called (c : HostCall) (st : State) : State :=
  {| uploadedFiles := uploadedFiles st; currentFile := currentFile st;
     compressedFile := compressedFile st;
     compressedFiles := compressedFiles st;
     originalAspectRatio := originalAspectRatio st;
     controls := controls st; view := view st;
     object_urls := object_urls st; next_url := next_url st;
     alerts := alerts st; host_calls := host_calls st ++ [c] |}.

(** [URL.createObjectURL(target)]: a URL not handed out before. *)
Definition createObjectURL (target : UrlTarget) (st : State) : nat * State :=
  (next_url st,
   with_object_urls (<[next_url st := target]> (object_urls st))
                    (S (next_url st)) st).

(** [URL.revokeObjectURL(url)]. *)
Definition revokeObjectURL (url : nat) (st : State) : State :=
  with_object_urls (delete url (object_urls st)) (next_url st) st.

(** Assignments to single elements of the page. *)
Definition set_uploadSection_display (x : Display) (st : State) : State :=
  let v := view st in
  with_view
    {| fileInput_value := fileInput_value v;
       uploadSection_display := x;
       controlsSection_display := controlsSection_display v;
       previewSection_display := previewSection_display v;
       batchSection_display := batchSection_display v;
       originalPreview_src := originalPreview_src v;
       compressedPreview_src := compressedPreview_src v;
       progressFill_width := progressFill_width v;
       processedCount_text := processedCount_text v;
       totalCount_text := totalCount_text v;
       batchResults := batchResults v;
       compressBtn_disabled := compressBtn_disabled v;
       downloadBtn_disabled := downloadBtn_disabled v;
       downloadAllBtn_disabled := downloadAllBtn_disabled v |} st.

Definition set_controlsSection_display (x : Display) (st : State) : State :=
  let v := view st in
  with_view
    {| fileInput_value := fileInput_value v;
       uploadSection_display := uploadSection_display v;
       controlsSection_display := x;
       previewSection_display := previewSection_display v;
       batchSection_display := batchSection_display v;
       originalPreview_src := originalPreview_src v;
       compressedPreview_src := compressedPreview_src v;
       progressFill_width := progressFill_width v;
       processedCount_text := processedCount_text v;
       totalCount_text := totalCount_text v;
       batchResults := batchResults v;
       compressBtn_disabled := compressBtn_disabled v;
       downloadBtn_disabled := downloadBtn_disabled v;
       downloadAllBtn_disabled := downloadAllBtn_disabled v |} st.

Definition set_previewSection_display (x : Display) (st : State) : State :=
  let v := view st in
  with_view
    {| fileInput_value := fileInput_value v;
       uploadSection_display := uploadSection_display v;
       controlsSection_display := controlsSection_display v;
       previewSection_display := x;
       batchSection_display := batchSection_display v;
       originalPreview_src := originalPreview_src v;
       compressedPreview_src := compressedPreview_src v;
       progressFill_width := progressFill_width v;
       processedCount_text := processedCount_text v;
       totalCount_text := totalCount_text v;
       batchResults := batchResults v;
       compressBtn_disabled := compressBtn_disabled v;
       downloadBtn_disabled := downloadBtn_disabled v;
       downloadAllBtn_disabled := downloadAllBtn_disabled v |} st.

Definition set_batchSection_display (x : Display) (st : State) : State :=
  let v := view st in
  with_view
    {| fileInput_value := fileInput_value v;
       uploadSection_display := uploadSection_display v;
       controlsSection_display := controlsSection_display v;
       previewSection_display := previewSection_display v;
       batchSection_display := x;
       originalPreview_src := originalPreview_src v;
       compressedPreview_src := compressedPreview_src v;
       progressFill_width := progressFill_width v;
       processedCount_text := processedCount_text v;
       totalCount_text := totalCount_text v;
       batchResults := batchResults v;
       compressBtn_disabled := compressBtn_disabled v;
       downloadBtn_disabled := downloadBtn_disabled v;
       downloadAllBtn_disabled := downloadAllBtn_disabled v |} st.

Definition set_originalPreview_src (x : Src) (st : State) : State :=
  let v := view st in
  with_view
    {| fileInput_value := fileInput_value v;
       uploadSection_display := uploadSection_display v;
       controlsSection_display := controlsSection_display v;
       previewSection_display := previewSection_display v;
       batchSection_display := batchSection_display v;
       originalPreview_src := x;
       compressedPreview_src := compressedPreview_src v;
       progressFill_width := progressFill_width v;
       processedCount_text := processedCount_text v;
       totalCount_text := totalCount_text v;
       batchResults := batchResults v;
       compressBtn_disabled := compressBtn_disabled v;
       downloadBtn_disabled := downloadBtn_disabled v;
       downloadAllBtn_disabled := downloadAllBtn_disabled v |} st.

Definition set_compressedPreview_src (x : Src) (st : State) : State :=
  let v := view st in
  with_view
    {| fileInput_value := fileInput_value v;
       uploadSection_display := uploadSection_display v;
       controlsSection_display := controlsSection_display v;
       previewSection_display := previewSection_display v;
       batchSection_display := batchSection_display v;
       originalPreview_src := originalPreview_src v;
       compressedPreview_src := x;
       progressFill_width := progressFill_width v;
       processedCount_text := processedCount_text v;
       totalCount_text := totalCount_text v;
       batchResults := batchResults v;
       compressBtn_disabled := compressBtn_disabled v;
       downloadBtn_disabled := downloadBtn_disabled v;
       downloadAllBtn_disabled := downloadAllBtn_disabled v |} st.

Definition set_progressFill_width (x : string) (st : State) : State :=
  let v := view st in
  with_view
    {| fileInput_value := fileInput_value v;
       uploadSection_display := uploadSection_display v;
       controlsSection_display := controlsSection_display v;
       previewSection_display := previewSection_display v;
       batchSection_display := batchSection_display v;
       originalPreview_src := originalPreview_src v;
       compressedPreview_src := compressedPreview_src v;
       progressFill_width := x;
       processedCount_text := processedCount_text v;
       totalCount_text := totalCount_text v;
       batchResults := batchResults v;
       compressBtn_disabled := compressBtn_disabled v;
       downloadBtn_disabled := downloadBtn_disabled v;
       downloadAllBtn_disabled := downloadAllBtn_disabled v |} st.

Definition set_processedCount_text (x : string) (st : State) : State :=
  let v := view st in
  with_view
    {| fileInput_value := fileInput_value v;
       uploadSection_display := uploadSection_display v;
       controlsSection_display := controlsSection_display v;
       previewSection_display := previewSection_display v;
       batchSection_display := batchSection_display v;
       originalPreview_src := originalPreview_src v;
       compressedPreview_src := compressedPreview_src v;
       progressFill_width := progressFill_width v;
       processedCount_text := x;
       totalCount_text := totalCount_text v;
       batchResults := batchResults v;
       compressBtn_disabled := compressBtn_disabled v;
       downloadBtn_disabled := downloadBtn_disabled v;
       downloadAllBtn_disabled := downloadAllBtn_disabled v |} st.

Definition set_totalCount_text (x : string) (st : State) : State :=
  let v := view st in
  with_view
    {| fileInput_value := fileInput_value v;
       uploadSection_display := uploadSection_display v;
       controlsSection_display := controlsSection_display v;
       previewSection_display := previewSection_display v;
       batchSection_display := batchSection_display v;
       originalPreview_src := originalPreview_src v;
       compressedPreview_src := compressedPreview_src v;
       progressFill_width := progressFill_width v;
       processedCount_text := processedCount_text v;
       totalCount_text := x;
       batchResults := batchResults v;
       compressBtn_disabled := compressBtn_disabled v;
       downloadBtn_disabled := downloadBtn_disabled v;
       downloadAllBtn_disabled := downloadAllBtn_disabled v |} st.

Definition set_batchResults (x : list BatchItem) (st : State) : State :=
  let v := view st in
  with_view
    {| fileInput_value := fileInput_value v;
       uploadSection_display := uploadSection_display v;
       controlsSection_display := controlsSection_display v;
       previewSection_display := previewSection_display v;
       batchSection_display := batchSection_display v;
       originalPreview_src := originalPreview_src v;
       compressedPreview_src := compressedPreview_src v;
       progressFill_width := progressFill_width v;
       processedCount_text := processedCount_text v;
       totalCount_text := totalCount_text v;
       batchResults := x;
       compressBtn_disabled := compressBtn_disabled v;
       downloadBtn_disabled := downloadBtn_disabled v;
       downloadAllBtn_disabled := downloadAllBtn_disabled v |} st.

Definition set_compressBtn_disabled (x : bool) (st : State) : State :=
  let v := view st in
  with_view
    {| fileInput_value := fileInput_value v;
       uploadSection_display := uploadSection_display v;
       controlsSection_display := controlsSection_display v;
       previewSection_display := previewSection_display v;
       batchSection_display := batchSection_display v;
       originalPreview_src := originalPreview_src v;
       compressedPreview_src := compressedPreview_src v;
       progressFill_width := progressFill_width v;
       processedCount_text := processedCount_text v;
       totalCount_text := totalCount_text v;
       batchResults := batchResults v;
       compressBtn_disabled := x;
       downloadBtn_disabled := downloadBtn_disabled v;
       downloadAllBtn_disabled := downloadAllBtn_disabled v |} st.

Definition set_downloadBtn_disabled (x : bool) (st : State) : State :=
  let v := view st in
  with_view
    {| fileInput_value := fileInput_value v;
       uploadSection_display := uploadSection_display v;
       controlsSection_display := controlsSection_display v;
       previewSection_display := previewSection_display v;
       batchSection_display := batchSection_display v;
       originalPreview_src := originalPreview_src v;
       compressedPreview_src := compressedPreview_src v;
       progressFill_width := progressFill_width v;
       processedCount_text := processedCount_text v;
       totalCount_text := totalCount_text v;
       batchResults := batchResults v;
       compressBtn_disabled := compressBtn_disabled v;
       downloadBtn_disabled := x;
       downloadAllBtn_disabled := downloadAllBtn_disabled v |} st.

Definition set_downloadAllBtn_disabled (x : bool) (st : State) : State :=
  let v := view st in
  with_view
    {| fileInput_value := fileInput_value v;
       uploadSection_display := uploadSection_display v;
       controlsSection_display := controlsSection_display v;
       previewSection_display := previewSection_display v;
       batchSection_display := batchSection_display v;
       originalPreview_src := originalPreview_src v;
       compressedPreview_src := compressedPreview_src v;
       progressFill_width := progressFill_width v;
       processedCount_text := processedCount_text v;
       totalCount_text := totalCount_text v;
       batchResults := batchResults v;
       compressBtn_disabled := compressBtn_disabled v;
       downloadBtn_disabled := downloadBtn_disabled v;
       downloadAllBtn_disabled := x |} st.

Definition set_widthInput_value (x : string) (st : State) : State :=
  let c := controls st in
  with_controls
    {| qualitySlider_value := qualitySlider_value c;
       resizeToggle_checked := resizeToggle_checked c;
       resize_pixels_checked := resize_pixels_checked c;
       resize_percentage_checked := resize_percentage_checked c;
       widthInput_value := x;
       heightInput_value := heightInput_value c;
       maintainAspect_checked := maintainAspect_checked c;
       percentageInput_value := percentageInput_value c;
       formatSelect_value := formatSelect_value c |} st.

Definition set_heightInput_value (x : string) (st : State) : State :=
  let c := controls st in
  with_controls
    {| qualitySlider_value := qualitySlider_value c;
       resizeToggle_checked := resizeToggle_checked c;
       resize_pixels_checked := resize_pixels_checked c;
       resize_percentage_checked := resize_percentage_checked c;
       widthInput_value := widthInput_value c;
       heightInput_value := x;
       maintainAspect_checked := maintainAspect_checked c;
       percentageInput_value := percentageInput_value c;
       formatSelect_value := formatSelect_value c |} st.

(** A Number written where the page expects text. *)
Definition number_text (x : float) : string := Number_toString x.

(** [array.length] as a Number. *)
Definition length_of {A : Type} (l : list A) : float :=
  NumberOfZ (Z.of_nat (length l)).

(** ** The functions of the script

    A callback chain that serves one file (reader, image, encoder) is run
    at the point where the script starts it, with the state of that
    moment.  The batch, where the callbacks of several files interleave,
    is a step relation further down. *)

(** The filter of [processFiles]. *)
Definition supported_type (file : File) : bool :=
  String.eqb (file_type file) "image/jpeg"
  || String.eqb (file_type file) "image/png"
  || String.eqb (file_type file) "image/webp".

Definition showControls (st : State) : State :=
  set_controlsSection_display block (set_uploadSection_display none st).

Definition displayOriginalImage (host : Host) (file : File) (st : State)
  : State :=
  let st := called (ReadAsDataURL file) st in
  if readable host file then
    let st := called (LoadImage (file_data file)) st in
    let st := set_originalPreview_src (DataSrc file) st in
    match decode host (file_data file) with
    | Some img =>
        let width := NumberOfN (img_width img) in
        let height := NumberOfN (img_height img) in
        let st := with_originalAspectRatio (width / height)%float st in
        let st := set_widthInput_value (number_text width) st in
        let st := set_heightInput_value (number_text height) st in
        set_previewSection_display block st
    | None => st
    end
  else st.

Definition processFiles (host : Host) (files : list File) (st : State)
  : State :=
  let imageFiles := List.filter supported_type files in
  match imageFiles with
  | [] => alert "Please upload JPG, PNG, or WebP images only." st
  | first :: _ =>
      let st := with_uploadedFiles imageFiles st in
      let st := with_currentFile (Some first) st in
      let st := showControls st in
      let st := displayOriginalImage host first st in
      let st := set_totalCount_text (number_text (length_of (uploadedFiles st))) st in
      let st := set_processedCount_text "0" st in
      let st := set_compressBtn_disabled false st in
      if (1 <? length (uploadedFiles st))%nat
      then set_batchSection_display block st
      else st
  end.

Definition handleWidthChange (st : State) : State :=
  if maintainAspect_checked (controls st)
     && (0 <? originalAspectRatio st)%float
  then
    let newWidth := or_else (parseInt (widthInput_value (controls st))) 0 in
    set_heightInput_value
      (number_text (Math_round (newWidth / originalAspectRatio st)%float)) st
  else st.

Definition handleHeightChange (st : State) : State :=
  if maintainAspect_checked (controls st)
     && (0 <? originalAspectRatio st)%float
  then
    let newHeight := or_else (parseInt (heightInput_value (controls st))) 0 in
    set_widthInput_value
      (number_text (Math_round (newHeight * originalAspectRatio st)%float)) st
  else st.

Definition getOutputFormat (st : State) (inputType : string) : value :=
  let selectedFormat := formatSelect_value (controls st) in
  if String.eqb selectedFormat "same"
  then index (split "/" inputType) 1
  else Str selectedFormat.

Definition getMimeType (format : value) : string :=
  if strict_eq format "jpeg" || strict_eq format "jpg" then "image/jpeg"
  else if strict_eq format "png" then "image/png"
  else if strict_eq format "webp" then "image/webp"
  else "image/jpeg".

Definition getOutputFileName (inputName : string) (outputFormat : value)
  : string :=
  let baseName := remove_extension inputName in
  baseName ++ "-compressed." ++ ToString outputFormat.

(** The dimensions [compressImage] gives the canvas (the block under
    "Set dimensions based on resize options"). *)
Definition resized_dimensions (st : State) (img : Image) : float * float :=
  let c := controls st in
  let width := NumberOfN (img_width img) in
  let height := NumberOfN (img_height img) in
  if resizeToggle_checked c then
    if resize_pixels_checked c then
      (or_else (parseInt (widthInput_value c)) width,
       or_else (parseInt (heightInput_value c)) height)
    else if resize_percentage_checked c then
      let percentage := (parseInt (percentageInput_value c) / 100)%float in
      (Math_round (width * percentage)%float,
       Math_round (height * percentage)%float)
    else (width, height)
  else (width, height).

Definition compressImage (host : Host) (file : File) (st : State)
  : Settled * State :=
  let st := called (ReadAsDataURL file) st in
  if readable host file then
    let st := called (LoadImage (file_data file)) st in
    match decode host (file_data file) with
    | Some img =>
        let quality :=
          (parseInt (qualitySlider_value (controls st)) / 100)%float in
        let outputFormat := getOutputFormat st (file_type file) in
        let (width, height) := resized_dimensions st img in
        let canvas :=
          {| canvas_width := width; canvas_height := height;
             canvas_image := img |} in
        let st := called (ToBlob canvas (getMimeType outputFormat) quality) st in
        match toBlob host canvas (getMimeType outputFormat) quality with
        | None => (Rejected "Failed to create blob from canvas", st)
        | Some blob =>
            let (url, st) := createObjectURL (OfBlob blob) st in
            (Resolved
               {| result_blob := blob;
                  result_url := url;
                  result_size := blob_size blob;
                  result_width := width;
                  result_height := height;
                  result_originalSize := file_size file;
                  result_originalWidth := img_width img;
                  result_originalHeight := img_height img;
                  result_name := getOutputFileName (file_name file) outputFormat;
                  result_type := getMimeType outputFormat |},
             st)
        end
    | None => (Rejected "Failed to load image", st)
    end
  else (Rejected "Failed to read file", st).

Definition displayCompressedImage (result : CompressionResult) (st : State)
  : State :=
  let st := set_compressedPreview_src (UrlSrc (result_url result)) st in
  set_previewSection_display block st.

(** ** The batch *)

(** A temporary image whose load is awaited, with what its [onload]
    closure captured. *)
Record TempImage : Type := {
  temp_file : File;
  temp_src : nat;
  temp_quality : float;
  temp_percentage : float;
  temp_outputFormat : string
}.

(** The worker created by [processBatchWithWorker]: the messages posted to
    it and not yet handled, those it posted back and not yet delivered,
    and the host calls made on its side.  Its global scope is taken to
    offer the same image and canvas facilities as the page. *)
Record Worker : Type := {
  worker_url : nat;
  terminated : bool;
  inbox : list WorkerRequest;
  outbox : list WorkerReply;
  worker_calls : list HostCall
}.

(** A batch in progress. *)
Record Batch : Type := {
  page : State;
  worker : Worker;
  loading : list TempImage
}.

Definition postMessage (request : WorkerRequest) (w : Worker) : Worker :=
  {| worker_url := worker_url w; terminated := terminated w;
     inbox := inbox w ++ [request]; outbox := outbox w;
     worker_calls := worker_calls w |}.

Definition terminate (w : Worker) : Worker :=
  {| worker_url := worker_url w; terminated := true;
     inbox := inbox w; outbox := outbox w;
     worker_calls := worker_calls w |}.

(** The canvas the worker draws for a request (the block under
    "Set dimensions"). *)
Definition worker_canvas (data : WorkerRequest) (img : Image) : Canvas :=
  let outputWidth :=
    if req_resize data then req_width data
    else NumberOfN (img_width img) in
  let outputHeight :=
    if req_resize data then req_height data
    else NumberOfN (img_height img) in
  {| canvas_width := outputWidth; canvas_height := outputHeight;
     canvas_image := img |}.

(** The worker's [self.onmessage] with its reader, image and encoder
    callbacks: the host calls it makes and the message it posts back, if
    it gets that far.  Nothing is posted when the reader or the image
    fails (no handler is installed for either), nor when the encoder hands
    over [null] (reading [blob.size] throws). *)
Definition self_onmessage (host : Host) (data : WorkerRequest)
  : list HostCall * option WorkerReply :=
  let file := req_file data in
  if readable host file then
    match decode host (file_data file) with
    | Some img =>
        let canvas := worker_canvas data img in
        let outputWidth := canvas_width canvas in
        let outputHeight := canvas_height canvas in
        let calls :=
          [ReadAsDataURL file; LoadImage (file_data file);
           ToBlob canvas (req_outputFormat data) (req_quality data)] in
        match toBlob host canvas (req_outputFormat data) (req_quality data) with
        | Some blob =>
            (calls,
             Some {| reply_blob := blob;
                     reply_name := file_name file;
                     reply_size := blob_size blob;
                     reply_originalSize := file_size file;
                     reply_width := outputWidth;
                     reply_height := outputHeight |})
        | None => (calls, None)
        end
    | None => ([ReadAsDataURL file; LoadImage (file_data file)], None)
    end
  else ([ReadAsDataURL file], None).

Definition addBatchResultItem (result : WorkerReply) (st : State) : State :=
  let (url, st) := createObjectURL (OfBlob (reply_blob result)) st in
  set_batchResults
    (batchResults (view st)
       ++ [{| item_url := url;
              item_size := reply_size result;
              item_originalSize := reply_originalSize result;
              item_width := reply_width result;
              item_height := reply_height result |}]) st.

(** [progressFill.style.width = `${percentage}%`]; a text that is not a
    length leaves the style as it was. *)
Definition set_progress (percentage : float) (st : State) : State :=
  if PrimFloat.is_finite percentage
  then set_progressFill_width (number_text percentage ++ "%") st
  else st.

(** The page's [worker.onmessage]. *)
Definition worker_onmessage (result : WorkerReply) (b : Batch) : Batch :=
  let st := page b in
  let name :=
    getOutputFileName (reply_name result)
      (getOutputFormat st
         (getMimeType (Str (blob_type (reply_blob result))))) in
  let (url, st) := createObjectURL (OfBlob (reply_blob result)) st in
  let st :=
    with_compressedFiles
      (compressedFiles st
         ++ [{| entry_blob := reply_blob result;
                entry_name := name;
                entry_url := url;
                entry_size := reply_size result;
                entry_originalSize := reply_originalSize result |}]) st in
  let processed := compressedFiles st in
  let total := uploadedFiles st in
  let percentage := (length_of processed / length_of total * 100)%float in
  let st := set_progress percentage st in
  let st := set_processedCount_text (number_text (length_of processed)) st in
  let st := addBatchResultItem result st in
  if (length processed =? length total)%nat then
    let st := set_downloadAllBtn_disabled false st in
    {| page := revokeObjectURL (worker_url (worker b)) st;
       worker := terminate (worker b);
       loading := loading b |}
  else
    {| page := st; worker := worker b; loading := loading b |}.

(** The body of [uploadedFiles.forEach] for one file. *)
Definition dispatch (b : Batch) (file : File) : Batch :=
  let st := page b in
  let c := controls st in
  let quality := (parseInt (qualitySlider_value c) / 100)%float in
  let outputFormat := getMimeType (getOutputFormat st (file_type file)) in
  let post (resize : bool) (width height : float) :=
    {| page := st;
       worker :=
         postMessage
           {| req_file := file; req_quality := quality;
              req_resize := resize; req_width := width;
              req_height := height; req_outputFormat := outputFormat |}
           (worker b);
       loading := loading b |} in
  if resizeToggle_checked c then
    if resize_pixels_checked c then
      post true (or_else (parseInt (widthInput_value c)) 0)
                (or_else (parseInt (heightInput_value c)) 0)
    else if resize_percentage_checked c then
      let percentage := (parseInt (percentageInput_value c) / 100)%float in
      let (src, st) := createObjectURL (OfFile file) st in
      {| page := st;
         worker := worker b;
         loading :=
           loading b
             ++ [{| temp_file := file; temp_src := src;
                    temp_quality := quality;
                    temp_percentage := percentage;
                    temp_outputFormat := outputFormat |}] |}
    else post true 0%float 0%float
  else post false 0%float 0%float.

(** The message [tempImg.onload] posts. *)
Definition tempImg_request (t : TempImage) (tempImg : Image) : WorkerRequest :=
  let width :=
    Math_round (NumberOfN (img_width tempImg) * temp_percentage t)%float in
  let height :=
    Math_round (NumberOfN (img_height tempImg) * temp_percentage t)%float in
  {| req_file := temp_file t; req_quality := temp_quality t;
     req_resize := true; req_width := width; req_height := height;
     req_outputFormat := temp_outputFormat t |}.

(** [tempImg.onload]. *)
Definition tempImg_onload (t : TempImage) (tempImg : Image) (b : Batch)
  : Batch :=
  {| page := revokeObjectURL (temp_src t) (page b);
     worker := postMessage (tempImg_request t tempImg) (worker b);
     loading := loading b |}.

Definition processBatchWithWorker (st : State) : Batch :=
  let st := set_batchSection_display block st in
  let st := set_progressFill_width "0%" st in
  let st := set_processedCount_text "0" st in
  let st := set_batchResults [] st in
  let (workerUrl, st) := createObjectURL OfWorkerCode st in
  fold_left dispatch (uploadedFiles st)
    {| page := st;
       worker :=
         {| worker_url := workerUrl; terminated := false;
            inbox := []; outbox := []; worker_calls := [] |};
       loading := [] |}.

(** [compressImages]: one file is compressed on the page, several start
    a batch. *)
Definition compressImages (host : Host) (st : State) : State + Batch :=
  match uploadedFiles st with
  | [] => inl st
  | [file] =>
      let st := with_compressedFiles [] st in
      match compressImage host file st with
      | (Resolved result, st) =>
          let st := with_compressedFile (Some (result_blob result)) st in
          let st := displayCompressedImage result st in
          inl (set_downloadBtn_disabled false st)
      | (Rejected _, st) =>
          inl (alert "Error compressing image. Please try again." st)
      end
  | _ :: _ :: _ =>
      inr (processBatchWithWorker (with_compressedFiles [] st))
  end.

(** The host settles the load of a temporary image: it leaves the
    images awaited. *)
Definition tempImg_settled (t : TempImage) (others : list TempImage)
    (b : Batch) : Batch :=
  {| page := called (LoadImage (file_data (temp_file t))) (page b);
     worker := worker b;
     loading := others |}.

(** The worker takes a message from its queue and handles it. *)
Definition worker_handles (host : Host) (data : WorkerRequest)
    (others : list WorkerRequest) (b : Batch) : Batch :=
  {| page := page b;
     worker :=
       {| worker_url := worker_url (worker b);
          terminated := terminated (worker b);
          inbox := others;
          outbox :=
            outbox (worker b)
              ++ match snd (self_onmessage host data) with
                 | Some reply => [reply]
                 | None => []
                 end;
          worker_calls :=
            worker_calls (worker b) ++ fst (self_onmessage host data) |};
     loading := loading b |}.

(** A message of the worker leaves the queue towards the page. *)
Definition page_takes (others : list WorkerReply) (b : Batch) : Batch :=
  {| page := page b;
     worker :=
       {| worker_url := worker_url (worker b);
          terminated := terminated (worker b);
          inbox := inbox (worker b);
          outbox := others;
          worker_calls := worker_calls (worker b) |};
     loading := loading b |}.

(** What can happen next in a batch: a temporary image settles, the
    worker handles a message, or the page receives one, in any order.  A
    terminated worker neither handles nor delivers anything. *)
Inductive step (host : Host) : Batch -> Batch -> Prop :=
| step_tempImg_load (b : Batch) (t : TempImage) (before after : list TempImage)
    (tempImg : Image) :
    loading b = (before ++ t :: after)%list ->
    decode host (file_data (temp_file t)) = Some tempImg ->
    step host b
      (tempImg_onload t tempImg (tempImg_settled t (before ++ after) b))
| step_tempImg_error (b : Batch) (t : TempImage)
    (before after : list TempImage) :
    loading b = (before ++ t :: after)%list ->
    decode host (file_data (temp_file t)) = None ->
    step host b (tempImg_settled t (before ++ after) b)
| step_worker (b : Batch) (data : WorkerRequest)
    (before after : list WorkerRequest) :
    terminated (worker b) = false ->
    inbox (worker b) = (before ++ data :: after)%list ->
    step host b (worker_handles host data (before ++ after) b)
| step_page (b : Batch) (result : WorkerReply)
    (before after : list WorkerReply) :
    terminated (worker b) = false ->
    outbox (worker b) = (before ++ result :: after)%list ->
    step host b (worker_onmessage result (page_takes (before ++ after) b)).

(** The batches a run can pass through. *)
Inductive reachable (host : Host) (start : Batch) : Batch -> Prop :=
| reachable_start : reachable host start start
| reachable_step (b b' : Batch) :
    reachable host start b -> step host b b' -> reachable host start b'.

(** A run spelled out: which awaited image, queued request or queued
    reply is served next, by position. *)
Inductive Event : Type :=
| TempImageSettles (i : nat)
| WorkerHandles (i : nat)
| PageReceives (i : nat).

Fixpoint take_nth {A : Type} (i : nat) (l : list A) : option (A * list A) :=
  match l, i with
  | [], _ => None
  | x :: l', O => Some (x, l')
  | x :: l', S i' =>
      match take_nth i' l' with
      | Some (y, others) => Some (y, x :: others)
      | None => None
      end
  end.

Definition fire (host : Host) (e : Event) (b : Batch) : option Batch :=
  match e with
  | TempImageSettles i =>
      match take_nth i (loading b) with
      | Some (t, others) =>
          match decode host (file_data (temp_file t)) with
          | Some tempImg =>
              Some (tempImg_onload t tempImg (tempImg_settled t others b))
          | None => Some (tempImg_settled t others b)
          end
      | None => None
      end
  | WorkerHandles i =>
      if terminated (worker b) then None
      else
        match take_nth i (inbox (worker b)) with
        | Some (data, others) => Some (worker_handles host data others b)
        | None => None
        end
  | PageReceives i =>
      if terminated (worker b) then None
      else
        match take_nth i (outbox (worker b)) with
        | Some (result, others) =>
            Some (worker_onmessage result (page_takes others b))
        | None => None
        end
  end.

Fixpoint run (host : Host) (events : list Event) (b : Batch) : option Batch :=
  match events with
  | [] => Some b
  | e :: events' =>
      match fire host e b with
      | Some b' => run host events' b'
      | None => None
      end
  end.

(** ** Reset *)

Definition resetApp (st : State) : State :=
  let st := with_uploadedFiles [] st in
  let st := with_currentFile None st in
  let st := with_compressedFile None st in
  let st := with_compressedFiles [] st in
  let st :=
    with_view
      {| fileInput_value := "";
         uploadSection_display := block;
         controlsSection_display := none;
         previewSection_display := none;
         batchSection_display := none;
         originalPreview_src := NoSrc;
         compressedPreview_src := NoSrc;
         progressFill_width := "0%";
         processedCount_text := "0";
         totalCount_text := "0";
         batchResults := [];
         compressBtn_disabled := compressBtn_disabled (view st);
         downloadBtn_disabled := true;
         downloadAllBtn_disabled := true |} st in
  if (0 <? length (compressedFiles st))%nat then
    fold_left (fun st file => revokeObjectURL (entry_url file) st)
      (compressedFiles st) st
  else st.

(** ** Selection and downloads *)

(** [handleFileSelect]: an empty selection is ignored. *)
Definition handleFileSelect (host : Host) (files : list File) (st : State)
  : State :=
  if (0 <? length files)%nat then processFiles host files st else st.

(** A link that was clicked: its [href] and its [download] name. *)
Record Download : Type := {
  link_href : nat;
  link_download : string
}.

(** [downloadCompressedImage]: the state after it and the links it
    clicked.  The link's [href] is assigned before [currentFile] is read,
    so with no current file the object URL is created and the handler ends
    (on a TypeError) before the click. *)
Definition downloadCompressedImage (st : State) : State * list Download :=
  match compressedFile st with
  | None => (st, [])
  | Some blob =>
      let (href, st) := createObjectURL (OfBlob blob) st in
      match currentFile st with
      | Some file =>
          (st,
           [{| link_href := href;
               link_download :=
                 getOutputFileName (file_name file)
                   (getOutputFormat st (file_type file)) |}])
      | None => (st, [])
      end
  end.

(** The link [downloadAllCompressedImages] clicks for one entry. *)
Definition entry_link (file : CompressedEntry) : Download :=
  {| link_href := entry_url file; link_download := entry_name file |}.

Definition downloadAllCompressedImages (st : State) : State * list Download :=
  match compressedFiles st with
  | [] => (st, [])
  | [file] => (st, [entry_link file])
  | _ :: _ :: _ =>
      let st :=
        alert "In a real implementation, this would create a ZIP file with all compressed images. For now, please download images individually." st in
      (st,
       fold_left (fun clicked file => (clicked ++ [entry_link file])%list)
         (compressedFiles st) [])
  end.

(** ** The page as a whole

    What [initializeEventListeners] wires up, as far as it changes the
    state: the user edits the controls, types into the width or the
    height field, chooses or drops files, and clicks one of the four
    buttons.  The listeners of the quality slider and of the resize toggle
    only refresh captions.  A button is taken to be clickable whether or
    not it is disabled, and, as above, the callback chain of a single-file
    compression runs within the listener that starts it. *)
Inductive UserEvent : Type :=
| ControlsEdited (c : Controls)
| WidthTyped (text : string)
| HeightTyped (text : string)
| FilesChosen (files : list File)
| CompressClicked
| DownloadClicked
| DownloadAllClicked
| ResetClicked.

(** The page and the batches started so far, each with its own worker and
    its own temporary images; they all share the page. *)
Record App : Type := {
  app_page : State;
  app_batches : list (Worker * list TempImage)
}.

Definition batch_at (st : State) (wl : Worker * list TempImage) : Batch :=
  {| page := st; worker := fst wl; loading := snd wl |}.

Definition on_page (st : State) (a : App) : App :=
  {| app_page := st; app_batches := app_batches a |}.

(** The listener of a user event. *)
Definition listener (host : Host) (e : UserEvent) (a : App) : App :=
  let st := app_page a in
  match e with
  | ControlsEdited c => on_page (with_controls c st) a
  | WidthTyped text =>
      on_page (handleWidthChange (set_widthInput_value text st)) a
  | HeightTyped text =>
      on_page (handleHeightChange (set_heightInput_value text st)) a
  | FilesChosen files => on_page (handleFileSelect host files st) a
  | CompressClicked =>
      match compressImages host st with
      | inl st' => on_page st' a
      | inr b =>
          {| app_page := page b;
             app_batches := app_batches a ++ [(worker b, loading b)] |}
      end
  | DownloadClicked => on_page (fst (downloadCompressedImage st)) a
  | DownloadAllClicked => on_page (fst (downloadAllCompressedImages st)) a
  | ResetClicked => on_page (resetApp st) a
  end.

(** What can happen next on the page: a user event, or an event of one of
    the batches. *)
Inductive app_step (host : Host) : App -> App -> Prop :=
| app_user (a : App) (e : UserEvent) : app_step host a (listener host e a)
| app_batch (a : App) (before after : list (Worker * list TempImage))
    (wl : Worker * list TempImage) (b' : Batch) :
    app_batches a = (before ++ wl :: after)%list ->
    step host (batch_at (app_page a) wl) b' ->
    app_step host a
      {| app_page := page b';
         app_batches := (before ++ (worker b', loading b') :: after)%list |}.

Inductive app_reachable (host : Host) (start : App) : App -> Prop :=
| app_reachable_start : app_reachable host start start
| app_reachable_step (a a' : App) :
    app_reachable host start a -> app_step host a a' ->
    app_reachable host start a'.

(** The page with no batch started. *)
Definition idle (st : State) : App :=
  {| app_page := st; app_batches := [] |}.

(** The user events of a list, one after the other. *)
Definition listeners (host : Host) (events : list UserEvent) (a : App)
  : App :=
  fold_left (fun a e => listener host e a) events a.

(** A run of the page spelled out: a user event, or an event of the
    batch at a position. *)
Inductive AppEvent : Type :=
| ByUser (e : UserEvent)
| InBatch (i : nat) (e : Event).

Fixpoint split_at {A : Type} (i : nat) (l : list A)
  : option (list A * A * list A) :=
  match l, i with
  | [], _ => None
  | x :: l', O => Some ([], x, l')
  | x :: l', S i' =>
      match split_at i' l' with
      | Some (before, y, after) => Some (x :: before, y, after)
      | None => None
      end
  end.

Definition app_fire (host : Host) (ev : AppEvent) (a : App) : option App :=
  match ev with
  | ByUser e => Some (listener host e a)
  | InBatch i e =>
      match split_at i (app_batches a) with
      | Some (before, wl, after) =>
          match fire host e (batch_at (app_page a) wl) with
          | Some b' =>
              Some {| app_page := page b';
                      app_batches :=
                        before ++ (worker b', loading b') :: after |}
          | None => None
          end
      | None => None
      end
  end.

Fixpoint app_run (host : Host) (events : list AppEvent) (a : App)
  : option App :=
  match events with
  | [] => Some a
  | ev :: events' =>
      match app_fire host ev a with
      | Some a' => app_run host events' a'
      | None => None
      end
  end.

(** ** Vocabulary of the statements, and sample inputs *)

Definition supported_mime_types : list string :=
  ["image/jpeg"; "image/png"; "image/webp"].

Definition recognised_formats : list string :=
  ["jpeg"; "jpg"; "png"; "webp"].

(** The page as the script's own initial values and [resetApp] leave it,
    with sample settings in the controls. *)
Definition sample_controls : Controls :=
  {| qualitySlider_value := "80";
     resizeToggle_checked := false;
     resize_pixels_checked := true;
     resize_percentage_checked := false;
     widthInput_value := "";
     heightInput_value := "";
     maintainAspect_checked := true;
     percentageInput_value := "50";
     formatSelect_value := "same" |}.

Definition blank_view : View :=
  {| fileInput_value := "";
     uploadSection_display := block;
     controlsSection_display := none;
     previewSection_display := none;
     batchSection_display := none;
     originalPreview_src := NoSrc;
     compressedPreview_src := NoSrc;
     progressFill_width := "0%";
     processedCount_text := "0";
     totalCount_text := "0";
     batchResults := [];
     compressBtn_disabled := true;
     downloadBtn_disabled := true;
     downloadAllBtn_disabled := true |}.

Definition initial_state : State :=
  {| uploadedFiles := [];
     currentFile := None;
     compressedFile := None;
     compressedFiles := [];
     originalAspectRatio := 0;
     controls := sample_controls;
     view := blank_view;
     object_urls := ∅;
     next_url := 0;
     alerts := [];
     host_calls := [] |}.

(** A host that reads every file, decodes everything but the bytes
    "corrupt" as a 1000 x 500 image, and encodes every canvas. *)
Definition sample_host : Host :=
  {| readable := fun _ => true;
     decode := fun data =>
       if String.eqb data "corrupt" then None
       else Some {| img_width := 1000; img_height := 500;
                    img_pixels := data |};
     toBlob := fun _ mime _ =>
       Some {| blob_data := "encoded"; blob_type := mime |} |}.

Definition photo : File :=
  {| file_name := "photo.png"; file_type := "image/png";
     file_data := "pixels" |}.

(** The page after [photo] was chosen and shown. *)
Definition photo_loaded : State :=
  processFiles sample_host [photo] initial_state.

(** Resizing switched on, by percentage or in pixels. *)
Definition percentage_controls (percentage : string) : Controls :=
  {| qualitySlider_value := "80";
     resizeToggle_checked := true;
     resize_pixels_checked := false;
     resize_percentage_checked := true;
     widthInput_value := "1000";
     heightInput_value := "500";
     maintainAspect_checked := true;
     percentageInput_value := percentage;
     formatSelect_value := "same" |}.

Definition pixel_controls (width height : string) : Controls :=
  {| qualitySlider_value := "80";
     resizeToggle_checked := true;
     resize_pixels_checked := true;
     resize_percentage_checked := false;
     widthInput_value := width;
     heightInput_value := height;
     maintainAspect_checked := false;
     percentageInput_value := "100";
     formatSelect_value := "same" |}.

Definition sample_image : Image :=
  {| img_width := 1000; img_height := 500; img_pixels := "pixels" |}.

Definition notes : File :=
  {| file_name := "notes.txt"; file_type := "text/plain";
     file_data := "hello" |}.

(** The type of a file is one the script admits. *)
Definition supported (file : File) : Prop :=
  In (file_type file) supported_mime_types.

(** A host call made on behalf of the file [g]. *)
Definition call_for (g : File) (call : HostCall) : Prop :=
  call = ReadAsDataURL g \/ call = LoadImage (file_data g).

(** Whether the worker will post a result for a request, and for an
    awaited image once it has settled. *)
Definition answers (host : Host) (data : WorkerRequest) : bool :=
  match snd (self_onmessage host data) with
  | Some _ => true
  | None => false
  end.

Definition temp_answers (host : Host) (t : TempImage) : bool :=
  match decode host (file_data (temp_file t)) with
  | Some tempImg => answers host (tempImg_request t tempImg)
  | None => false
  end.

(** The results a batch has received or can still receive. *)
Definition expected (host : Host) (b : Batch) : nat :=
  (length (compressedFiles (page b))
   + length (outbox (worker b))
   + length (List.filter (answers host) (inbox (worker b)))
   + length (List.filter (temp_answers host) (loading b)))%nat.

(** Nothing is awaited, queued or in flight any more. *)
Definition quiescent (b : Batch) : Prop :=
  loading b = [] /\ inbox (worker b) = [] /\ outbox (worker b) = [].

(** A host call that encodes does so at the given quality. *)
Definition encodes_at (quality : float) (call : HostCall) : Prop :=
  match call with
  | ToBlob _ _ q => q = quality
  | _ => True
  end.

Definition corrupt : File :=
  {| file_name := "broken.jpg"; file_type := "image/jpeg";
     file_data := "corrupt" |}.

Definition sunset : File :=
  {| file_name := "sunset.webp"; file_type := "image/webp";
     file_data := "sky" |}.

(** Three files chosen, the second of them corrupt, and compression
    started. *)
Definition three_chosen : State :=
  processFiles sample_host [photo; corrupt; sunset] initial_state.

Definition batch_of_three : Batch :=
  processBatchWithWorker (with_compressedFiles [] three_chosen).

(** Two good files chosen and compression started. *)
Definition two_chosen : State :=
  processFiles sample_host [photo; sunset] initial_state.

Definition batch_of_two : Batch :=
  processBatchWithWorker (with_compressedFiles [] two_chosen).

(** A host whose encoder hands over an empty blob, and one whose encoder
    hands over [null]. *)
Definition empty_blob_host : Host :=
  {| readable := readable sample_host;
     decode := decode sample_host;
     toBlob := fun _ mime _ => Some {| blob_data := ""; blob_type := mime |} |}.

Definition null_blob_host : Host :=
  {| readable := readable sample_host;
     decode := decode sample_host;
     toBlob := fun _ _ _ => None |}.

(** The quality slider holding a text of one's choice. *)
Definition quality_controls (quality : string) : Controls :=
  {| qualitySlider_value := quality;
     resizeToggle_checked := false;
     resize_pixels_checked := true;
     resize_percentage_checked := false;
     widthInput_value := "1000";
     heightInput_value := "500";
     maintainAspect_checked := true;
     percentageInput_value := "100";
     formatSelect_value := "same" |}.

(** Every request queued, every image awaited and every encoding done by
    the worker carries the quality [q]. *)
Definition carries (q : float) (b : Batch) : Prop :=
  Forall (fun data => req_quality data = q) (inbox (worker b))
  /\ Forall (fun t => temp_quality t = q) (loading b)
  /\ Forall (encodes_at q) (worker_calls (worker b)).

(** A batch with nothing in it yet. *)
Definition fresh_batch (st : State) : Batch :=
  {| page := st;
     worker :=
       {| worker_url := 0; terminated := false;
          inbox := []; outbox := []; worker_calls := [] |};
     loading := [] |}.

(** The request the page ends up posting for one file: at once, or when
    the temporary image of the percentage mode has loaded. *)
Definition posted_for (host : Host) (st : State) (file : File)
  : option WorkerRequest :=
  let b := dispatch (fresh_batch st) file in
  match inbox (worker b), loading b with
  | data :: _, _ => Some data
  | [], t :: _ =>
      match decode host (file_data (temp_file t)) with
      | Some tempImg => Some (tempImg_request t tempImg)
      | None => None
      end
  | [], [] => None
  end.

(** The settings name a size: resizing is off, or pixels with a width and
    a height that are numbers other than zero, or a percentage. *)
Definition names_a_size (c : Controls) : Prop :=
  resizeToggle_checked c = false
  \/ (resize_pixels_checked c = true
      /\ ToBoolean (parseInt (widthInput_value c)) = true
      /\ ToBoolean (parseInt (heightInput_value c)) = true)
  \/ (resize_pixels_checked c = false
      /\ resize_percentage_checked c = true).

(** The whole numbers 0 to 100, a percentage each. *)
Definition percentages : list Z := map Z.of_nat (seq 0 101).

Definition within_unit (q : float) : bool :=
  (0 <=? q)%float && (q <=? 1)%float.

(** The host cannot read the file or cannot decode its bytes. *)
Definition undecodable (host : Host) (file : File) : Prop :=
  readable host file = false \/ decode host (file_data file) = None.

(** A decimal digit. *)
Definition is_digit (d : Z) : Prop := 0 <= d <= 9.

(** The host reads the file and decodes its bytes. *)
Definition decodable (host : Host) (file : File) : Prop :=
  readable host file = true
  /\ exists img, decode host (file_data file) = Some img.

(** The encoder never hands over [null]. *)
Definition always_encodes (host : Host) : Prop :=
  forall canvas mime quality, toBlob host canvas mime quality <> None.

(** Every object URL alive was handed out before [next_url]. *)
Definition urls_fresh (st : State) : Prop :=
  forall url target,
    object_urls st !! url = Some target -> (url < next_url st)%nat.

(** The URL of every element of [compressedFiles] is alive and holds the
    element's blob; the preview URL of every row of the results list is
    alive and holds a blob. *)
Definition results_alive (st : State) : Prop :=
  forall file,
    In file (compressedFiles st) ->
    object_urls st !! entry_url file = Some (OfBlob (entry_blob file)).

Definition items_alive (st : State) : Prop :=
  forall item,
    In item (batchResults (view st)) ->
    exists blob, object_urls st !! item_url item = Some (OfBlob blob).

(** The URLs a batch relies on: those of its results, that of the worker's
    code while the worker runs, and one of its own for every temporary
    image still awaited. *)
Definition batch_urls_ok (b : Batch) : Prop :=
  urls_fresh (page b)
  /\ results_alive (page b)
  /\ items_alive (page b)
  /\ (terminated (worker b) = false ->
      object_urls (page b) !! worker_url (worker b) = Some OfWorkerCode)
  /\ (forall t, In t (loading b) ->
                object_urls (page b) !! temp_src t
                = Some (OfFile (temp_file t)))
  /\ NoDup (map temp_src (loading b)).

(** The settings ask for a resize by percentage. *)
Definition by_percentage (c : Controls) : Prop :=
  resizeToggle_checked c = true
  /\ resize_pixels_checked c = false
  /\ resize_percentage_checked c = true.

(** The three files of [three_chosen], to be resized to half. *)
Definition three_by_percentage : State :=
  with_controls (percentage_controls "50") three_chosen.

(** No object URL alive holds a file that decodes. *)
Definition no_decodable_file_url (host : Host) (st : State) : Prop :=
  forall url f,
    object_urls st !! url = Some (OfFile f) ->
    decode host (file_data f) = None.

(** [resetApp] clicked while a batch runs.  The worker and the temporary
    images are local to [processBatchWithWorker]: the handler reaches
    neither. *)
Definition resetApp_during (b : Batch) : Batch :=
  {| page := resetApp (page b); worker := worker b; loading := loading b |}.

(** The page after [photo] was chosen and compressed. *)
Definition photo_compressed : State :=
  match compressImages sample_host photo_loaded with
  | inl st => st
  | inr b => page b
  end.

(** The object URLs of [st'] continue those of [st]: no URL handed out by
    then has changed its target, and none that held a blob is gone. *)
Definition continues (st st' : State) : Prop :=
  (next_url st <= next_url st')%nat
  /\ (forall url target,
         object_urls st' !! url = Some target ->
         (url < next_url st)%nat ->
         object_urls st !! url = Some target)
  /\ (forall url blob,
         object_urls st !! url = Some (OfBlob blob) ->
         object_urls st' !! url = Some (OfBlob blob))
  /\ urls_fresh st'.

(** A URL that was handed out and holds no blob. *)
Definition holds_no_blob (st : State) (url : nat) : Prop :=
  (url < next_url st)%nat
  /\ forall blob, object_urls st !! url <> Some (OfBlob blob).

(** The URLs the batches may still revoke hold no blob. *)
Definition app_ok (a : App) : Prop :=
  urls_fresh (app_page a)
  /\ results_alive (app_page a)
  /\ Forall (fun wl =>
               holds_no_blob (app_page a) (worker_url (fst wl))
               /\ Forall (fun t => holds_no_blob (app_page a) (temp_src t))
                    (snd wl))
       (app_batches a).

(** A reply, and an element of [compressedFiles], made from one of the
    files. *)
Definition reply_from (files : list File) (r : WorkerReply) : Prop :=
  exists file,
    In file files
    /\ reply_name r = file_name file
    /\ reply_originalSize r = file_size file.

Definition entry_from (files : list File) (e : CompressedEntry) : Prop :=
  exists file format,
    In file files
    /\ entry_name e = getOutputFileName (file_name file) format
    /\ entry_originalSize e = file_size file.

(** Everything in flight in a batch concerns one of the files. *)
Definition from_chosen (files : list File) (b : Batch) : Prop :=
  Forall (fun data => In (req_file data) files) (inbox (worker b))
  /\ Forall (fun t => In (temp_file t) files) (loading b)
  /\ Forall (reply_from files) (outbox (worker b))
  /\ Forall (entry_from files) (compressedFiles (page b)).

(** "Download" is enabled only with a compressed blob and a current
    file. *)
Definition download_ready (st : State) : Prop :=
  downloadBtn_disabled (view st) = false ->
  compressedFile st <> None /\ currentFile st <> None.

(** ** Properties *)

(** *** Numerals *)

Ltac digit_cases d :=
  let H := fresh "Hd" in
  assert (H : d = 0 \/ d = 1 \/ d = 2 \/ d = 3 \/ d = 4
              \/ d = 5 \/ d = 6 \/ d = 7 \/ d = 8 \/ d = 9) by lia;
  destruct H as [->|[->|[->|[->|[->|[->|[->|[->|[->| ->]]]]]]]]].

Lemma strip_prefix_length (w s t : string) :
  strip_prefix w s = Some t ->
  String.length s = (String.length w + String.length t)%nat.
Proof.
  revert s. induction w as [|a w IH]; intros s; cbn.
  - now intros [= ->].
  - destruct s as [|c s]; [discriminate|].
    destruct (Ascii.eqb a c); [|discriminate].
    intros H. cbn. now rewrite (IH s H).
Qed.

Lemma white_space_nonempty : Forall (fun w => w <> "") white_space.
Proof.
  apply List.Forall_forall. intros w Hw. vm_compute in Hw.
  repeat (destruct Hw as [<-|Hw]; [discriminate|]). destruct Hw.
Qed.

Lemma strip_one_space_shorter (s t : string) :
  strip_one_space s = Some t -> (String.length t < String.length s)%nat.
Proof.
  unfold strip_one_space. pose proof white_space_nonempty as Hne.
  induction Hne as [|w ws Hw _ IH]; cbn; [discriminate|].
  destruct (strip_prefix w s) as [u|] eqn:Hstrip; [|exact IH].
  intros [= ->]. apply strip_prefix_length in Hstrip.
  destruct w; [contradiction|]. cbn in Hstrip. lia.
Qed.

Lemma trim_start_fuel_done (fuel : nat) (s : string) :
  (String.length s <= fuel)%nat ->
  strip_one_space (trim_start_fuel fuel s) = None.
Proof.
  revert s. induction fuel as [|fuel IH]; intros s Hlen;
    cbn [trim_start_fuel].
  - destruct s; [vm_compute; reflexivity|cbn in Hlen; lia].
  - destruct (strip_one_space s) as [t|] eqn:Hstrip; [|exact Hstrip].
    apply IH. apply strip_one_space_shorter in Hstrip. lia.
Qed.

(** [trim_start] leaves no white space at the front. *)
Lemma trim_start_done (s : string) :
  strip_one_space (trim_start s) = None.
Proof.
  apply trim_start_fuel_done. lia.
Qed.

Lemma digit_value_digit_char (d : Z) :
  is_digit d -> digit_value 10 (digit_char d) = Some d.
Proof.
  unfold is_digit. intros H. digit_cases d; reflexivity.
Qed.

Lemma trim_start_digit (d : Z) (s : string) :
  is_digit d ->
  trim_start (String (digit_char d) s) = String (digit_char d) s.
Proof.
  unfold is_digit, trim_start. intros H. cbn [String.length trim_start_fuel].
  digit_cases d; vm_compute; reflexivity.
Qed.

Lemma split_sign_digit (d : Z) (s : string) :
  is_digit d ->
  split_sign (String (digit_char d) s) = (false, String (digit_char d) s).
Proof.
  unfold is_digit. intros H. digit_cases d; reflexivity.
Qed.

Lemma split_radix_digits (d : Z) (ds : list Z) :
  is_digit d -> Forall is_digit ds ->
  split_radix (string_of_digits (d :: ds)) = (10, string_of_digits (d :: ds)).
Proof.
  unfold is_digit at 1. intros H Hds.
  digit_cases d; try reflexivity.
  destruct Hds as [|e ds He _]; [reflexivity|].
  unfold is_digit in He. digit_cases e; reflexivity.
Qed.

Lemma leading_digits_string_of_digits (ds : list Z) :
  Forall is_digit ds -> leading_digits 10 (string_of_digits ds) = ds.
Proof.
  induction 1 as [|d ds Hd _ IH]; [reflexivity|].
  change (string_of_digits (d :: ds))
    with (String (digit_char d) (string_of_digits ds)).
  cbn [leading_digits].
  now rewrite (digit_value_digit_char d Hd), IH.
Qed.

Lemma digits_value_snoc (radix : Z) (ds : list Z) (d : Z) :
  digits_value radix (ds ++ [d]) = radix * digits_value radix ds + d.
Proof.
  unfold digits_value. now rewrite fold_left_app.
Qed.

Lemma digits_fuel_range (fuel : nat) (n : Z) :
  0 <= n -> Forall is_digit (digits_fuel fuel n).
Proof.
  revert n. induction fuel as [|fuel IH]; intros n Hn; cbn; [constructor|].
  apply List.Forall_app. split.
  - destruct (n <? 10); [constructor|]. apply IH. now apply Z.div_pos.
  - repeat constructor; unfold is_digit;
      pose proof (Z.mod_pos_bound n 10); lia.
Qed.

(** With fuel for all its digits, a number is the value of its digits. *)
Lemma digits_fuel_value (fuel : nat) (n : Z) :
  0 <= n < 10 ^ Z.of_nat fuel ->
  digits_value 10 (digits_fuel fuel n) = n.
Proof.
  revert n. induction fuel as [|fuel IH]; intros n Hn.
  - cbn in *. unfold digits_value. cbn. lia.
  - cbn [digits_fuel]. rewrite digits_value_snoc.
    destruct (Z.ltb_spec n 10) as [Hsmall|Hbig].
    + unfold digits_value. cbn. rewrite Z.mod_small; lia.
    + rewrite IH.
      * pose proof (Z.div_mod n 10). lia.
      * rewrite Nat2Z.inj_succ, Z.pow_succ_r in Hn by lia.
        split; [apply Z.div_pos; lia|].
        apply Z.div_lt_upper_bound; lia.
Qed.

Lemma decimal_fuel_enough (n : Z) :
  0 <= n -> n < 10 ^ Z.of_nat (S (Z.to_nat (Z.log2 n))).
Proof.
  intros Hn. pose proof (Z.log2_nonneg n) as Hlog.
  rewrite Nat2Z.inj_succ, Z2Nat.id by exact Hlog.
  destruct (Z.eq_dec n 0) as [->|Hpos]; [reflexivity|].
  destruct (Z.log2_spec n) as [_ Hup]; [lia|].
  eapply Z.lt_le_trans; [exact Hup|].
  apply Z.pow_le_mono_l. lia.
Qed.

(** [parseInt] reads a decimal numeral back as the number it writes. *)
Lemma parseInt_decimal (n : Z) :
  0 <= n -> parseInt (decimal n) = NumberOfZ n.
Proof.
  intros Hn. unfold decimal.
  pose proof (digits_fuel_range (S (Z.to_nat (Z.log2 n))) n Hn) as Hrange.
  pose proof (digits_fuel_value _ n (conj Hn (decimal_fuel_enough n Hn)))
    as Hvalue.
  destruct (digits_fuel (S (Z.to_nat (Z.log2 n))) n) as [|d ds] eqn:Hds.
  - cbn [digits_fuel] in Hds. now destruct (if n <? 10 then _ else _).
  - pose proof (List.Forall_inv Hrange) as Hd.
    pose proof (List.Forall_inv_tail Hrange) as Htail.
    unfold parseInt.
    change (string_of_digits (d :: ds))
      with (String (digit_char d) (string_of_digits ds)) at 1.
    rewrite (trim_start_digit d _ Hd), (split_sign_digit d _ Hd).
    change (String (digit_char d) (string_of_digits ds))
      with (string_of_digits (d :: ds)).
    rewrite (split_radix_digits d ds Hd Htail).
    rewrite (leading_digits_string_of_digits (d :: ds) Hrange), Hvalue.
    destruct (Z.eqb_spec n 0) as [->|_]; reflexivity.
Qed.

(** *** Output format and file name *)

Lemma strict_eq_false (format : string) (s : string) :
  format <> s -> strict_eq (Str format) s = false.
Proof.
  intros Hne. simpl. apply String.eqb_neq. exact Hne.
Qed.

(** A format that is none of the four names falls through to the default
    of the [switch]. *)
Lemma getMimeType_unrecognised (format : value) :
  (forall s, In s recognised_formats -> format <> Str s) ->
  getMimeType format = "image/jpeg".
Proof.
  intros Hnot. destruct format as [|s]; [reflexivity|].
  assert (Hs : forall t, In t recognised_formats -> s <> t).
  { intros t Ht Heq. apply (Hnot t Ht). now rewrite Heq. }
  unfold getMimeType.
  rewrite !strict_eq_false; [reflexivity| | | |];
    apply Hs; unfold recognised_formats; simpl; auto.
Qed.

(** C10. [getMimeType] is total, its result is always one of the three
    supported MIME types, and a format that is none of "jpeg", "jpg", "png",
    "webp" (or is [undefined]) is mapped to "image/jpeg" rather than
    rejected. *)
Theorem getMimeType_defaults_to_jpeg (format : value) :
  In (getMimeType format) supported_mime_types
  /\ ((forall s, In s recognised_formats -> format <> Str s) ->
      getMimeType format = "image/jpeg").
Proof.
  split; [|apply getMimeType_unrecognised].
  unfold getMimeType, supported_mime_types.
  destruct (strict_eq format "jpeg" || strict_eq format "jpg");
    [simpl; auto|].
  destruct (strict_eq format "png"); [simpl; auto|].
  destruct (strict_eq format "webp"); simpl; auto.
Qed.

Lemma getMimeType_defaults_to_jpeg_witness :
  (forall s, In s recognised_formats -> Str "gif" <> Str s)
  /\ getMimeType (Str "gif") = "image/jpeg".
Proof.
  assert (H : forall s, In s recognised_formats -> Str "gif" <> Str s).
  { intros s Hs. unfold recognised_formats in Hs. simpl in Hs.
    destruct Hs as [<-|[<-|[<-|[<-|[]]]]]; discriminate. }
  split; [exact H|].
  exact (proj2 (getMimeType_defaults_to_jpeg (Str "gif")) H).
Defined.

Lemma no_dot_app_dot (base ext : string) :
  no_dot (base ++ "." ++ ext) = false.
Proof.
  induction base as [|c base IH]; simpl.
  - reflexivity.
  - rewrite IH. apply andb_false_r.
Qed.

Lemma extension_here_cons (c : ascii) (base ext : string) :
  extension_here (String c (base ++ "." ++ ext)) = false.
Proof.
  unfold extension_here.
  destruct (Ascii.eqb_spec c ".") as [->|Hc].
  - destruct base as [|d base]; simpl.
    + reflexivity.
    + fold (no_dot (base ++ "." ++ ext)).
      rewrite (no_dot_app_dot base ext). apply andb_false_r.
  - destruct c as [[] [] [] [] [] [] [] []]; try reflexivity.
    now contradiction Hc.
Qed.

(** The extension, when there is one, is all that is removed. *)
Lemma remove_extension_app (base ext : string) :
  ext <> "" -> no_dot ext = true ->
  remove_extension (base ++ "." ++ ext) = base.
Proof.
  intros Hne Hdot. induction base as [|c base IH].
  - destruct ext as [|d ext]; [contradiction|].
    change ("" ++ "." ++ String d ext) with (String "." (String d ext)).
    cbn [remove_extension extension_here]. now rewrite Hdot.
  - change (String c base ++ "." ++ ext)
      with (String c (base ++ "." ++ ext)).
    cbn [remove_extension]. rewrite extension_here_cons. now rewrite IH.
Qed.

(** A name with no extension is left as it is. *)
Lemma remove_extension_none (name : string) :
  (forall base ext, name = base ++ "." ++ ext ->
                    ext = "" \/ no_dot ext = false) ->
  remove_extension name = name.
Proof.
  induction name as [|c name IH]; intros Hnone; [reflexivity|].
  cbn [remove_extension].
  destruct (extension_here (String c name)) eqn:Hhere.
  - exfalso. unfold extension_here in Hhere.
    destruct c as [[] [] [] [] [] [] [] []]; try discriminate.
    destruct name as [|d name]; [discriminate|].
    destruct (Hnone "" (String d name) eq_refl) as [H|H];
      [discriminate|congruence].
  - f_equal. apply IH. intros base ext ->.
    apply (Hnone (String c base) ext). reflexivity.
Qed.

(** C7. The suggested name is the input name without its extension
    (the last dot and what follows it, when something follows), then
    "-compressed.", then the output format; the extension of the input
    name has no part in it.  A name without extension is kept whole. *)
Theorem getOutputFileName_replaces_extension
    (inputName : string) (outputFormat : value) :
  (forall base ext,
      inputName = base ++ "." ++ ext -> ext <> "" -> no_dot ext = true ->
      getOutputFileName inputName outputFormat
      = base ++ "-compressed." ++ ToString outputFormat)
  /\ ((forall base ext, inputName = base ++ "." ++ ext ->
                        ext = "" \/ no_dot ext = false) ->
      getOutputFileName inputName outputFormat
      = inputName ++ "-compressed." ++ ToString outputFormat).
Proof.
  unfold getOutputFileName. split.
  - intros base ext -> Hne Hdot. now rewrite remove_extension_app.
  - intros Hnone. now rewrite remove_extension_none.
Qed.

Lemma getOutputFileName_replaces_extension_witness :
  getOutputFileName "photo.PNG" (Str "jpeg") = "photo-compressed.jpeg".
Proof.
  refine (proj1 (getOutputFileName_replaces_extension "photo.PNG" (Str "jpeg"))
            "photo" "PNG" eq_refl _ eq_refl).
  discriminate.
Defined.

(** *** Aspect-ratio lock *)

(** C3. With the lock on and the aspect ratio known, a change of the width
    writes [round(width / ratio)] into the height field and a change of the
    height writes [round(height * ratio)] into the width field; the value
    written depends on the changed field and the ratio alone, and the
    changed field itself is left as typed. *)
Theorem aspect_ratio_companion (st : State) :
  maintainAspect_checked (controls st) = true ->
  (0 <? originalAspectRatio st)%float = true ->
  let ratio := originalAspectRatio st in
  let typed_width := or_else (parseInt (widthInput_value (controls st))) 0 in
  let typed_height := or_else (parseInt (heightInput_value (controls st))) 0 in
  heightInput_value (controls (handleWidthChange st))
  = number_text (Math_round (typed_width / ratio)%float)
  /\ widthInput_value (controls (handleWidthChange st))
     = widthInput_value (controls st)
  /\ widthInput_value (controls (handleHeightChange st))
     = number_text (Math_round (typed_height * ratio)%float)
  /\ heightInput_value (controls (handleHeightChange st))
     = heightInput_value (controls st)
  /\ (forall st2 : State,
         maintainAspect_checked (controls st2) = true ->
         originalAspectRatio st2 = originalAspectRatio st ->
         (widthInput_value (controls st2) = widthInput_value (controls st) ->
          heightInput_value (controls (handleWidthChange st2))
          = heightInput_value (controls (handleWidthChange st)))
         /\ (heightInput_value (controls st2)
             = heightInput_value (controls st) ->
             widthInput_value (controls (handleHeightChange st2))
             = widthInput_value (controls (handleHeightChange st)))).
Proof.
  intros Hlock Hratio. cbv zeta.
  unfold handleWidthChange, handleHeightChange.
  rewrite Hlock, Hratio. cbn [andb].
  repeat apply conj; try reflexivity.
  intros st2 Hlock2 Hratio2. rewrite Hlock2, Hratio2, Hratio. cbn [andb].
  split; intros Hsame; cbn; now rewrite Hsame.
Qed.

(** An original of 1000 x 500: a width of 400 gives a height of 200, and a
    height of 100 gives a width of 200. *)
Lemma aspect_ratio_companion_witness :
  originalAspectRatio photo_loaded = 2%float
  /\ heightInput_value
       (controls (handleWidthChange (set_widthInput_value "400" photo_loaded)))
     = "200"
  /\ widthInput_value
       (controls (handleHeightChange (set_heightInput_value "100" photo_loaded)))
     = "200".
Proof.
  split; [vm_compute; reflexivity|]. split.
  - destruct (aspect_ratio_companion (set_widthInput_value "400" photo_loaded))
      as [H _]; [vm_compute; reflexivity ..|].
    rewrite H. vm_compute. reflexivity.
  - destruct (aspect_ratio_companion (set_heightInput_value "100" photo_loaded))
      as (_ & _ & H & _); [vm_compute; reflexivity ..|].
    rewrite H. vm_compute. reflexivity.
Defined.

(** *** The single-file pipeline *)

(** Recording a host call changes nothing the script reads. *)
Lemma controls_called (c : HostCall) (st : State) :
  controls (called c st) = controls st.
Proof. reflexivity. Qed.

Lemma getOutputFormat_called (c : HostCall) (st : State) (inputType : string) :
  getOutputFormat (called c st) inputType = getOutputFormat st inputType.
Proof. reflexivity. Qed.

Lemma resized_dimensions_called (c : HostCall) (st : State) (img : Image) :
  resized_dimensions (called c st) img = resized_dimensions st img.
Proof. reflexivity. Qed.

Section SingleFile.

Variable host : Host.

(** The arguments [compressImage] hands to the encoder for a decoded
    image. *)
Lemma compressImage_decoded (file : File) (st : State) (img : Image) :
  readable host file = true ->
  decode host (file_data file) = Some img ->
  let quality := (parseInt (qualitySlider_value (controls st)) / 100)%float in
  let mime := getMimeType (getOutputFormat st (file_type file)) in
  let canvas :=
    {| canvas_width := fst (resized_dimensions st img);
       canvas_height := snd (resized_dimensions st img);
       canvas_image := img |} in
  let calls :=
    [ReadAsDataURL file; LoadImage (file_data file);
     ToBlob canvas mime quality] in
  match toBlob host canvas mime quality with
  | Some blob =>
      exists st',
        compressImage host file st
        = (Resolved
             {| result_blob := blob;
                result_url := next_url st;
                result_size := blob_size blob;
                result_width := canvas_width canvas;
                result_height := canvas_height canvas;
                result_originalSize := file_size file;
                result_originalWidth := img_width img;
                result_originalHeight := img_height img;
                result_name :=
                  getOutputFileName (file_name file)
                    (getOutputFormat st (file_type file));
                result_type := mime |}, st')
        /\ host_calls st' = (host_calls st ++ calls)%list
        /\ object_urls st' = <[next_url st := OfBlob blob]> (object_urls st)
        /\ compressedFile st' = compressedFile st
        /\ view st' = view st
        /\ alerts st' = alerts st
  | None =>
      exists st',
        compressImage host file st
        = (Rejected "Failed to create blob from canvas", st')
        /\ host_calls st' = (host_calls st ++ calls)%list
        /\ object_urls st' = object_urls st
        /\ compressedFile st' = compressedFile st
        /\ view st' = view st
        /\ alerts st' = alerts st
  end.
Proof.
  intros Hread Hdecode. cbv zeta. unfold compressImage.
  rewrite Hread, Hdecode.
  rewrite !resized_dimensions_called, !getOutputFormat_called,
    !controls_called.
  destruct (resized_dimensions st img) as [width height].
  cbn [fst snd canvas_width canvas_height].
  destruct (toBlob host _ _ _) as [blob|];
    eexists; (split; [reflexivity|]); cbn; rewrite <- !app_assoc;
    repeat split.
Qed.

(** C1. For a readable, decodable file the canvas, and with it the result,
    has the source dimensions when resizing is off, the rounded products
    [round(w * p)] and [round(h * p)] for a percentage [p], and the typed
    width and height themselves in pixel mode when both are numbers other
    than zero; [compressImage] resolves with these dimensions whenever the
    encoder delivers a blob. *)
Theorem compressImage_output_dimensions
    (file : File) (st : State) (img : Image) :
  readable host file = true ->
  decode host (file_data file) = Some img ->
  let c := controls st in
  let w := NumberOfN (img_width img) in
  let h := NumberOfN (img_height img) in
  exists width height : float,
    (resizeToggle_checked c = false -> width = w /\ height = h)
    /\ (resizeToggle_checked c = true ->
        resize_pixels_checked c = false ->
        resize_percentage_checked c = true ->
        let p := (parseInt (percentageInput_value c) / 100)%float in
        width = Math_round (w * p)%float /\ height = Math_round (h * p)%float)
    /\ (resizeToggle_checked c = true ->
        resize_pixels_checked c = true ->
        ToBoolean (parseInt (widthInput_value c)) = true ->
        ToBoolean (parseInt (heightInput_value c)) = true ->
        width = parseInt (widthInput_value c)
        /\ height = parseInt (heightInput_value c))
    /\ match
         toBlob host
           {| canvas_width := width; canvas_height := height;
              canvas_image := img |}
           (getMimeType (getOutputFormat st (file_type file)))
           (parseInt (qualitySlider_value c) / 100)%float
       with
       | Some blob =>
           exists r st',
             compressImage host file st = (Resolved r, st')
             /\ result_width r = width /\ result_height r = height
             /\ result_originalWidth r = img_width img
             /\ result_originalHeight r = img_height img
       | None =>
           exists message st',
             compressImage host file st = (Rejected message, st')
       end.
Proof.
  intros Hread Hdecode. cbv zeta.
  exists (fst (resized_dimensions st img)), (snd (resized_dimensions st img)).
  repeat apply conj.
  - intros Hoff. unfold resized_dimensions. now rewrite Hoff.
  - intros Hon Hpx Hpct. unfold resized_dimensions.
    now rewrite Hon, Hpx, Hpct.
  - intros Hon Hpx Hw Hh. unfold resized_dimensions, or_else.
    now rewrite Hon, Hpx, Hw, Hh.
  - pose proof (compressImage_decoded file st img Hread Hdecode) as H.
    cbv zeta in H.
    destruct (toBlob host _ _ _) as [blob|].
    + destruct H as (st' & -> & _). eexists _, st'. cbn. auto.
    + destruct H as (st' & -> & _). eauto.
Qed.

End SingleFile.

(** Half of a 1000 x 500 image is 500 x 250; a camera-sized one typed as
    640 by 480 pixels is 640 x 480; with resizing off the size is kept. *)
Lemma compressImage_output_dimensions_witness :
  (exists r st',
      compressImage sample_host photo
        (with_controls (percentage_controls "50") photo_loaded)
      = (Resolved r, st')
      /\ result_width r = 500%float /\ result_height r = 250%float)
  /\ (exists r st',
         compressImage sample_host photo
           (with_controls (pixel_controls "640" "480") photo_loaded)
         = (Resolved r, st')
         /\ result_width r = 640%float /\ result_height r = 480%float)
  /\ (exists r st',
         compressImage sample_host photo photo_loaded = (Resolved r, st')
         /\ result_width r = 1000%float /\ result_height r = 500%float).
Proof.
  repeat apply conj.
  - destruct (compressImage_output_dimensions sample_host photo
                (with_controls (percentage_controls "50") photo_loaded)
                sample_image eq_refl eq_refl)
      as (w & h & _ & Hpct & _ & r & st' & Hrun & Hw & Hh & _).
    destruct (Hpct eq_refl eq_refl eq_refl) as [-> ->].
    exists r, st'. rewrite Hw, Hh. repeat split; [exact Hrun|..];
      vm_compute; reflexivity.
  - destruct (compressImage_output_dimensions sample_host photo
                (with_controls (pixel_controls "640" "480") photo_loaded)
                sample_image eq_refl eq_refl)
      as (w & h & _ & _ & Hpx & r & st' & Hrun & Hw & Hh & _).
    destruct (Hpx eq_refl eq_refl eq_refl eq_refl) as [-> ->].
    exists r, st'. rewrite Hw, Hh. repeat split; [exact Hrun|..];
      vm_compute; reflexivity.
  - destruct (compressImage_output_dimensions sample_host photo
                photo_loaded sample_image eq_refl eq_refl)
      as (w & h & Hoff & _ & _ & r & st' & Hrun & Hw & Hh & _).
    destruct (Hoff eq_refl) as [-> ->].
    exists r, st'. rewrite Hw, Hh. repeat split; [exact Hrun|..];
      vm_compute; reflexivity.
Defined.

(** A width and a height typed as decimal numerals, each a number other
    than zero, are a valid size in pixels and are the size of the canvas. *)
Lemma typed_pixels_are_kept (st : State) (img : Image) (W H : Z) :
  0 <= W -> 0 <= H ->
  ToBoolean (NumberOfZ W) = true ->
  ToBoolean (NumberOfZ H) = true ->
  resizeToggle_checked (controls st) = true ->
  resize_pixels_checked (controls st) = true ->
  widthInput_value (controls st) = decimal W ->
  heightInput_value (controls st) = decimal H ->
  names_a_size (controls st)
  /\ resized_dimensions st img = (NumberOfZ W, NumberOfZ H).
Proof.
  intros HW HH HtW HtH Hon Hpx Hw Hh. split.
  - right. left. rewrite Hw, Hh, !parseInt_decimal by lia. auto.
  - unfold resized_dimensions, or_else.
    rewrite Hon, Hpx, Hw, Hh, !parseInt_decimal, HtW, HtH by lia.
    reflexivity.
Qed.

(** *** Admission of files *)

Lemma supported_type_spec (file : File) :
  supported_type file = true <-> supported file.
Proof.
  unfold supported_type, supported, supported_mime_types. simpl.
  rewrite !orb_true_iff, !String.eqb_eq. intuition congruence.
Qed.

Lemma displayOriginalImage_frame (host : Host) (file : File) (st : State) :
  uploadedFiles (displayOriginalImage host file st) = uploadedFiles st
  /\ currentFile (displayOriginalImage host file st) = currentFile st
  /\ alerts (displayOriginalImage host file st) = alerts st
  /\ exists calls,
       host_calls (displayOriginalImage host file st)
       = (host_calls st ++ calls)%list
       /\ Forall (call_for file) calls.
Proof.
  unfold displayOriginalImage, call_for.
  destruct (readable host file).
  - destruct (decode host (file_data file)); cbn;
      (repeat split; [];
       exists [ReadAsDataURL file; LoadImage (file_data file)];
       rewrite <- app_assoc; split; [reflexivity|];
       repeat first [apply Forall_nil | apply Forall_cons]; auto).
  - cbn. repeat split. exists [ReadAsDataURL file].
    split; [reflexivity|].
    repeat first [apply Forall_nil | apply Forall_cons]; auto.
Qed.

Section Admission.

Variable host : Host.
Variable files : list File.
Variable st : State.

(** What [processFiles] does, by whether any file passes the filter. *)
Lemma processFiles_cases :
  let st' := processFiles host files st in
  let imageFiles := List.filter supported_type files in
  (imageFiles = []
   /\ uploadedFiles st' = uploadedFiles st
   /\ currentFile st' = currentFile st
   /\ host_calls st' = host_calls st
   /\ alerts st'
      = (alerts st ++ ["Please upload JPG, PNG, or WebP images only."])%list)
  \/ (exists first rest calls,
         imageFiles = first :: rest
         /\ uploadedFiles st' = imageFiles
         /\ currentFile st' = Some first
         /\ host_calls st' = (host_calls st ++ calls)%list
         /\ Forall (call_for first) calls
         /\ alerts st' = alerts st).
Proof.
  cbv zeta. unfold processFiles.
  destruct (List.filter supported_type files) as [|first rest] eqn:Hfilter.
  - left. cbn. auto.
  - right. exists first, rest.
    set (st1 := showControls
                  (with_currentFile (Some first)
                     (with_uploadedFiles (first :: rest) st))).
    destruct (displayOriginalImage_frame host first st1)
      as (Hup & Hcur & Hal & calls & Hcalls & Hfor).
    exists calls.
    set (st2 := displayOriginalImage host first st1) in *.
    assert (Hframe :
      forall st3,
        st3 = set_compressBtn_disabled false
                (set_processedCount_text "0"
                   (set_totalCount_text
                      (number_text (length_of (uploadedFiles st2))) st2)) ->
        uploadedFiles st3 = uploadedFiles st2
        /\ currentFile st3 = currentFile st2
        /\ host_calls st3 = host_calls st2
        /\ alerts st3 = alerts st2).
    { intros st3 ->. cbn. auto. }
    destruct (Hframe _ eq_refl) as (H1 & H2 & H3 & H4).
    destruct (1 <? length _)%nat; cbn [set_batchSection_display with_view
      uploadedFiles currentFile host_calls alerts];
      rewrite ?H1, ?H2, ?H3, ?H4, Hup, Hcur, Hal, Hcalls; cbn; auto 10.
Qed.


End Admission.


(** *** Batches *)

Arguments number_text : simpl never.
Arguments length_of : simpl never.
Arguments parseInt : simpl never.
Arguments Math_round : simpl never.
Arguments or_else : simpl never.
Arguments getOutputFileName : simpl never.
Arguments getOutputFormat : simpl never.
Arguments getMimeType : simpl never.
Arguments self_onmessage : simpl never.

Lemma take_nth_split {A : Type} (i : nat) (l : list A) (x : A)
    (others : list A) :
  take_nth i l = Some (x, others) ->
  exists before after,
    l = (before ++ x :: after)%list /\ others = (before ++ after)%list.
Proof.
  revert i others. induction l as [|y l IH]; intros i others H.
  - destruct i; discriminate.
  - destruct i as [|i]; simpl in H.
    + injection H as -> ->. now exists [], others.
    + destruct (take_nth i l) as [[z rest]|] eqn:Hrec; [|discriminate].
      injection H as -> <-.
      destruct (IH i rest Hrec) as (before & after & -> & ->).
      now exists (y :: before), after.
Qed.

(** Every event that fires is a step. *)
Lemma fire_step (host : Host) (e : Event) (b b' : Batch) :
  fire host e b = Some b' -> step host b b'.
Proof.
  destruct e as [i|i|i]; unfold fire.
  - destruct (take_nth i (loading b)) as [[t others]|] eqn:Hnth;
      [|discriminate].
    destruct (take_nth_split _ _ _ _ Hnth) as (before & after & Hl & ->).
    destruct (decode host (file_data (temp_file t))) as [tempImg|] eqn:Hd;
      intros [= <-].
    + now apply step_tempImg_load.
    + now apply step_tempImg_error.
  - destruct (terminated (worker b)) eqn:Hterm; [discriminate|].
    destruct (take_nth i (inbox (worker b))) as [[data others]|] eqn:Hnth;
      [|discriminate].
    destruct (take_nth_split _ _ _ _ Hnth) as (before & after & Hl & ->).
    intros [= <-]. now apply step_worker.
  - destruct (terminated (worker b)) eqn:Hterm; [discriminate|].
    destruct (take_nth i (outbox (worker b))) as [[result others]|] eqn:Hnth;
      [|discriminate].
    destruct (take_nth_split _ _ _ _ Hnth) as (before & after & Hl & ->).
    intros [= <-]. now apply step_page.
Qed.

Lemma reachable_after_step (host : Host) (b b1 b' : Batch) :
  step host b b1 -> reachable host b1 b' -> reachable host b b'.
Proof.
  intros Hstep Hreach. induction Hreach as [|b2 b3 _ IH Hnext].
  - eapply reachable_step; [apply reachable_start|exact Hstep].
  - eapply reachable_step; [exact IH|exact Hnext].
Qed.

Lemma run_reachable (host : Host) (events : list Event) (b b' : Batch) :
  run host events b = Some b' -> reachable host b b'.
Proof.
  revert b. induction events as [|e events IH]; intros b; simpl.
  - intros [= <-]. apply reachable_start.
  - destruct (fire host e b) as [b1|] eqn:Hfire; [|discriminate].
    intros Hrun. eapply reachable_after_step.
    + eapply fire_step. exact Hfire.
    + now apply IH.
Qed.

(** What the page's message handler changes. *)
Lemma worker_onmessage_spec (result : WorkerReply) (b : Batch) :
  let b' := worker_onmessage result b in
  let finished :=
    (S (length (compressedFiles (page b)))
     =? length (uploadedFiles (page b)))%nat in
  compressedFiles (page b')
  = (compressedFiles (page b)
       ++ [{| entry_blob := reply_blob result;
              entry_name :=
                getOutputFileName (reply_name result)
                  (getOutputFormat (page b)
                     (getMimeType (Str (blob_type (reply_blob result)))));
              entry_url := next_url (page b);
              entry_size := reply_size result;
              entry_originalSize := reply_originalSize result |}])%list
  /\ uploadedFiles (page b') = uploadedFiles (page b)
  /\ controls (page b') = controls (page b)
  /\ loading b' = loading b
  /\ inbox (worker b') = inbox (worker b)
  /\ outbox (worker b') = outbox (worker b)
  /\ worker_calls (worker b') = worker_calls (worker b)
  /\ terminated (worker b') = terminated (worker b) || finished
  /\ downloadAllBtn_disabled (view (page b'))
     = if finished then false else downloadAllBtn_disabled (view (page b)).
Proof.
  cbv zeta. unfold worker_onmessage, set_progress, addBatchResultItem.
  cbn [createObjectURL with_compressedFiles compressedFiles uploadedFiles].
  rewrite List.length_app, Nat.add_1_r.
  destruct (PrimFloat.is_finite _);
    destruct (S _ =? _)%nat; cbn;
    rewrite ?orb_true_r, ?orb_false_r; repeat split.
Qed.

Lemma filter_length_split {A : Type} (f : A -> bool) (before after : list A)
    (x : A) :
  length (List.filter f (before ++ x :: after))
  = (length (List.filter f (before ++ after)) + if f x then 1 else 0)%nat.
Proof.
  rewrite !List.filter_app, !List.length_app. simpl.
  destruct (f x); simpl; lia.
Qed.

Section Stall.

Variable host : Host.

(** While fewer results are expected than files were chosen, a step
    neither finishes the batch nor changes what is expected. *)
Lemma step_keeps_expected (b b' : Batch) :
  step host b b' ->
  terminated (worker b) = false ->
  (expected host b < length (uploadedFiles (page b)))%nat ->
  terminated (worker b') = false
  /\ expected host b' = expected host b
  /\ uploadedFiles (page b') = uploadedFiles (page b)
  /\ downloadAllBtn_disabled (view (page b'))
     = downloadAllBtn_disabled (view (page b)).
Proof.
  intros Hstep Hterm Hless. unfold expected in *.
  destruct Hstep as [b t before after tempImg Hl Hd|b t before after Hl Hd
                    |b data before after _ Hl|b result before after _ Hl].
  - assert (Ht : temp_answers host t
                 = answers host (tempImg_request t tempImg)).
    { unfold temp_answers. now rewrite Hd. }
    cbn. rewrite Hl, Hterm.
    rewrite (filter_length_split (temp_answers host) before after t), Ht.
    rewrite List.filter_app, List.length_app. cbn.
    destruct (answers host (tempImg_request t tempImg)); cbn;
      repeat split; lia.
  - assert (Ht : temp_answers host t = false).
    { unfold temp_answers. now rewrite Hd. }
    cbn. rewrite Hl, Hterm.
    rewrite (filter_length_split (temp_answers host) before after t), Ht.
    repeat split; lia.
  - cbn. rewrite Hl, Hterm.
    rewrite (filter_length_split (answers host) before after data).
    rewrite List.length_app. unfold answers at 3.
    destruct (snd (self_onmessage host data)); cbn; repeat split; lia.
  - destruct (worker_onmessage_spec result (page_takes (before ++ after) b))
      as (Hlen & Hup & _ & Hload & Hin & Hout & _ & Hfin & Hbtn).
    apply (f_equal (@length _)) in Hlen.
    rewrite List.length_app, Nat.add_1_r in Hlen.
    cbn [page_takes page worker loading inbox outbox terminated]
      in Hlen, Hup, Hload, Hin, Hout, Hfin, Hbtn.
    rewrite Hl, List.length_app in Hless. cbn [length] in Hless.
    assert (Hnot : (S (length (compressedFiles (page b)))
                    =? length (uploadedFiles (page b)))%nat = false).
    { apply Nat.eqb_neq. lia. }
    rewrite Hnot, Hterm in *.
    rewrite Hlen, Hup, Hload, Hin, Hout, Hfin, Hbtn, Hl, !List.length_app.
    cbn [length orb]. repeat split; lia.
Qed.

(** A batch in which some file yields no result never finishes: however
    the events fall, the worker is never terminated, "download all" is
    never enabled, and no more results arrive than were expected. *)
Lemma batch_stalls (start b : Batch) :
  reachable host start b ->
  terminated (worker start) = false ->
  (expected host start < length (uploadedFiles (page start)))%nat ->
  terminated (worker b) = false
  /\ expected host b = expected host start
  /\ uploadedFiles (page b) = uploadedFiles (page start)
  /\ downloadAllBtn_disabled (view (page b))
     = downloadAllBtn_disabled (view (page start)).
Proof.
  intros Hreach Hterm Hless.
  induction Hreach as [|b b' _ IH Hstep]; [auto|].
  destruct IH as (Ht & He & Hu & Hd).
  destruct (step_keeps_expected b b' Hstep Ht) as (Ht' & He' & Hu' & Hd').
  { rewrite He, Hu. exact Hless. }
  repeat split; congruence.
Qed.

(** The worker posts nothing for a file it cannot read or decode. *)
Lemma undecodable_no_answer (data : WorkerRequest) :
  undecodable host (req_file data) -> answers host data = false.
Proof.
  unfold undecodable, answers, self_onmessage. intros [Hread|Hdecode].
  - now rewrite Hread.
  - rewrite Hdecode. now destruct (readable host (req_file data)).
Qed.

Lemma undecodable_no_temp_answer (t : TempImage) :
  undecodable host (temp_file t) -> temp_answers host t = false.
Proof.
  intros Hbad. unfold temp_answers.
  destruct (decode host (file_data (temp_file t))) as [tempImg|];
    [|reflexivity].
  now apply undecodable_no_answer.
Qed.

(** Dispatching a file raises what is expected by one at most, and not at
    all for a file that cannot be read or decoded. *)
Lemma dispatch_expected (b : Batch) (file : File) :
  (expected host (dispatch b file) <= S (expected host b))%nat
  /\ (undecodable host file ->
      expected host (dispatch b file) = expected host b)
  /\ uploadedFiles (page (dispatch b file)) = uploadedFiles (page b)
  /\ terminated (worker (dispatch b file)) = terminated (worker b)
  /\ downloadAllBtn_disabled (view (page (dispatch b file)))
     = downloadAllBtn_disabled (view (page b)).
Proof.
  unfold dispatch, expected.
  destruct (resizeToggle_checked (controls (page b)));
    [destruct (resize_pixels_checked (controls (page b)));
     [|destruct (resize_percentage_checked (controls (page b)))]|];
    cbn [page worker loading postMessage inbox outbox terminated
         createObjectURL with_object_urls compressedFiles uploadedFiles
         view];
    rewrite List.filter_app, List.length_app;
    cbn [List.filter];
    match goal with
    | |- context [answers host ?d] =>
        pose proof (undecodable_no_answer d) as Hbad;
        destruct (answers host d)
    | |- context [temp_answers host ?t] =>
        pose proof (undecodable_no_temp_answer t) as Hbad;
        destruct (temp_answers host t)
    end;
    cbn [length req_file temp_file] in *;
    repeat split; try lia;
    intros Hf; specialize (Hbad Hf); try discriminate; lia.
Qed.

Lemma fold_dispatch_expected (files : list File) (b : Batch) :
  (expected host (fold_left dispatch files b)
   <= expected host b + length files)%nat
  /\ ((exists file, In file files /\ undecodable host file) ->
      (expected host (fold_left dispatch files b)
       < expected host b + length files)%nat)
  /\ uploadedFiles (page (fold_left dispatch files b)) = uploadedFiles (page b)
  /\ terminated (worker (fold_left dispatch files b)) = terminated (worker b)
  /\ downloadAllBtn_disabled (view (page (fold_left dispatch files b)))
     = downloadAllBtn_disabled (view (page b)).
Proof.
  revert b. induction files as [|file files IH]; intros b; cbn [fold_left].
  - repeat split; try lia. intros (file & [] & _).
  - destruct (dispatch_expected b file) as (Hle & Hbad & Hup & Hterm & Hbtn).
    destruct (IH (dispatch b file)) as (Hle' & Hbad' & Hup' & Hterm' & Hbtn').
    cbn [length]. repeat split; try congruence; try lia.
    intros (bad & [<-|Hin] & Hundec).
    + rewrite (Hbad Hundec) in Hle'. lia.
    + assert (Hex : exists f, In f files /\ undecodable host f) by eauto.
      specialize (Hbad' Hex). lia.
Qed.

(** X7. A batch with a file that cannot be read or decoded never finishes:
    the worker is never terminated, fewer results are counted than files
    were chosen, and "download all" is never enabled by it. *)
Lemma undecodable_file_stalls_batch (st : State) (file : File) (b : Batch) :
  compressedFiles st = [] ->
  In file (uploadedFiles st) ->
  undecodable host file ->
  reachable host (processBatchWithWorker st) b ->
  terminated (worker b) = false
  /\ (length (compressedFiles (page b)) < length (uploadedFiles st))%nat
  /\ downloadAllBtn_disabled (view (page b))
     = downloadAllBtn_disabled (view st).
Proof.
  intros Hempty Hin Hbad Hreach.
  assert (Hstart :
    terminated (worker (processBatchWithWorker st)) = false
    /\ (expected host (processBatchWithWorker st)
        < length (uploadedFiles st))%nat
    /\ uploadedFiles (page (processBatchWithWorker st)) = uploadedFiles st
    /\ downloadAllBtn_disabled (view (page (processBatchWithWorker st)))
       = downloadAllBtn_disabled (view st)).
  { unfold processBatchWithWorker. cbn [createObjectURL].
    match goal with
    | |- context [fold_left dispatch ?fs ?b0] =>
        set (files := fs); set (start := b0)
    end.
    destruct (fold_dispatch_expected files start)
      as (_ & Hlt & -> & -> & ->).
    assert (Hzero : expected host start = 0%nat)
      by (unfold expected, start; cbn; now rewrite Hempty).
    rewrite Hzero in Hlt.
    repeat split. apply Hlt. exists file. now split. }
  destruct Hstart as (Hterm0 & Hlt0 & Hup0 & Hbtn0).
  destruct (batch_stalls (processBatchWithWorker st) b Hreach Hterm0)
    as (Hterm & Hexp & Hup & Hbtn).
  - now rewrite Hup0.
  - rewrite Hbtn, Hbtn0. unfold expected in Hexp at 1.
    fold (expected host (processBatchWithWorker st)) in Hexp.
    repeat split; [exact Hterm|lia].
Qed.

End Stall.

Lemma batch_of_three_start :
  terminated (worker batch_of_three) = false
  /\ expected sample_host batch_of_three = 2%nat
  /\ length (uploadedFiles (page batch_of_three)) = 3%nat
  /\ downloadAllBtn_disabled (view (page batch_of_three)) = true.
Proof.
  vm_compute. repeat split.
Qed.

(** C2, at three files of which the second cannot be decoded: the worker
    posts nothing for the corrupt file and the page records nothing for
    it, so however the events fall the batch is never finished: the worker
    is never terminated, "download all" stays disabled, and at most the two
    good files are counted against a total of three. *)
Theorem corrupt_file_stalls_batch (b : Batch) :
  reachable sample_host batch_of_three b ->
  terminated (worker b) = false
  /\ (length (compressedFiles (page b)) <= 2)%nat
  /\ length (uploadedFiles (page b)) = 3%nat
  /\ downloadAllBtn_disabled (view (page b)) = true.
Proof.
  intros Hreach.
  destruct batch_of_three_start as (Hterm0 & Hexp0 & Hup0 & Hbtn0).
  destruct (batch_stalls sample_host batch_of_three b Hreach Hterm0)
    as (Hterm & Hexp & Hup & Hbtn).
  - rewrite Hexp0, Hup0. lia.
  - rewrite Hup, Hbtn, Hup0, Hbtn0. rewrite Hexp0 in Hexp.
    unfold expected in Hexp.
    split; [exact Hterm|]. split; [lia|]. split; reflexivity.
Qed.

(** The run in which everything that can happen has happened: both good
    files are in, nothing is queued, and the batch is still unfinished. *)
Lemma corrupt_file_stalls_batch_witness :
  exists b,
    run sample_host
      [WorkerHandles 0; WorkerHandles 0; WorkerHandles 0;
       PageReceives 1; PageReceives 0] batch_of_three = Some b
    /\ quiescent b
    /\ map entry_name (compressedFiles (page b))
       = ["sunset-compressed.jpeg"; "photo-compressed.jpeg"]
    /\ processedCount_text (view (page b)) = "2"
    /\ alerts (page b) = []
    /\ terminated (worker b) = false
    /\ downloadAllBtn_disabled (view (page b)) = true.
Proof.
  destruct (run sample_host
              [WorkerHandles 0; WorkerHandles 0; WorkerHandles 0;
               PageReceives 1; PageReceives 0] batch_of_three)
    as [b|] eqn:Hrun; [|vm_compute in Hrun; discriminate].
  exists b. split; [reflexivity|].
  destruct (corrupt_file_stalls_batch b (run_reachable _ _ _ _ Hrun))
    as (Hterm & _ & _ & Hbtn).
  vm_compute in Hrun. injection Hrun as <-.
  split; [vm_compute; auto|].
  do 3 (split; [vm_compute; reflexivity|]).
  split; assumption.
Defined.

(** *** Reset *)

(** [resetApp] empties the script's variables and revokes no object URL:
    the array it walks to revoke them was emptied a few lines before. *)
Lemma resetApp_revokes_nothing (st : State) :
  uploadedFiles (resetApp st) = []
  /\ currentFile (resetApp st) = None
  /\ compressedFile (resetApp st) = None
  /\ compressedFiles (resetApp st) = []
  /\ object_urls (resetApp st) = object_urls st.
Proof.
  unfold resetApp. cbn. repeat split.
Qed.


(** *** Encoder failures *)


(** What the worker posts for a decodable file. *)
Lemma self_onmessage_decoded (host : Host) (data : WorkerRequest)
    (img : Image) :
  readable host (req_file data) = true ->
  decode host (file_data (req_file data)) = Some img ->
  let file := req_file data in
  let canvas := worker_canvas data img in
  self_onmessage host data
  = ([ReadAsDataURL file; LoadImage (file_data file);
      ToBlob canvas (req_outputFormat data) (req_quality data)],
     match toBlob host canvas (req_outputFormat data) (req_quality data) with
     | Some blob =>
         Some {| reply_blob := blob;
                 reply_name := file_name file;
                 reply_size := blob_size blob;
                 reply_originalSize := file_size file;
                 reply_width := canvas_width canvas;
                 reply_height := canvas_height canvas |}
     | None => None
     end).
Proof.
  intros Hread Hdecode. cbv zeta. unfold self_onmessage.
  rewrite Hread, Hdecode. now destruct (toBlob host _ _ _).
Qed.

Section EncoderFailure.

Variable host : Host.


End EncoderFailure.


(** *** Quality *)

(** A slider text of "150" is neither refused nor clamped: the pipeline
    runs and the encoder is called with a quality of 1.5. *)
Lemma quality_150_is_encoded :
  exists r st',
    compressImage sample_host photo
      (with_controls (quality_controls "150") photo_loaded)
    = (Resolved r, st')
    /\ In (ToBlob {| canvas_width := 1000; canvas_height := 500;
                     canvas_image := sample_image |} "image/png" 1.5%float)
         (host_calls st').
Proof.
  eexists _, _. split; [vm_compute; reflexivity|].
  cbn. auto 10.
Qed.

Lemma percentages_within_unit :
  forallb (fun n => within_unit (parseInt (decimal n) / 100)%float)
    percentages = true.
Proof.
  vm_compute. reflexivity.
Qed.

Section Quality.

Variable host : Host.

Lemma self_onmessage_quality (data : WorkerRequest) :
  Forall (encodes_at (req_quality data)) (fst (self_onmessage host data)).
Proof.
  unfold self_onmessage.
  destruct (readable host (req_file data)); [|repeat constructor].
  destruct (decode host (file_data (req_file data))); [|repeat constructor].
  destruct (toBlob host _ _ _); repeat constructor.
Qed.

Lemma dispatch_carries (b : Batch) (file : File) :
  let q := (parseInt (qualitySlider_value (controls (page b))) / 100)%float in
  carries q b ->
  carries q (dispatch b file)
  /\ controls (page (dispatch b file)) = controls (page b).
Proof.
  cbv zeta. intros (Hin & Hload & Hcalls). unfold dispatch, carries.
  destruct (resizeToggle_checked (controls (page b)));
    [destruct (resize_pixels_checked (controls (page b)));
     [|destruct (resize_percentage_checked (controls (page b)))]|];
    cbn; repeat split; try assumption;
    apply List.Forall_app; split; try assumption;
    repeat constructor.
Qed.

Lemma fold_dispatch_carries (files : list File) (b : Batch) :
  let q := (parseInt (qualitySlider_value (controls (page b))) / 100)%float in
  carries q b ->
  carries q (fold_left dispatch files b)
  /\ controls (page (fold_left dispatch files b)) = controls (page b).
Proof.
  cbv zeta. revert b. induction files as [|file files IH]; intros b Hb.
  - now split.
  - cbn [fold_left].
    destruct (dispatch_carries b file Hb) as (Hnext & Hsame).
    destruct (IH (dispatch b file)) as (Hall & Hctl).
    + now rewrite Hsame.
    + rewrite Hsame in Hall, Hctl. now split.
Qed.

Lemma step_carries (q : float) (b b' : Batch) :
  step host b b' -> carries q b -> carries q b'.
Proof.
  intros Hstep (Hin & Hload & Hcalls). unfold carries.
  destruct Hstep as [b t before after tempImg Hl Hd|b t before after Hl Hd
                    |b data before after _ Hl|b result before after _ Hl].
  - rewrite Hl in Hload.
    apply List.Forall_app in Hload as (Hb & Ha).
    apply List.Forall_cons_iff in Ha as (Ht & Ha).
    cbn. repeat split; [|now apply List.Forall_app|assumption].
    apply List.Forall_app. split; [assumption|]. now repeat constructor.
  - rewrite Hl in Hload.
    apply List.Forall_app in Hload as (Hb & Ha).
    apply List.Forall_cons_iff in Ha as (_ & Ha).
    cbn. repeat split; [assumption|now apply List.Forall_app|assumption].
  - rewrite Hl in Hin.
    apply List.Forall_app in Hin as (Hb & Ha).
    apply List.Forall_cons_iff in Ha as (Hd & Ha).
    cbn. repeat split; [now apply List.Forall_app|assumption|].
    apply List.Forall_app. split; [assumption|].
    rewrite <- Hd. apply self_onmessage_quality.
  - destruct (worker_onmessage_spec result (page_takes (before ++ after) b))
      as (_ & _ & _ & -> & -> & _ & -> & _).
    cbn. auto.
Qed.

(** C8, as the code has it.  The quality is [parseInt] of the slider text
    divided by 100, neither clamped nor checked: it is what [compressImage]
    hands to the encoder, and what every request, every awaited image and
    every encoding of a batch carries.  For the whole percentages 0 to 100
    it lies between 0 and 1. *)
Theorem quality_is_parsed_not_validated (st : State) :
  let quality := (parseInt (qualitySlider_value (controls st)) / 100)%float in
  (forall file img,
      readable host file = true ->
      decode host (file_data file) = Some img ->
      exists canvas mime,
        In (ToBlob canvas mime quality)
          (host_calls (snd (compressImage host file st))))
  /\ (forall b, reachable host (processBatchWithWorker st) b ->
                carries quality b)
  /\ (forall n, 0 <= n <= 100 ->
                qualitySlider_value (controls st) = decimal n ->
                within_unit quality = true).
Proof.
  cbv zeta. repeat apply conj.
  - intros file img Hread Hdecode.
    pose proof (compressImage_decoded host file st img Hread Hdecode) as H.
    cbv zeta in H. eexists _, _.
    destruct (toBlob host _ _ _);
      destruct H as (st' & Hrun & Hcalls & _);
      rewrite Hrun; cbn [snd]; rewrite Hcalls;
      apply in_or_app; right; cbn; auto.
  - intros b Hreach.
    induction Hreach as [|b b' _ IH Hstep].
    + unfold processBatchWithWorker. cbn [createObjectURL].
      match goal with
      | |- carries _ (fold_left dispatch ?fs ?b0) =>
          destruct (fold_dispatch_carries fs b0) as [H _];
            [repeat split; constructor|exact H]
      end.
    + eapply step_carries; eassumption.
  - intros n Hn ->.
    pose proof percentages_within_unit as Hall.
    rewrite forallb_forall in Hall. apply Hall.
    unfold percentages. apply in_map_iff. exists (Z.to_nat n).
    split; [lia|]. apply in_seq. lia.
Qed.

End Quality.

Lemma quality_is_parsed_not_validated_witness :
  within_unit (parseInt "80" / 100)%float = true
  /\ carries (parseInt "150" / 100)%float
       (processBatchWithWorker
          (with_controls (quality_controls "150") two_chosen)).
Proof.
  split.
  - exact (proj2 (proj2 (quality_is_parsed_not_validated sample_host
                           photo_loaded))
             80 ltac:(lia) eq_refl).
  - apply (proj1 (proj2 (quality_is_parsed_not_validated sample_host
                           (with_controls (quality_controls "150")
                              two_chosen)))).
    apply reachable_start.
Defined.

(** *** The batch against the single-file pipeline *)

Section BatchAgainstSingle.

Variable host : Host.

(** For settings that name a size, the worker is asked to encode exactly
    what [compressImage] encodes: the same canvas, MIME type and quality. *)
Lemma worker_encodes_like_page (file : File) (st : State) (img : Image) :
  readable host file = true ->
  decode host (file_data file) = Some img ->
  names_a_size (controls st) ->
  exists data,
    posted_for host st file = Some data
    /\ req_file data = file
    /\ worker_canvas data img
       = {| canvas_width := fst (resized_dimensions st img);
            canvas_height := snd (resized_dimensions st img);
            canvas_image := img |}
    /\ req_outputFormat data = getMimeType (getOutputFormat st (file_type file))
    /\ req_quality data
       = (parseInt (qualitySlider_value (controls st)) / 100)%float.
Proof.
  intros Hread Hdecode Hsize.
  unfold posted_for, dispatch, fresh_batch, resized_dimensions, worker_canvas.
  cbn [page worker loading].
  destruct (resizeToggle_checked (controls st)) eqn:Hon.
  - destruct Hsize as [Hoff|[(Hpx & Hw & Hh)|(Hpx & Hpct)]];
      [congruence| |].
    + rewrite Hpx. unfold or_else. rewrite Hw, Hh.
      eexists. cbn. repeat split.
    + rewrite Hpx, Hpct. cbn. rewrite Hdecode.
      eexists. cbn. repeat split.
  - eexists. cbn. repeat split.
Qed.


End BatchAgainstSingle.

(** X6. The name the page gives a batch result takes its extension from
    the chosen format, and is ".jpeg" whenever that is "same", whatever the
    type of the blob. *)
Lemma batch_entry_name (result : WorkerReply) (b : Batch) :
  ~ In (blob_type (reply_blob result)) recognised_formats ->
  let selected := formatSelect_value (controls (page b)) in
  map entry_name (compressedFiles (page (worker_onmessage result b)))
  = (map entry_name (compressedFiles (page b))
       ++ [getOutputFileName (reply_name result)
             (Str (if String.eqb selected "same" then "jpeg" else selected))])%list.
Proof.
  intros Hnot. cbv zeta.
  destruct (worker_onmessage_spec result b) as (-> & _).
  rewrite List.map_app. cbn [map entry_name]. do 3 f_equal.
  rewrite getMimeType_unrecognised.
  - unfold getOutputFormat.
    now destruct (String.eqb (formatSelect_value (controls (page b))) "same").
  - intros s Hs [= Heq]. apply Hnot. now rewrite Heq.
Qed.


(** ** Further properties of the script *)

(** *** How [compressImage] settles *)


(** *** Output format *)

(** X2. With the output format left at "same", a file of one of the three
    admitted types is encoded in its own MIME type, and its suggested name
    takes the MIME subtype as extension, whatever extension the file had. *)
Theorem same_format_keeps_type
    (host : Host) (file : File) (st : State) (img : Image) :
  supported_type file = true ->
  formatSelect_value (controls st) = "same" ->
  readable host file = true ->
  decode host (file_data file) = Some img ->
  exists subtype,
    file_type file = "image/" ++ subtype
    /\ getOutputFormat st (file_type file) = Str subtype
    /\ getMimeType (getOutputFormat st (file_type file)) = file_type file
    /\ forall r st',
         compressImage host file st = (Resolved r, st') ->
         result_type r = file_type file
         /\ result_name r
            = remove_extension (file_name file) ++ "-compressed." ++ subtype
         /\ In (ToBlob {| canvas_width := result_width r;
                          canvas_height := result_height r;
                          canvas_image := img |}
                  (file_type file)
                  (parseInt (qualitySlider_value (controls st)) / 100)%float)
              (host_calls st').
Proof.
  intros Hsup Hsame Hread Hdecode.
  assert (Hcases :
    exists subtype,
      file_type file = "image/" ++ subtype
      /\ getOutputFormat st (file_type file) = Str subtype
      /\ getMimeType (Str subtype) = file_type file).
  { unfold supported_type in Hsup. unfold getOutputFormat.
    rewrite Hsame. cbn [String.eqb].
    apply orb_true_iff in Hsup as [Hsup|Hwebp];
      [apply orb_true_iff in Hsup as [Hjpeg|Hpng]|].
    - apply String.eqb_eq in Hjpeg. rewrite Hjpeg. now exists "jpeg".
    - apply String.eqb_eq in Hpng. rewrite Hpng. now exists "png".
    - apply String.eqb_eq in Hwebp. rewrite Hwebp. now exists "webp". }
  destruct Hcases as (subtype & Htype & Hformat & Hmime).
  exists subtype. rewrite Hformat.
  split; [exact Htype|]. split; [reflexivity|]. split; [exact Hmime|].
  intros r st' Hrun.
  pose proof (compressImage_decoded host file st img Hread Hdecode) as H.
  cbv zeta in H. rewrite Hformat, Hmime in H.
  destruct (toBlob host _ _ _) as [blob|];
    destruct H as (st2 & Hrun2 & Hcalls & _);
    rewrite Hrun2 in Hrun; [|discriminate].
  injection Hrun as <- <-. cbn. split; [reflexivity|]. split; [reflexivity|].
  rewrite Hcalls. apply in_or_app. right. cbn. auto.
Qed.

Lemma same_format_keeps_type_witness :
  exists subtype,
    file_type photo = "image/" ++ subtype
    /\ getOutputFormat photo_loaded (file_type photo) = Str subtype
    /\ getMimeType (getOutputFormat photo_loaded (file_type photo))
       = file_type photo
    /\ forall r st',
         compressImage sample_host photo photo_loaded = (Resolved r, st') ->
         result_type r = file_type photo
         /\ result_name r
            = remove_extension (file_name photo) ++ "-compressed." ++ subtype
         /\ In (ToBlob {| canvas_width := result_width r;
                          canvas_height := result_height r;
                          canvas_image := sample_image |}
                  (file_type photo)
                  (parseInt (qualitySlider_value (controls photo_loaded))
                   / 100)%float)
              (host_calls st').
Proof.
  exact (same_format_keeps_type sample_host photo photo_loaded sample_image
           eq_refl eq_refl eq_refl eq_refl).
Defined.

Lemma append_assoc (a b c : string) : (a ++ b) ++ c = a ++ b ++ c.
Proof.
  induction a as [|x a IH]; [reflexivity|].
  change (String x ((a ++ b) ++ c) = String x (a ++ b ++ c)).
  now rewrite IH.
Qed.

(** X3. Compressing a file that was itself produced by the script stacks
    the suffix: the name suggested for a suggested name is the base name
    followed by "-compressed-compressed." and the format. *)
Theorem recompressed_name_stacks (inputName format : string) :
  format <> "" ->
  no_dot format = true ->
  getOutputFileName (getOutputFileName inputName (Str format)) (Str format)
  = remove_extension inputName ++ "-compressed-compressed." ++ format.
Proof.
  intros Hne Hdot. unfold getOutputFileName. cbn [ToString].
  set (base := remove_extension inputName).
  assert (Hsplit : base ++ "-compressed." ++ format
                   = (base ++ "-compressed") ++ "." ++ format)
    by (rewrite append_assoc; reflexivity).
  rewrite Hsplit, (remove_extension_app _ format Hne Hdot).
  rewrite append_assoc. reflexivity.
Qed.

Lemma recompressed_name_stacks_witness :
  getOutputFileName (getOutputFileName "photo.png" (Str "jpeg")) (Str "jpeg")
  = "photo-compressed-compressed.jpeg".
Proof.
  refine (recompressed_name_stacks "photo.png" "jpeg" _ eq_refl).
  discriminate.
Defined.

(** *** Pixel sizes that are not numbers *)

(** X4. With pixel resizing on, a width (or height) field that is empty,
    zero or not a number makes the single-file path fall back to the
    source width (height), while the batch asks the worker to resize to a
    width (height) of 0. *)
Theorem unparsable_pixels_differ
    (host : Host) (file : File) (st : State) (img : Image) :
  resizeToggle_checked (controls st) = true ->
  resize_pixels_checked (controls st) = true ->
  (ToBoolean (parseInt (widthInput_value (controls st))) = false ->
   fst (resized_dimensions st img) = NumberOfN (img_width img)
   /\ exists data,
        posted_for host st file = Some data
        /\ req_file data = file
        /\ req_resize data = true
        /\ req_width data = 0%float
        /\ canvas_width (worker_canvas data img) = 0%float)
  /\ (ToBoolean (parseInt (heightInput_value (controls st))) = false ->
      snd (resized_dimensions st img) = NumberOfN (img_height img)
      /\ exists data,
           posted_for host st file = Some data
           /\ req_file data = file
           /\ req_resize data = true
           /\ req_height data = 0%float
           /\ canvas_height (worker_canvas data img) = 0%float).
Proof.
  intros Hon Hpx.
  unfold resized_dimensions, posted_for, dispatch, fresh_batch, worker_canvas.
  cbn [page worker loading]. rewrite Hon, Hpx. unfold or_else.
  split; intros Hbad; rewrite Hbad; cbn; (split; [reflexivity|]);
    eexists; repeat split.
Qed.

Lemma unparsable_pixels_differ_witness :
  fst (resized_dimensions
         (with_controls (pixel_controls "" "480") photo_loaded) sample_image)
  = 1000%float
  /\ exists data,
       posted_for sample_host
         (with_controls (pixel_controls "" "480") photo_loaded) photo
       = Some data
       /\ req_width data = 0%float
       /\ req_height data = 480%float.
Proof.
  destruct (unparsable_pixels_differ sample_host photo
              (with_controls (pixel_controls "" "480") photo_loaded)
              sample_image eq_refl eq_refl) as [Hwidth _].
  destruct (Hwidth eq_refl) as (Hsingle & data & Hposted & _ & _ & Hzero & _).
  split; [rewrite Hsingle; vm_compute; reflexivity|].
  exists data. split; [exact Hposted|]. split; [exact Hzero|].
  vm_compute in Hposted. injection Hposted as <-. vm_compute. reflexivity.
Defined.


Lemma batch_entry_name_witness :
  map entry_name
    (compressedFiles
       (page
          (worker_onmessage
             {| reply_blob :=
                  {| blob_data := "encoded"; blob_type := "image/webp" |};
                reply_name := "sunset.webp";
                reply_size := 7;
                reply_originalSize := 3;
                reply_width := 1000;
                reply_height := 500 |}
             (fresh_batch initial_state))))
  = ["sunset-compressed.jpeg"].
Proof.
  rewrite batch_entry_name.
  - vm_compute. reflexivity.
  - cbn. intros [H|[H|[H|[H|[]]]]]; discriminate.
Defined.

Lemma undecodable_file_stalls_batch_witness :
  terminated
    (worker (processBatchWithWorker (with_compressedFiles [] three_chosen)))
  = false
  /\ (length
        (compressedFiles
           (page (processBatchWithWorker
                    (with_compressedFiles [] three_chosen))))
      < length (uploadedFiles (with_compressedFiles [] three_chosen)))%nat
  /\ downloadAllBtn_disabled
       (view (page (processBatchWithWorker
                      (with_compressedFiles [] three_chosen))))
     = downloadAllBtn_disabled (view (with_compressedFiles [] three_chosen)).
Proof.
  apply (undecodable_file_stalls_batch sample_host
           (with_compressedFiles [] three_chosen) corrupt
           (processBatchWithWorker (with_compressedFiles [] three_chosen))).
  - reflexivity.
  - vm_compute. auto.
  - right. reflexivity.
  - apply reachable_start.
Defined.

(** *** Batches that finish *)

Section Completion.

Variable host : Host.
Hypothesis Hencodes : always_encodes host.

Lemma decodable_answers (data : WorkerRequest) :
  decodable host (req_file data) -> answers host data = true.
Proof.
  intros (Hread & img & Hdecode). unfold answers.
  rewrite (self_onmessage_decoded host data img Hread Hdecode). cbn [snd].
  destruct (toBlob host _ _ _) eqn:Hblob; [reflexivity|].
  now apply Hencodes in Hblob.
Qed.

Lemma decodable_temp_answers (t : TempImage) :
  decodable host (temp_file t) -> temp_answers host t = true.
Proof.
  intros Hgood. unfold temp_answers.
  destruct Hgood as (Hread & img & Hdecode). rewrite Hdecode.
  apply decodable_answers. split; [exact Hread|]. now exists img.
Qed.

(** Dispatching a file the host can handle raises what is expected by
    one. *)
Lemma dispatch_expected_decodable (b : Batch) (file : File) :
  decodable host file ->
  expected host (dispatch b file) = S (expected host b).
Proof.
  intros Hgood. unfold dispatch, expected.
  destruct (resizeToggle_checked (controls (page b)));
    [destruct (resize_pixels_checked (controls (page b)));
     [|destruct (resize_percentage_checked (controls (page b)))]|];
    cbn [page worker loading postMessage inbox outbox terminated
         createObjectURL with_object_urls compressedFiles uploadedFiles
         view];
    rewrite List.filter_app, List.length_app;
    cbn [List.filter];
    rewrite ?decodable_answers, ?decodable_temp_answers by exact Hgood;
    cbn [length]; lia.
Qed.

Lemma fold_dispatch_expected_decodable (files : list File) (b : Batch) :
  Forall (decodable host) files ->
  expected host (fold_left dispatch files b)
  = (expected host b + length files)%nat.
Proof.
  intros Hall. revert b.
  induction Hall as [|file files Hfile _ IH]; intros b; cbn [fold_left length].
  - lia.
  - rewrite IH, (dispatch_expected_decodable b file Hfile). lia.
Qed.

(** What one step does to the counts of a batch that is still running. *)
Lemma step_counts (b b' : Batch) :
  step host b b' ->
  terminated (worker b) = false ->
  let done := length (compressedFiles (page b)) in
  let total := length (uploadedFiles (page b)) in
  uploadedFiles (page b') = uploadedFiles (page b)
  /\ expected host b' = expected host b
  /\ ((length (compressedFiles (page b')) = done
       /\ terminated (worker b') = false
       /\ downloadAllBtn_disabled (view (page b'))
          = downloadAllBtn_disabled (view (page b)))
      \/ (length (compressedFiles (page b')) = S done
          /\ (S done <= expected host b)%nat
          /\ terminated (worker b') = (S done =? total)%nat
          /\ downloadAllBtn_disabled (view (page b'))
             = if (S done =? total)%nat then false
               else downloadAllBtn_disabled (view (page b)))).
Proof.
  intros Hstep Hterm. cbv zeta. unfold expected.
  destruct Hstep as [b t before after tempImg Hl Hd|b t before after Hl Hd
                    |b data before after _ Hl|b result before after _ Hl].
  - assert (Ht : temp_answers host t
                 = answers host (tempImg_request t tempImg)).
    { unfold temp_answers. now rewrite Hd. }
    cbn. rewrite Hl, Hterm.
    rewrite (filter_length_split (temp_answers host) before after t), Ht.
    rewrite List.filter_app, List.length_app. cbn.
    split; [reflexivity|]. split; [|left; auto].
    destruct (answers host (tempImg_request t tempImg)); cbn; lia.
  - assert (Ht : temp_answers host t = false).
    { unfold temp_answers. now rewrite Hd. }
    cbn. rewrite Hl, Hterm.
    rewrite (filter_length_split (temp_answers host) before after t), Ht.
    split; [reflexivity|]. split; [lia|left; auto].
  - cbn. rewrite Hl, Hterm.
    rewrite (filter_length_split (answers host) before after data).
    rewrite List.length_app. unfold answers at 3.
    split; [reflexivity|]. split; [|left; auto].
    destruct (snd (self_onmessage host data)); cbn; lia.
  - destruct (worker_onmessage_spec result (page_takes (before ++ after) b))
      as (Hlen & Hup & _ & Hload & Hin & Hout & _ & Hfin & Hbtn).
    apply (f_equal (@length _)) in Hlen.
    rewrite List.length_app, Nat.add_1_r in Hlen.
    cbn [page_takes page worker loading inbox outbox terminated]
      in Hlen, Hup, Hload, Hin, Hout, Hfin, Hbtn.
    rewrite Hterm in Hfin. cbn [orb] in Hfin.
    rewrite Hlen, Hup, Hload, Hin, Hout, Hl, !List.length_app.
    cbn [length]. split; [reflexivity|]. split; [lia|].
    right. repeat split; [lia|exact Hfin|exact Hbtn].
Qed.

(** A terminated worker handles and delivers nothing: only temporary
    images still settle, and they leave the results alone. *)
Lemma step_after_termination (b b' : Batch) :
  step host b b' ->
  terminated (worker b) = true ->
  terminated (worker b') = true
  /\ compressedFiles (page b') = compressedFiles (page b)
  /\ uploadedFiles (page b') = uploadedFiles (page b)
  /\ view (page b') = view (page b).
Proof.
  intros Hstep Hterm.
  destruct Hstep as [b t before after tempImg Hl Hd|b t before after Hl Hd
                    |b data before after Hrun Hl|b result before after Hrun Hl];
    try congruence; cbn; auto.
Qed.


End Completion.

Lemma sample_host_always_encodes : always_encodes sample_host.
Proof.
  intros canvas mime quality. discriminate.
Qed.


(** *** Object URLs of a batch *)

Lemma worker_onmessage_urls (result : WorkerReply) (b : Batch) :
  let b' := worker_onmessage result b in
  let n := next_url (page b) in
  let finished :=
    (S (length (compressedFiles (page b)))
     =? length (uploadedFiles (page b)))%nat in
  let created :=
    <[S n := OfBlob (reply_blob result)]>
      (<[n := OfBlob (reply_blob result)]> (object_urls (page b))) in
  object_urls (page b')
  = (if finished then delete (worker_url (worker b)) created else created)
  /\ next_url (page b') = S (S n)
  /\ batchResults (view (page b'))
     = (batchResults (view (page b))
          ++ [{| item_url := S n;
                 item_size := reply_size result;
                 item_originalSize := reply_originalSize result;
                 item_width := reply_width result;
                 item_height := reply_height result |}])%list.
Proof.
  cbv zeta. unfold worker_onmessage, set_progress, addBatchResultItem.
  cbn [createObjectURL with_compressedFiles compressedFiles uploadedFiles].
  rewrite List.length_app, Nat.add_1_r.
  destruct (PrimFloat.is_finite _);
    destruct (S _ =? _)%nat; cbn; repeat split.
Qed.

Lemma worker_onmessage_worker_url (result : WorkerReply) (b : Batch) :
  worker_url (worker (worker_onmessage result b)) = worker_url (worker b).
Proof.
  unfold worker_onmessage, set_progress, addBatchResultItem.
  cbn [createObjectURL with_compressedFiles compressedFiles uploadedFiles].
  rewrite List.length_app, Nat.add_1_r.
  destruct (PrimFloat.is_finite _);
    destruct (S _ =? _)%nat; reflexivity.
Qed.

Lemma dispatch_urls_ok (b : Batch) (file : File) :
  batch_urls_ok b -> batch_urls_ok (dispatch b file).
Proof.
  intros (Hfresh & Hres & Hitems & Hworker & Htemp & Hdup).
  unfold dispatch.
  destruct (resizeToggle_checked (controls (page b)));
    [destruct (resize_pixels_checked (controls (page b)));
     [|destruct (resize_percentage_checked (controls (page b)))]|];
    try (repeat split; assumption).
  unfold batch_urls_ok, urls_fresh, results_alive, items_alive in *.
  cbn [createObjectURL page worker loading with_object_urls object_urls
       next_url compressedFiles view].
  assert (Hold : forall url target,
             object_urls (page b) !! url = Some target ->
             <[next_url (page b) := OfFile file]> (object_urls (page b))
               !! url = Some target).
  { intros url target Hurl. rewrite lookup_insert_ne; [exact Hurl|].
    apply Hfresh in Hurl. lia. }
  repeat apply conj.
  - intros url target Hurl.
    destruct (decide (url = next_url (page b))) as [->|Hne]; [lia|].
    rewrite lookup_insert_ne in Hurl by congruence.
    apply Hfresh in Hurl. lia.
  - intros e He. apply Hold. now apply Hres.
  - intros item Hitem. destruct (Hitems item Hitem) as (blob & Hblob).
    exists blob. now apply Hold.
  - intros Hrun. apply Hold. now apply Hworker.
  - intros t Ht. apply in_app_or in Ht as [Ht|[<-|[]]].
    + apply Hold. now apply Htemp.
    + cbn. now rewrite lookup_insert_eq.
  - rewrite List.map_app. cbn. apply NoDup_app. repeat split.
    + exact Hdup.
    + intros url Hurl [Heq|[]]%list_elem_of_In. subst url.
      apply list_elem_of_In, in_map_iff in Hurl as (t & Hsrc & Ht).
      specialize (Htemp t Ht). rewrite Hsrc in Htemp.
      apply Hfresh in Htemp. lia.
    + apply NoDup_singleton.
Qed.

Lemma fold_dispatch_urls_ok (files : list File) (b : Batch) :
  batch_urls_ok b -> batch_urls_ok (fold_left dispatch files b).
Proof.
  revert b. induction files as [|file files IH]; intros b Hb; [exact Hb|].
  cbn [fold_left]. apply IH. now apply dispatch_urls_ok.
Qed.

Lemma fold_dispatch_worker (files : list File) (b : Batch) :
  worker_url (worker (fold_left dispatch files b)) = worker_url (worker b).
Proof.
  revert b. induction files as [|file files IH]; intros b; [reflexivity|].
  cbn [fold_left]. rewrite IH. unfold dispatch.
  destruct (resizeToggle_checked _);
    [destruct (resize_pixels_checked _);
     [|destruct (resize_percentage_checked _)]|]; reflexivity.
Qed.

Lemma nodup_map_middle {A : Type} (f : A -> nat) (before after : list A)
    (x y : A) :
  NoDup (map f (before ++ x :: after)) ->
  In y (before ++ after) ->
  f y <> f x.
Proof.
  rewrite List.map_app. cbn [map].
  intros (_ & Hapart & (Hx & _)%NoDup_cons)%NoDup_app Hy Heq.
  apply in_app_or in Hy as [Hy|Hy].
  - apply (Hapart (f y)).
    + apply list_elem_of_In. now apply in_map.
    + rewrite Heq. apply list_elem_of_here.
  - apply Hx. rewrite <- Heq. apply list_elem_of_In. now apply in_map.
Qed.

Lemma nodup_map_remove {A : Type} (f : A -> nat) (before after : list A)
    (x : A) :
  NoDup (map f (before ++ x :: after)) -> NoDup (map f (before ++ after)).
Proof.
  rewrite !List.map_app. cbn [map].
  intros (Hb & Hapart & (_ & Ha)%NoDup_cons)%NoDup_app.
  apply NoDup_app. repeat split; [exact Hb| |exact Ha].
  intros url Hurl Hafter. apply (Hapart url Hurl).
  now apply list_elem_of_further.
Qed.

Section BatchUrls.

Variable host : Host.

(** A step keeps the URLs the batch relies on, revokes the worker's code
    when it terminates the worker, and the URL of a temporary image when
    the image has loaded. *)
Lemma step_urls_ok (b b' : Batch) :
  step host b b' ->
  batch_urls_ok b ->
  (terminated (worker b) = true ->
   object_urls (page b) !! worker_url (worker b) = None) ->
  batch_urls_ok b'
  /\ (terminated (worker b') = true ->
      object_urls (page b') !! worker_url (worker b') = None).
Proof.
  intros Hstep (Hfresh & Hres & Hitems & Hworker & Htemp & Hdup) Hgone.
  unfold batch_urls_ok, urls_fresh, results_alive, items_alive in *.
  destruct Hstep as [b t before after tempImg Hl Hd|b t before after Hl Hd
                    |b data before after Hrun Hl|b result before after Hrun Hl].
  - rewrite Hl in Htemp, Hdup.
    assert (Hsrc : object_urls (page b) !! temp_src t
                   = Some (OfFile (temp_file t))).
    { apply Htemp. apply in_or_app. right. now left. }
    assert (Hkeep : forall url target,
               object_urls (page b) !! url = Some target ->
               target <> OfFile (temp_file t) ->
               delete (temp_src t) (object_urls (page b)) !! url
               = Some target).
    { intros url target Hurl Hne. rewrite lookup_delete_ne; [exact Hurl|].
      intros <-. congruence. }
    cbn. repeat apply conj.
    + intros url target [_ Hurl]%lookup_delete_Some.
      exact (Hfresh _ _ Hurl).
    + intros e He. apply Hkeep; [now apply Hres|discriminate].
    + intros item Hitem. destruct (Hitems item Hitem) as (blob & Hblob).
      exists blob. apply Hkeep; [exact Hblob|discriminate].
    + intros Hterm. apply Hkeep; [now apply Hworker|discriminate].
    + intros t' Ht'. rewrite lookup_delete_ne.
      * apply Htemp. apply in_app_or in Ht' as [Ht'|Ht'];
          apply in_or_app; [now left|right; now right].
      * intros Heq. apply (nodup_map_middle temp_src before after t t' Hdup Ht').
        now symmetry.
    + now apply nodup_map_remove in Hdup.
    + intros Hterm. apply lookup_delete_None. right. now apply Hgone.
  - rewrite Hl in Htemp, Hdup. cbn. repeat apply conj; try assumption.
    + intros t' Ht'. apply Htemp. apply in_app_or in Ht' as [Ht'|Ht'];
        apply in_or_app; [now left|right; now right].
    + now apply nodup_map_remove in Hdup.
  - cbn. repeat split; assumption.
  - set (b1 := page_takes (before ++ after) b).
    destruct (worker_onmessage_spec result b1)
      as (Hfiles & _ & _ & Hload & _ & _ & _ & Hterm' & _).
    destruct (worker_onmessage_urls result b1) as (Hurls & Hnext & Hrows).
    cbv zeta in Hurls, Hnext, Hrows.
    change (page b1) with (page b) in *.
    change (loading b1) with (loading b) in *.
    change (worker_url (worker b1)) with (worker_url (worker b)) in *.
    change (terminated (worker b1)) with (terminated (worker b)) in *.
    assert (Hwurl : worker_url (worker (worker_onmessage result b1))
                    = worker_url (worker b)).
    { exact (worker_onmessage_worker_url result b1). }
    rewrite Hrun in Hterm'. cbn [orb] in Hterm'.
    specialize (Hworker Hrun).
    set (n := next_url (page b)) in *.
    set (blob := reply_blob result) in *.
    set (created := <[S n := OfBlob blob]>
                      (<[n := OfBlob blob]> (object_urls (page b)))) in *.
    assert (Hold : forall url target,
               object_urls (page b) !! url = Some target ->
               created !! url = Some target).
    { intros url target Hurl. pose proof (Hfresh _ _ Hurl) as Hlt.
      unfold created. rewrite !lookup_insert_ne by (fold n in Hlt; lia).
      exact Hurl. }
    assert (Hnew : created !! n = Some (OfBlob blob)).
    { unfold created. rewrite lookup_insert_ne by lia.
      apply lookup_insert_eq. }
    assert (Hrow : created !! S n = Some (OfBlob blob)).
    { unfold created. apply lookup_insert_eq. }
    assert (Hafter : forall url target,
               created !! url = Some target ->
               target <> OfWorkerCode ->
               object_urls (page (worker_onmessage result b1)) !! url
               = Some target).
    { intros url target Hurl Hne. rewrite Hurls.
      destruct (_ =? _)%nat; [|exact Hurl].
      rewrite lookup_delete_ne; [exact Hurl|].
      intros <-. apply Hold in Hworker. congruence. }
    rewrite Hfiles, Hload, Hrows, Hnext, Hwurl, Hterm'.
    repeat apply conj.
    + intros url target. rewrite Hurls. intros Hurl.
      assert (Hin : created !! url = Some target).
      { destruct (_ =? _)%nat; [|exact Hurl].
        now apply lookup_delete_Some in Hurl as [_ Hurl]. }
      unfold created in Hin.
      destruct (decide (url = S n)) as [->|Hne1]; [lia|].
      rewrite lookup_insert_ne in Hin by congruence.
      destruct (decide (url = n)) as [->|Hne2]; [lia|].
      rewrite lookup_insert_ne in Hin by congruence.
      apply Hfresh in Hin. fold n in Hin. lia.
    + intros e He. apply in_app_or in He as [He|[<-|[]]].
      * apply Hafter; [apply Hold; now apply Hres|discriminate].
      * cbn. apply Hafter; [exact Hnew|discriminate].
    + intros item Hitem. apply in_app_or in Hitem as [Hitem|[<-|[]]].
      * destruct (Hitems item Hitem) as (blob' & Hblob').
        exists blob'. apply Hafter; [now apply Hold|discriminate].
      * exists blob. cbn. apply Hafter; [exact Hrow|discriminate].
    + intros Hstill. rewrite Hurls, Hstill. now apply Hold.
    + intros t Ht. apply Hafter; [apply Hold; now apply Htemp|discriminate].
    + exact Hdup.
    + intros Hfin. rewrite Hurls, Hfin. apply lookup_delete_eq.
Qed.

(** The URLs a batch relies on are in place when it starts and stay in
    place whatever happens. *)
Lemma reachable_urls_ok (st : State) (b : Batch) :
  urls_fresh st ->
  compressedFiles st = [] ->
  reachable host (processBatchWithWorker st) b ->
  batch_urls_ok b
  /\ (terminated (worker b) = true ->
      object_urls (page b) !! worker_url (worker b) = None).
Proof.
  intros Hfresh Hempty Hreach.
  induction Hreach as [|b b' _ IH Hstep].
  - unfold processBatchWithWorker. cbn [createObjectURL].
    match goal with
    | |- context [fold_left dispatch ?fs ?b0] =>
        set (files := fs); set (start := b0)
    end.
    destruct (fold_dispatch_expected host files start)
      as (_ & _ & _ & Hterm & _).
    split.
    + apply fold_dispatch_urls_ok.
      unfold batch_urls_ok, urls_fresh, results_alive, items_alive, start.
      cbn. rewrite Hempty. repeat apply conj.
      * intros url target Hurl.
        destruct (decide (url = next_url st)) as [->|Hne]; [lia|].
        rewrite lookup_insert_ne in Hurl by congruence.
        apply Hfresh in Hurl. lia.
      * intros e [].
      * intros item [].
      * intros _. apply lookup_insert_eq.
      * intros t [].
      * constructor.
    + rewrite Hterm. unfold start. cbn. discriminate.
  - destruct IH as (Hok & Hgone). now apply (step_urls_ok b b').
Qed.

End BatchUrls.

Lemma urls_fresh_no_urls (st : State) : object_urls st = ∅ -> urls_fresh st.
Proof.
  intros Hnone url target. rewrite Hnone, lookup_empty. discriminate.
Qed.

Lemma compressImages_batch (host : Host) (st : State) (b0 : Batch) :
  compressImages host st = inr b0 ->
  b0 = processBatchWithWorker (with_compressedFiles [] st).
Proof.
  unfold compressImages.
  destruct (uploadedFiles st) as [|f [|g fs]]; try discriminate.
  - destruct (compressImage host f _) as [[r|m] st']; discriminate.
  - now intros [= <-].
Qed.

Lemma compressImages_several (host : Host) (st : State) (f g : File)
    (fs : list File) :
  uploadedFiles st = f :: g :: fs ->
  compressImages host st
  = inr (processBatchWithWorker (with_compressedFiles [] st)).
Proof.
  intros Hfiles. unfold compressImages. now rewrite Hfiles.
Qed.

(** X9. From the moment [compressImages] starts a batch, the object URL
    of every element of [compressedFiles] is alive and holds the element's
    blob, the preview URL of every row of the results list is alive, the
    URL of the worker's code is alive exactly as long as the worker has
    not been terminated, and every temporary image still awaited has its
    file's object URL. *)
Theorem batch_urls_stay_alive (host : Host) (st : State) (b0 b : Batch) :
  urls_fresh st ->
  compressImages host st = inr b0 ->
  reachable host b0 b ->
  results_alive (page b)
  /\ items_alive (page b)
  /\ (terminated (worker b) = false <->
      object_urls (page b) !! worker_url (worker b) = Some OfWorkerCode)
  /\ (forall t, In t (loading b) ->
                object_urls (page b) !! temp_src t
                = Some (OfFile (temp_file t))).
Proof.
  intros Hfresh Hstart Hreach.
  apply compressImages_batch in Hstart. subst b0.
  destruct (reachable_urls_ok host (with_compressedFiles [] st) b)
    as ((_ & Hres & Hitems & Hworker & Htemp & _) & Hgone);
    [exact Hfresh|reflexivity|exact Hreach|].
  split; [exact Hres|]. split; [exact Hitems|]. split; [|exact Htemp].
  split; [exact Hworker|].
  intros Halive. destruct (terminated (worker b)); [|reflexivity].
  rewrite Hgone in Halive by reflexivity. discriminate.
Qed.

Lemma two_chosen_files : uploadedFiles two_chosen = [photo; sunset].
Proof.
  vm_compute. reflexivity.
Qed.

Lemma two_chosen_no_urls : object_urls two_chosen = ∅.
Proof.
  vm_compute. reflexivity.
Qed.

(** Two files chosen, the first of them compressed and received. *)
Lemma batch_urls_stay_alive_witness :
  exists b,
    run sample_host [WorkerHandles 0; PageReceives 0]
      (processBatchWithWorker (with_compressedFiles [] two_chosen)) = Some b
    /\ results_alive (page b)
    /\ items_alive (page b)
    /\ length (compressedFiles (page b)) = 1%nat.
Proof.
  destruct (run sample_host [WorkerHandles 0; PageReceives 0]
              (processBatchWithWorker (with_compressedFiles [] two_chosen)))
    as [b|] eqn:Hrun; [|vm_compute in Hrun; discriminate].
  exists b. split; [reflexivity|].
  destruct (batch_urls_stay_alive sample_host two_chosen
              (processBatchWithWorker (with_compressedFiles [] two_chosen)) b
              (urls_fresh_no_urls _ two_chosen_no_urls)
              (compressImages_several _ _ _ _ _ two_chosen_files)
              (run_reachable _ _ _ _ Hrun))
    as (Hres & Hitems & _).
  split; [exact Hres|]. split; [exact Hitems|].
  vm_compute in Hrun. injection Hrun as <-. vm_compute. reflexivity.
Defined.

(** *** Downloading the results of a batch *)

Lemma fold_left_snoc_map {A B : Type} (f : A -> B) (l : list A)
    (acc : list B) :
  fold_left (fun clicked x => (clicked ++ [f x])%list) l acc
  = (acc ++ map f l)%list.
Proof.
  revert acc. induction l as [|x l IH]; intros acc; cbn.
  - now rewrite app_nil_r.
  - rewrite IH, <- app_assoc. reflexivity.
Qed.

Lemma downloadAllCompressedImages_links (st : State) :
  snd (downloadAllCompressedImages st) = map entry_link (compressedFiles st)
  /\ object_urls (fst (downloadAllCompressedImages st)) = object_urls st
  /\ next_url (fst (downloadAllCompressedImages st)) = next_url st
  /\ compressedFiles (fst (downloadAllCompressedImages st))
     = compressedFiles st.
Proof.
  unfold downloadAllCompressedImages.
  destruct (compressedFiles st) as [|file [|file' files]] eqn:Hfiles;
    cbn [fst snd]; rewrite ?Hfiles; try (repeat split; reflexivity).
  cbn [alert compressedFiles object_urls next_url]. rewrite Hfiles.
  rewrite fold_left_snoc_map. repeat split; reflexivity.
Qed.

(** X10. Whenever "download all" runs during or after a batch it clicks
    one link per recorded result, in the order the results arrived, each
    under the name recorded for the result and pointing at an object URL
    that is alive and holds the result's blob.  It creates and revokes no
    object URL, and shows its notice exactly when there are two results or
    more. *)
Theorem download_all_serves_results (host : Host) (st : State)
    (b0 b : Batch) :
  urls_fresh st ->
  compressImages host st = inr b0 ->
  reachable host b0 b ->
  let results := compressedFiles (page b) in
  let after := fst (downloadAllCompressedImages (page b)) in
  let links := snd (downloadAllCompressedImages (page b)) in
  map link_download links = map entry_name results
  /\ map link_href links = map entry_url results
  /\ Forall (fun file =>
               object_urls after !! entry_url file
               = Some (OfBlob (entry_blob file))) results
  /\ object_urls after = object_urls (page b)
  /\ (alerts after = alerts (page b) <-> (length results <= 1)%nat).
Proof.
  intros Hfresh Hstart Hreach. cbv zeta.
  apply compressImages_batch in Hstart. subst b0.
  destruct (reachable_urls_ok host (with_compressedFiles [] st) b)
    as ((_ & Hres & _) & _); [exact Hfresh|reflexivity|exact Hreach|].
  destruct (downloadAllCompressedImages_links (page b))
    as (Hlinks & Hurls & _ & _).
  rewrite Hlinks, Hurls, !map_map. cbn [entry_link link_download link_href].
  split; [reflexivity|]. split; [reflexivity|].
  split; [apply List.Forall_forall; exact Hres|]. split; [reflexivity|].
  unfold downloadAllCompressedImages.
  destruct (compressedFiles (page b)) as [|file [|file' files]];
    cbn [fst alert alerts length].
  - split; [lia|reflexivity].
  - split; [lia|reflexivity].
  - split; [|lia]. intros Hsame.
    apply (f_equal (@length string)) in Hsame.
    rewrite List.length_app in Hsame. cbn in Hsame. lia.
Qed.

(** Two files chosen and both compressed: two links, no new URL. *)
Lemma download_all_serves_results_witness :
  exists b,
    run sample_host
      [WorkerHandles 0; WorkerHandles 0; PageReceives 1; PageReceives 0]
      (processBatchWithWorker (with_compressedFiles [] two_chosen)) = Some b
    /\ map link_download (snd (downloadAllCompressedImages (page b)))
       = ["sunset-compressed.jpeg"; "photo-compressed.jpeg"]
    /\ map link_href (snd (downloadAllCompressedImages (page b)))
       = map entry_url (compressedFiles (page b)).
Proof.
  destruct (run sample_host
              [WorkerHandles 0; WorkerHandles 0; PageReceives 1;
               PageReceives 0]
              (processBatchWithWorker (with_compressedFiles [] two_chosen)))
    as [b|] eqn:Hrun; [|vm_compute in Hrun; discriminate].
  exists b. split; [reflexivity|].
  destruct (download_all_serves_results sample_host two_chosen
              (processBatchWithWorker (with_compressedFiles [] two_chosen)) b
              (urls_fresh_no_urls _ two_chosen_no_urls)
              (compressImages_several _ _ _ _ _ two_chosen_files)
              (run_reachable _ _ _ _ Hrun))
    as (Hnames & Hrefs & _).
  split; [|exact Hrefs].
  rewrite Hnames.
  vm_compute in Hrun. injection Hrun as <-. vm_compute. reflexivity.
Defined.

(** *** Object URLs of the temporary images *)

Lemma dispatch_keeps_url (b : Batch) (file : File) (url : nat)
    (target : UrlTarget) :
  urls_fresh (page b) ->
  object_urls (page b) !! url = Some target ->
  object_urls (page (dispatch b file)) !! url = Some target.
Proof.
  intros Hfresh Hurl. unfold dispatch.
  destruct (resizeToggle_checked (controls (page b)));
    [destruct (resize_pixels_checked (controls (page b)));
     [|destruct (resize_percentage_checked (controls (page b)))]|];
    try exact Hurl.
  cbn. rewrite lookup_insert_ne; [exact Hurl|].
  apply Hfresh in Hurl. lia.
Qed.

Lemma fold_dispatch_keeps_url (files : list File) (b : Batch) (url : nat)
    (target : UrlTarget) :
  batch_urls_ok b ->
  object_urls (page b) !! url = Some target ->
  object_urls (page (fold_left dispatch files b)) !! url = Some target.
Proof.
  revert b. induction files as [|file files IH]; intros b Hok Hurl;
    [exact Hurl|].
  cbn [fold_left]. apply IH.
  - now apply dispatch_urls_ok.
  - apply dispatch_keeps_url; [apply Hok|exact Hurl].
Qed.

Lemma dispatch_controls (b : Batch) (file : File) :
  controls (page (dispatch b file)) = controls (page b).
Proof.
  unfold dispatch.
  destruct (resizeToggle_checked (controls (page b)));
    [destruct (resize_pixels_checked (controls (page b)));
     [|destruct (resize_percentage_checked (controls (page b)))]|];
    reflexivity.
Qed.

Lemma dispatch_by_percentage (b : Batch) (file : File) :
  by_percentage (controls (page b)) ->
  object_urls (page (dispatch b file)) !! next_url (page b)
  = Some (OfFile file).
Proof.
  intros (Hon & Hpixels & Hpercentage). unfold dispatch.
  rewrite Hon, Hpixels, Hpercentage. cbn. apply lookup_insert_eq.
Qed.

Lemma fold_dispatch_by_percentage (files : list File) (b : Batch)
    (file : File) :
  by_percentage (controls (page b)) ->
  batch_urls_ok b ->
  In file files ->
  exists url,
    object_urls (page (fold_left dispatch files b)) !! url
    = Some (OfFile file).
Proof.
  revert b. induction files as [|f files IH]; intros b Hmode Hok Hin;
    [destruct Hin|].
  destruct Hin as [Hin|Hin].
  - subst f. exists (next_url (page b)). cbn [fold_left].
    apply fold_dispatch_keeps_url; [now apply dispatch_urls_ok|].
    now apply dispatch_by_percentage.
  - cbn [fold_left]. apply IH; [|now apply dispatch_urls_ok|exact Hin].
    now rewrite dispatch_controls.
Qed.

Section TempUrls.

Variable host : Host.

(** No step revokes the object URL of a file that does not decode. *)
Lemma step_keeps_failed_url (b b' : Batch) (file : File) (url : nat) :
  step host b b' ->
  batch_urls_ok b ->
  decode host (file_data file) = None ->
  object_urls (page b) !! url = Some (OfFile file) ->
  object_urls (page b') !! url = Some (OfFile file).
Proof.
  intros Hstep (Hfresh & _ & _ & Hworker & Htemp & _) Hnone Hurl.
  destruct Hstep as [b t before after tempImg Hl Hd|b t before after Hl Hd
                    |b data before after Hrun Hl|b result before after Hrun Hl].
  - cbn. rewrite lookup_delete_ne; [exact Hurl|].
    intros <-. rewrite Htemp in Hurl.
    + injection Hurl as <-. congruence.
    + rewrite Hl. apply in_or_app. right. now left.
  - exact Hurl.
  - exact Hurl.
  - set (b1 := page_takes (before ++ after) b).
    destruct (worker_onmessage_urls result b1) as (Hurls & _).
    cbv zeta in Hurls.
    change (page b1) with (page b) in *.
    change (worker_url (worker b1)) with (worker_url (worker b)) in *.
    rewrite Hurls.
    assert (Hin : <[S (next_url (page b)) := OfBlob (reply_blob result)]>
                    (<[next_url (page b) := OfBlob (reply_blob result)]>
                       (object_urls (page b))) !! url
                  = Some (OfFile file)).
    { pose proof (Hfresh _ _ Hurl) as Hlt.
      rewrite !lookup_insert_ne by lia. exact Hurl. }
    destruct (_ =? _)%nat; [|exact Hin].
    rewrite lookup_delete_ne; [exact Hin|].
    intros <-. rewrite (Hworker Hrun) in Hurl. discriminate.
Qed.

(** Every object URL that holds a file belongs to an image still awaited
    or to a file that does not decode. *)
Lemma step_file_urls (b b' : Batch) :
  step host b b' ->
  batch_urls_ok b ->
  (forall url f,
      object_urls (page b) !! url = Some (OfFile f) ->
      (exists t, In t (loading b) /\ temp_src t = url /\ temp_file t = f)
      \/ decode host (file_data f) = None) ->
  forall url f,
    object_urls (page b') !! url = Some (OfFile f) ->
    (exists t, In t (loading b') /\ temp_src t = url /\ temp_file t = f)
    \/ decode host (file_data f) = None.
Proof.
  intros Hstep (Hfresh & _ & _ & Hworker & Htemp & _) Hinv url f.
  destruct Hstep as [b t before after tempImg Hl Hd|b t before after Hl Hd
                    |b data before after Hrun Hl|b result before after Hrun Hl].
  - cbn. intros [Hne Hurl]%lookup_delete_Some.
    destruct (Hinv _ _ Hurl) as [(t' & Ht' & Hsrc & Hfile)|Hnone];
      [left|now right].
    exists t'. split; [|now split].
    rewrite Hl in Ht'. apply in_app_or in Ht' as [Ht'|[Heq|Ht']];
      apply in_or_app; [now left| |now right].
    subst t'. congruence.
  - cbn. intros Hurl.
    destruct (Hinv _ _ Hurl) as [(t' & Ht' & Hsrc & Hfile)|Hnone];
      [|now right].
    rewrite Hl in Ht'. apply in_app_or in Ht' as [Ht'|[Heq|Ht']].
    + left. exists t'. split; [apply in_or_app; now left|now split].
    + right. subst t'. now rewrite <- Hfile.
    + left. exists t'. split; [apply in_or_app; now right|now split].
  - exact (Hinv url f).
  - set (b1 := page_takes (before ++ after) b).
    destruct (worker_onmessage_spec result b1)
      as (_ & _ & _ & Hload & _).
    destruct (worker_onmessage_urls result b1) as (Hurls & _).
    cbv zeta in Hurls.
    change (page b1) with (page b) in *.
    change (loading b1) with (loading b) in *.
    change (worker_url (worker b1)) with (worker_url (worker b)) in *.
    rewrite Hurls, Hload. intros Hurl. apply Hinv.
    assert (Hin : <[S (next_url (page b)) := OfBlob (reply_blob result)]>
                    (<[next_url (page b) := OfBlob (reply_blob result)]>
                       (object_urls (page b))) !! url
                  = Some (OfFile f)).
    { destruct (_ =? _)%nat; [|exact Hurl].
      now apply lookup_delete_Some in Hurl as [_ Hurl]. }
    destruct (decide (url = S (next_url (page b)))) as [->|Hne1].
    { rewrite lookup_insert_eq in Hin. discriminate. }
    rewrite lookup_insert_ne in Hin by congruence.
    destruct (decide (url = next_url (page b))) as [->|Hne2].
    { rewrite lookup_insert_eq in Hin. discriminate. }
    rewrite lookup_insert_ne in Hin by congruence. exact Hin.
Qed.

Lemma dispatch_file_urls (b : Batch) (file : File) :
  (forall url f,
      object_urls (page b) !! url = Some (OfFile f) ->
      (exists t, In t (loading b) /\ temp_src t = url /\ temp_file t = f)
      \/ decode host (file_data f) = None) ->
  forall url f,
    object_urls (page (dispatch b file)) !! url = Some (OfFile f) ->
    (exists t, In t (loading (dispatch b file))
               /\ temp_src t = url /\ temp_file t = f)
    \/ decode host (file_data f) = None.
Proof.
  intros Hinv url f. unfold dispatch.
  destruct (resizeToggle_checked (controls (page b)));
    [destruct (resize_pixels_checked (controls (page b)));
     [|destruct (resize_percentage_checked (controls (page b)))]|];
    try exact (Hinv url f).
  cbn. intros Hurl.
  destruct (decide (url = next_url (page b))) as [->|Hne].
  - rewrite lookup_insert_eq in Hurl. injection Hurl as <-.
    left. eexists. split; [apply in_or_app; right; now left|].
    split; reflexivity.
  - rewrite lookup_insert_ne in Hurl by congruence.
    destruct (Hinv _ _ Hurl) as [(t & Ht & Hsrc & Hfile)|Hnone];
      [left|now right].
    exists t. split; [apply in_or_app; now left|now split].
Qed.

Lemma fold_dispatch_file_urls (files : list File) (b : Batch) :
  (forall url f,
      object_urls (page b) !! url = Some (OfFile f) ->
      (exists t, In t (loading b) /\ temp_src t = url /\ temp_file t = f)
      \/ decode host (file_data f) = None) ->
  forall url f,
    object_urls (page (fold_left dispatch files b)) !! url
    = Some (OfFile f) ->
    (exists t, In t (loading (fold_left dispatch files b))
               /\ temp_src t = url /\ temp_file t = f)
    \/ decode host (file_data f) = None.
Proof.
  revert b. induction files as [|file files IH]; intros b Hinv;
    [exact Hinv|].
  cbn [fold_left]. apply IH. now apply dispatch_file_urls.
Qed.

(** The worker just created, with nothing posted yet. *)
Lemma created_worker_urls_ok (st : State) :
  urls_fresh st ->
  compressedFiles st = [] ->
  batchResults (view st) = [] ->
  batch_urls_ok
    {| page := snd (createObjectURL OfWorkerCode st);
       worker :=
         {| worker_url := next_url st; terminated := false;
            inbox := []; outbox := []; worker_calls := [] |};
       loading := [] |}.
Proof.
  intros Hfresh Hempty Hrows.
  unfold batch_urls_ok, urls_fresh, results_alive, items_alive.
  cbn. rewrite Hempty, Hrows. repeat apply conj.
  - intros url target Hurl.
    destruct (decide (url = next_url st)) as [->|Hne]; [lia|].
    rewrite lookup_insert_ne in Hurl by congruence.
    apply Hfresh in Hurl. lia.
  - intros e [].
  - intros item [].
  - intros _. apply lookup_insert_eq.
  - intros t [].
  - constructor.
Qed.

(** X11. In a batch resized by percentage, the object URL created for the
    temporary image of a file that does not decode is never revoked: in
    every state the batch can reach some object URL still holds that
    file. *)
Theorem failed_load_keeps_url (st : State) (b0 b : Batch) (file : File) :
  urls_fresh st ->
  by_percentage (controls st) ->
  compressImages host st = inr b0 ->
  In file (uploadedFiles st) ->
  decode host (file_data file) = None ->
  reachable host b0 b ->
  exists url, object_urls (page b) !! url = Some (OfFile file).
Proof.
  intros Hfresh Hmode Hstart Hin Hnone Hreach.
  apply compressImages_batch in Hstart. subst b0.
  assert (Hok : forall b1,
             reachable host
               (processBatchWithWorker (with_compressedFiles [] st)) b1 ->
             batch_urls_ok b1).
  { intros b1 Hb1.
    now apply (reachable_urls_ok host (with_compressedFiles [] st) b1). }
  induction Hreach as [|b b' Hreach IH Hstep].
  - unfold processBatchWithWorker. cbn [createObjectURL].
    match goal with
    | |- context [fold_left dispatch ?fs ?b1] =>
        set (files := fs); set (start := b1)
    end.
    apply fold_dispatch_by_percentage; [exact Hmode| |exact Hin].
    unfold start.
    apply (created_worker_urls_ok
             (set_batchResults []
                (set_processedCount_text "0"
                   (set_progressFill_width "0%"
                      (set_batchSection_display block
                         (with_compressedFiles [] st))))));
      [exact Hfresh|reflexivity|reflexivity].
  - destruct IH as (url & Hurl). exists url.
    apply (step_keeps_failed_url b b'); auto.
Qed.

(** X12. In a batch, every object URL that holds a file belongs to a
    temporary image still awaited or to a file that does not decode,
    provided that was so when the batch started: once no image is awaited
    the URLs of all files that decoded have been revoked. *)
Theorem loaded_file_urls_are_revoked (st : State) (b0 b : Batch) :
  urls_fresh st ->
  no_decodable_file_url host st ->
  compressImages host st = inr b0 ->
  reachable host b0 b ->
  (forall url f,
      object_urls (page b) !! url = Some (OfFile f) ->
      (exists t, In t (loading b) /\ temp_src t = url /\ temp_file t = f)
      \/ decode host (file_data f) = None)
  /\ (loading b = [] -> no_decodable_file_url host (page b)).
Proof.
  intros Hfresh Hold Hstart Hreach.
  apply compressImages_batch in Hstart. subst b0.
  assert (Hinv : forall url f,
             object_urls (page b) !! url = Some (OfFile f) ->
             (exists t, In t (loading b) /\ temp_src t = url
                        /\ temp_file t = f)
             \/ decode host (file_data f) = None).
  { assert (Hok : forall b1,
               reachable host
                 (processBatchWithWorker (with_compressedFiles [] st)) b1 ->
               batch_urls_ok b1).
    { intros b1 Hb1.
      now apply (reachable_urls_ok host (with_compressedFiles [] st) b1). }
    induction Hreach as [|b b' Hreach IH Hstep].
    - unfold processBatchWithWorker. cbn [createObjectURL].
      apply fold_dispatch_file_urls. cbn. intros url f Hurl. right.
      destruct (decide (url = next_url st)) as [->|Hne].
      + rewrite lookup_insert_eq in Hurl. discriminate.
      + rewrite lookup_insert_ne in Hurl by congruence.
        exact (Hold _ _ Hurl).
    - apply (step_file_urls b b'); auto. }
  split; [exact Hinv|].
  intros Hnone url f Hurl.
  destruct (Hinv _ _ Hurl) as [(t & Ht & _)|Hfailed]; [|exact Hfailed].
  rewrite Hnone in Ht. destruct Ht.
Qed.

End TempUrls.

Lemma three_by_percentage_files :
  uploadedFiles three_by_percentage = [photo; corrupt; sunset].
Proof.
  vm_compute. reflexivity.
Qed.

Lemma three_by_percentage_no_urls : object_urls three_by_percentage = ∅.
Proof.
  vm_compute. reflexivity.
Qed.

(** Three files of which the second does not decode: when none of the
    three temporary images is awaited any more, the second file's URL is
    still there. *)
Lemma failed_load_keeps_url_witness :
  exists b,
    run sample_host
      [TempImageSettles 1; TempImageSettles 0; TempImageSettles 0]
      (processBatchWithWorker (with_compressedFiles [] three_by_percentage))
    = Some b
    /\ loading b = []
    /\ exists url, object_urls (page b) !! url = Some (OfFile corrupt).
Proof.
  destruct (run sample_host
              [TempImageSettles 1; TempImageSettles 0; TempImageSettles 0]
              (processBatchWithWorker
                 (with_compressedFiles [] three_by_percentage)))
    as [b|] eqn:Hrun; [|vm_compute in Hrun; discriminate].
  exists b. split; [reflexivity|]. split.
  - vm_compute in Hrun. injection Hrun as <-. vm_compute. reflexivity.
  - apply (failed_load_keeps_url sample_host three_by_percentage
             (processBatchWithWorker
                (with_compressedFiles [] three_by_percentage)) b corrupt).
    + exact (urls_fresh_no_urls _ three_by_percentage_no_urls).
    + vm_compute. repeat split.
    + exact (compressImages_several _ _ _ _ _ three_by_percentage_files).
    + rewrite three_by_percentage_files. right. now left.
    + reflexivity.
    + exact (run_reachable _ _ _ _ Hrun).
Defined.

Lemma no_urls_no_file_url (host : Host) (st : State) :
  object_urls st = ∅ -> no_decodable_file_url host st.
Proof.
  intros Hnone url f. rewrite Hnone, lookup_empty. discriminate.
Qed.

(** The same three files: once the three temporary images have settled,
    no object URL holds a file that decodes. *)
Lemma loaded_file_urls_are_revoked_witness :
  exists b,
    run sample_host
      [TempImageSettles 2; TempImageSettles 1; TempImageSettles 0]
      (processBatchWithWorker (with_compressedFiles [] three_by_percentage))
    = Some b
    /\ no_decodable_file_url sample_host (page b).
Proof.
  destruct (run sample_host
              [TempImageSettles 2; TempImageSettles 1; TempImageSettles 0]
              (processBatchWithWorker
                 (with_compressedFiles [] three_by_percentage)))
    as [b|] eqn:Hrun; [|vm_compute in Hrun; discriminate].
  exists b. split; [reflexivity|].
  destruct (loaded_file_urls_are_revoked sample_host three_by_percentage
              (processBatchWithWorker
                 (with_compressedFiles [] three_by_percentage)) b
              (urls_fresh_no_urls _ three_by_percentage_no_urls)
              (no_urls_no_file_url _ _ three_by_percentage_no_urls)
              (compressImages_several _ _ _ _ _ three_by_percentage_files)
              (run_reachable _ _ _ _ Hrun))
    as (_ & Hdone).
  apply Hdone.
  vm_compute in Hrun. injection Hrun as <-. vm_compute. reflexivity.
Defined.

(** *** Choosing files *)

(** What [processFiles] leaves alone, whatever it is given. *)
Lemma processFiles_keeps (host : Host) (files : list File) (st : State) :
  let st' := processFiles host files st in
  compressedFile st' = compressedFile st
  /\ compressedFiles st' = compressedFiles st
  /\ object_urls st' = object_urls st
  /\ next_url st' = next_url st
  /\ formatSelect_value (controls st') = formatSelect_value (controls st)
  /\ downloadBtn_disabled (view st') = downloadBtn_disabled (view st)
  /\ downloadAllBtn_disabled (view st') = downloadAllBtn_disabled (view st)
  /\ compressedPreview_src (view st') = compressedPreview_src (view st)
  /\ batchResults (view st') = batchResults (view st).
Proof.
  cbv zeta. unfold processFiles.
  destruct (List.filter supported_type files) as [|first rest];
    [cbn; repeat split|].
  unfold displayOriginalImage.
  destruct (readable host first); [destruct (decode host (file_data first))|];
    destruct (1 <? _)%nat; cbn; repeat split.
Qed.

(** What [processFiles] shows once a file has been admitted. *)
Lemma processFiles_view (host : Host) (files : list File) (st : State)
    (first : File) (rest : list File) :
  List.filter supported_type files = first :: rest ->
  let st' := processFiles host files st in
  uploadSection_display (view st') = none
  /\ controlsSection_display (view st') = block
  /\ compressBtn_disabled (view st') = false
  /\ processedCount_text (view st') = "0"
  /\ totalCount_text (view st')
     = number_text (length_of (first :: rest))
  /\ batchSection_display (view st')
     = (if (1 <? length (first :: rest))%nat then block
        else batchSection_display (view st)).
Proof.
  intros Hsome. cbv zeta. unfold processFiles. rewrite Hsome.
  unfold displayOriginalImage.
  destruct (readable host first); [destruct (decode host (file_data first))|];
    cbn [uploadedFiles with_uploadedFiles with_currentFile showControls
         set_controlsSection_display set_uploadSection_display called
         set_originalPreview_src with_originalAspectRatio
         set_widthInput_value set_heightInput_value
         set_previewSection_display set_totalCount_text
         set_processedCount_text set_compressBtn_disabled with_view
         with_controls];
    destruct (1 <? length (first :: rest))%nat; cbn; repeat split.
Qed.

(** X13. An empty selection changes nothing.  A selection none of whose
    files is admitted raises the alert and leaves the files chosen before,
    the page and the controls as they were.  Any other selection replaces
    the files chosen before by the admitted ones, in their order, makes the
    first of them current, shows the controls, enables "compress" and
    resets the counters; the batch section is shown for two files or more
    and otherwise left as it was, and an earlier result stays in place with
    its download buttons. *)
Theorem handleFileSelect_outcomes (host : Host) (files : list File)
    (st : State) :
  let st' := handleFileSelect host files st in
  let admitted := List.filter supported_type files in
  (files = [] -> st' = st)
  /\ (files <> [] -> admitted = [] ->
      alerts st'
      = (alerts st ++ ["Please upload JPG, PNG, or WebP images only."])%list
      /\ uploadedFiles st' = uploadedFiles st
      /\ currentFile st' = currentFile st
      /\ view st' = view st
      /\ controls st' = controls st)
  /\ (admitted <> [] ->
      uploadedFiles st' = admitted
      /\ currentFile st' = hd_error admitted
      /\ alerts st' = alerts st
      /\ uploadSection_display (view st') = none
      /\ controlsSection_display (view st') = block
      /\ compressBtn_disabled (view st') = false
      /\ processedCount_text (view st') = "0"
      /\ totalCount_text (view st') = number_text (length_of admitted)
      /\ batchSection_display (view st')
         = (if (1 <? length admitted)%nat then block
            else batchSection_display (view st))
      /\ compressedFile st' = compressedFile st
      /\ compressedFiles st' = compressedFiles st
      /\ object_urls st' = object_urls st
      /\ downloadBtn_disabled (view st') = downloadBtn_disabled (view st)
      /\ downloadAllBtn_disabled (view st')
         = downloadAllBtn_disabled (view st)).
Proof.
  cbv zeta. unfold handleFileSelect. split; [|split].
  - intros ->. reflexivity.
  - intros Hsome Hnone. destruct files as [|file files]; [congruence|].
    cbn [length Nat.ltb Nat.leb]. unfold processFiles. rewrite Hnone.
    cbn. repeat split.
  - intros Hsome.
    destruct files as [|file files]; [now cbn in Hsome|].
    cbn [length Nat.ltb Nat.leb].
    destruct (List.filter supported_type (file :: files))
      as [|first rest] eqn:Hfilter; [congruence|].
    destruct (processFiles_cases host (file :: files) st)
      as [(Hnone & _)|(first' & rest' & calls & Heq & Hup & Hcur & _ & _ & Hal)];
      [congruence|].
    destruct (processFiles_view host (file :: files) st first rest Hfilter)
      as (H1 & H2 & H3 & H4 & H5 & H6).
    destruct (processFiles_keeps host (file :: files) st)
      as (K1 & K2 & K3 & _ & _ & K4 & K5 & _).
    rewrite Hfilter in Heq, Hup. injection Heq as <- <-.
    repeat apply conj; assumption.
Qed.

(** *** Downloading a single result *)

Lemma compressImage_resolved (host : Host) (file : File) (st st1 : State)
    (result : CompressionResult) :
  compressImage host file st = (Resolved result, st1) ->
  result_url result = next_url st
  /\ next_url st1 = S (next_url st)
  /\ object_urls st1
     = <[next_url st := OfBlob (result_blob result)]> (object_urls st)
  /\ result_name result
     = getOutputFileName (file_name file)
         (getOutputFormat st (file_type file))
  /\ uploadedFiles st1 = uploadedFiles st
  /\ currentFile st1 = currentFile st
  /\ compressedFile st1 = compressedFile st
  /\ compressedFiles st1 = compressedFiles st
  /\ controls st1 = controls st
  /\ view st1 = view st
  /\ alerts st1 = alerts st.
Proof.
  unfold compressImage.
  destruct (readable host file); [|discriminate].
  destruct (decode host (file_data file)) as [img|]; [|discriminate].
  rewrite !resized_dimensions_called, !getOutputFormat_called,
    !controls_called.
  destruct (resized_dimensions st img) as [width height].
  destruct (toBlob host _ _ _) as [blob|]; [|discriminate].
  cbn. intros [= <- <-]. cbn. repeat split.
Qed.

Lemma compressImage_rejected (host : Host) (file : File) (st st1 : State)
    (message : string) :
  compressImage host file st = (Rejected message, st1) ->
  object_urls st1 = object_urls st
  /\ next_url st1 = next_url st
  /\ uploadedFiles st1 = uploadedFiles st
  /\ currentFile st1 = currentFile st
  /\ compressedFile st1 = compressedFile st
  /\ compressedFiles st1 = compressedFiles st
  /\ controls st1 = controls st
  /\ view st1 = view st
  /\ alerts st1 = alerts st.
Proof.
  unfold compressImage.
  destruct (readable host file).
  - destruct (decode host (file_data file)) as [img|].
    + rewrite !resized_dimensions_called, !getOutputFormat_called,
        !controls_called.
      destruct (resized_dimensions st img) as [width height].
      destruct (toBlob host _ _ _) as [blob|]; [discriminate|].
      intros [= _ <-]. cbn. repeat split.
    + intros [= _ <-]. cbn. repeat split.
  - intros [= _ <-]. cbn. repeat split.
Qed.

Lemma getOutputFormat_controls (st st' : State) (inputType : string) :
  formatSelect_value (controls st') = formatSelect_value (controls st) ->
  getOutputFormat st' inputType = getOutputFormat st inputType.
Proof.
  intros Hsame. unfold getOutputFormat. now rewrite Hsame.
Qed.

(** What [downloadCompressedImage] does with a result and a current
    file. *)
Lemma downloadCompressedImage_link (st : State) (blob : Blob) (file : File) :
  compressedFile st = Some blob ->
  currentFile st = Some file ->
  snd (downloadCompressedImage st)
  = [{| link_href := next_url st;
        link_download :=
          getOutputFileName (file_name file)
            (getOutputFormat st (file_type file)) |}]
  /\ object_urls (fst (downloadCompressedImage st))
     = <[next_url st := OfBlob blob]> (object_urls st)
  /\ next_url (fst (downloadCompressedImage st)) = S (next_url st)
  /\ compressedFiles (fst (downloadCompressedImage st)) = compressedFiles st
  /\ compressedFile (fst (downloadCompressedImage st)) = Some blob
  /\ currentFile (fst (downloadCompressedImage st)) = Some file
  /\ controls (fst (downloadCompressedImage st)) = controls st.
Proof.
  intros Hblob Hfile. unfold downloadCompressedImage.
  rewrite Hblob. cbn [createObjectURL currentFile with_object_urls].
  rewrite Hfile. cbn. repeat split; assumption.
Qed.

(** X14. After a single file has been compressed, "download" clicks one
    link, under the name of the result; every click registers one more
    object URL for the result's blob, next to the URL of the preview,
    which stays alive.  "Download all" clicks nothing. *)
Theorem download_after_compression (host : Host) (st st1 : State)
    (file : File) (result : CompressionResult) :
  uploadedFiles st = [file] ->
  currentFile st = Some file ->
  compressImage host file (with_compressedFiles [] st)
  = (Resolved result, st1) ->
  exists st2,
    compressImages host st = inl st2
    /\ compressedFile st2 = Some (result_blob result)
    /\ compressedPreview_src (view st2) = UrlSrc (result_url result)
    /\ downloadBtn_disabled (view st2) = false
    /\ alerts st2 = alerts st
    /\ snd (downloadCompressedImage st2)
       = [{| link_href := next_url st2;
             link_download := result_name result |}]
    /\ next_url st2 <> result_url result
    /\ (let st3 := fst (downloadCompressedImage st2) in
        object_urls st3 !! next_url st2 = Some (OfBlob (result_blob result))
        /\ object_urls st3 !! result_url result
           = Some (OfBlob (result_blob result))
        /\ snd (downloadCompressedImage st3)
           = [{| link_href := S (next_url st2);
                 link_download := result_name result |}]
        /\ snd (downloadAllCompressedImages st3) = []).
Proof.
  intros Hone Hcur Hresolved.
  destruct (compressImage_resolved _ _ _ _ _ Hresolved)
    as (Hurl & Hnext & Hurls & Hname & _ & Hcur1 & _ & Hfiles1 & Hctl & _
        & Hal).
  cbn [with_compressedFiles next_url object_urls currentFile compressedFiles
       controls alerts] in *.
  set (st2 := set_downloadBtn_disabled false
                (displayCompressedImage result
                   (with_compressedFile (Some (result_blob result)) st1))).
  exists st2.
  assert (Hblob2 : compressedFile st2 = Some (result_blob result))
    by reflexivity.
  assert (Hcur2 : currentFile st2 = Some file) by (cbn; congruence).
  assert (Hnext2 : next_url st2 = S (next_url st)) by exact Hnext.
  assert (Hurls2 : object_urls st2
                   = <[next_url st := OfBlob (result_blob result)]>
                       (object_urls st)) by exact Hurls.
  assert (Hformat : forall st', controls st' = controls st2 ->
                      getOutputFileName (file_name file)
                        (getOutputFormat st' (file_type file))
                      = result_name result).
  { intros st' Hst'. rewrite Hname. f_equal.
    apply getOutputFormat_controls. rewrite Hst'. cbn. now rewrite Hctl. }
  destruct (downloadCompressedImage_link st2 _ _ Hblob2 Hcur2)
    as (Hlink & Hurls3 & Hnext3 & Hfiles3 & Hblob3 & Hcur3 & Hctl3).
  set (st3 := fst (downloadCompressedImage st2)) in *.
  destruct (downloadCompressedImage_link st3 _ _ Hblob3 Hcur3)
    as (Hlink' & _).
  split.
  { unfold compressImages. rewrite Hone, Hresolved. reflexivity. }
  split; [exact Hblob2|]. split; [reflexivity|]. split; [reflexivity|].
  split; [exact Hal|].
  split; [rewrite Hlink, (Hformat st2 eq_refl); reflexivity|].
  split; [rewrite Hnext2, Hurl; lia|].
  cbv zeta. split; [rewrite Hurls3; apply lookup_insert_eq|].
  split.
  { rewrite Hurls3, Hurls2, Hurl, Hnext2.
    rewrite lookup_insert_ne by lia. apply lookup_insert_eq. }
  split.
  { rewrite Hlink', Hnext3, (Hformat st3 Hctl3). reflexivity. }
  destruct (downloadAllCompressedImages_links st3) as (Hall & _).
  rewrite Hall, Hfiles3. cbn.
  change (compressedFiles st1) with (compressedFiles st1).
  now rewrite Hfiles1.
Qed.

(** [photo] compressed with the sample settings, then downloaded. *)
Lemma download_after_compression_witness :
  exists st2,
    compressImages sample_host photo_loaded = inl st2
    /\ snd (downloadCompressedImage st2)
       = [{| link_href := 1; link_download := "photo-compressed.png" |}].
Proof.
  destruct (compressImage sample_host photo
              (with_compressedFiles [] photo_loaded))
    as [[result|message] st1] eqn:Hc; [|vm_compute in Hc; discriminate].
  destruct (download_after_compression sample_host photo_loaded st1 photo
              result)
    as (st2 & Hstart & _ & _ & _ & _ & Hlink & _).
  - vm_compute. reflexivity.
  - vm_compute. reflexivity.
  - exact Hc.
  - exists st2. split; [exact Hstart|]. rewrite Hlink.
    vm_compute in Hstart. injection Hstart as <-.
    vm_compute in Hc. injection Hc as <- _.
    vm_compute. reflexivity.
Defined.

(** X15. Choosing other files after a compression leaves the compressed
    blob and the "download" button as they were: a download then serves
    the blob of the earlier file under a name made from the first of the
    new files. *)
Theorem download_after_new_selection (host : Host) (files : list File)
    (st : State) (blob : Blob) (first : File) (rest : list File) :
  compressedFile st = Some blob ->
  List.filter supported_type files = first :: rest ->
  let st1 := processFiles host files st in
  downloadBtn_disabled (view st1) = downloadBtn_disabled (view st)
  /\ snd (downloadCompressedImage st1)
     = [{| link_href := next_url st;
           link_download :=
             getOutputFileName (file_name first)
               (getOutputFormat st (file_type first)) |}]
  /\ object_urls (fst (downloadCompressedImage st1)) !! next_url st
     = Some (OfBlob blob).
Proof.
  intros Hblob Hfilter. cbv zeta.
  destruct (processFiles_keeps host files st)
    as (Hblob1 & _ & _ & Hnext & Hformat & Hbtn & _).
  destruct (processFiles_cases host files st)
    as [(Hnone & _)|(first' & rest' & calls & Heq & _ & Hcur & _)];
    [congruence|].
  rewrite Hfilter in Heq. injection Heq as <- <-.
  rewrite Hblob in Hblob1.
  destruct (downloadCompressedImage_link _ _ _ Hblob1 Hcur)
    as (Hlink & Hurls & _).
  split; [exact Hbtn|]. split.
  - rewrite Hlink, Hnext.
    now rewrite (getOutputFormat_controls st _ (file_type first) Hformat).
  - rewrite Hurls, Hnext. apply lookup_insert_eq.
Qed.

Lemma photo_compressed_blob :
  compressedFile photo_compressed
  = Some {| blob_data := "encoded"; blob_type := "image/png" |}.
Proof.
  vm_compute. reflexivity.
Qed.

(** [photo] compressed, then [sunset] chosen: the download is the PNG made
    from [photo], named after [sunset]. *)
Lemma download_after_new_selection_witness :
  snd (downloadCompressedImage
         (processFiles sample_host [sunset] photo_compressed))
  = [{| link_href := 1; link_download := "sunset-compressed.webp" |}]
  /\ object_urls
       (fst (downloadCompressedImage
               (processFiles sample_host [sunset] photo_compressed)))
     !! 1%nat
     = Some (OfBlob {| blob_data := "encoded"; blob_type := "image/png" |}).
Proof.
  destruct (download_after_new_selection sample_host [sunset]
              photo_compressed _ sunset [] photo_compressed_blob eq_refl)
    as (_ & Hlink & Hurl).
  split.
  - rewrite Hlink. vm_compute. reflexivity.
  - exact Hurl.
Defined.

(** X16. When the compression of a single file fails, [compressImages]
    shows its alert once, empties [compressedFiles] and touches nothing
    else: the blob of an earlier compression stays in [compressedFile],
    and a download then serves it under a name made from the current
    file. *)
Theorem failed_compression_keeps_result (host : Host) (st st1 : State)
    (file : File) (message : string) :
  uploadedFiles st = [file] ->
  compressImage host file (with_compressedFiles [] st)
  = (Rejected message, st1) ->
  exists st2,
    compressImages host st = inl st2
    /\ alerts st2
       = (alerts st ++ ["Error compressing image. Please try again."])%list
    /\ compressedFile st2 = compressedFile st
    /\ compressedFiles st2 = []
    /\ view st2 = view st
    /\ object_urls st2 = object_urls st
    /\ (forall blob current,
           compressedFile st = Some blob ->
           currentFile st = Some current ->
           snd (downloadCompressedImage st2)
           = [{| link_href := next_url st;
                 link_download :=
                   getOutputFileName (file_name current)
                     (getOutputFormat st (file_type current)) |}]
           /\ object_urls (fst (downloadCompressedImage st2)) !! next_url st
              = Some (OfBlob blob)).
Proof.
  intros Hone Hrejected.
  destruct (compressImage_rejected _ _ _ _ _ Hrejected)
    as (Hurls & Hnext & _ & Hcur & Hblob & Hfiles & Hctl & Hview & Hal).
  cbn [with_compressedFiles next_url object_urls currentFile compressedFile
       compressedFiles controls view alerts] in *.
  exists (alert "Error compressing image. Please try again." st1).
  split.
  { unfold compressImages. rewrite Hone, Hrejected. reflexivity. }
  cbn [alert alerts compressedFile compressedFiles view object_urls].
  rewrite Hal, Hblob, Hfiles, Hview, Hurls.
  do 5 (split; [reflexivity|]).
  intros blob current Hold Hcurrent.
  destruct (downloadCompressedImage_link
              (alert "Error compressing image. Please try again." st1)
              blob current)
    as (Hlink & Hurls2 & _).
  - cbn. congruence.
  - cbn. congruence.
  - cbn [alert next_url object_urls] in Hlink, Hurls2.
    rewrite Hnext in Hlink, Hurls2. split.
    + rewrite Hlink. f_equal. f_equal. f_equal.
      apply getOutputFormat_controls. cbn. now rewrite Hctl.
    + rewrite Hurls2. apply lookup_insert_eq.
Qed.

(** [photo] compressed, then the undecodable file chosen and compressed:
    the download is still the PNG made from [photo]. *)
Lemma failed_compression_keeps_result_witness :
  exists st2,
    compressImages sample_host
      (processFiles sample_host [corrupt] photo_compressed) = inl st2
    /\ alerts st2 = ["Error compressing image. Please try again."]
    /\ snd (downloadCompressedImage st2)
       = [{| link_href := 1; link_download := "broken-compressed.jpeg" |}].
Proof.
  destruct (compressImage sample_host corrupt
              (with_compressedFiles []
                 (processFiles sample_host [corrupt] photo_compressed)))
    as [[result|message] st1] eqn:Hc; [vm_compute in Hc; discriminate|].
  destruct (failed_compression_keeps_result sample_host
              (processFiles sample_host [corrupt] photo_compressed) st1
              corrupt message)
    as (st2 & Hstart & Hal & _ & _ & _ & _ & Hdownload).
  - vm_compute. reflexivity.
  - exact Hc.
  - exists st2. split; [exact Hstart|]. split.
    + rewrite Hal. vm_compute. reflexivity.
    + destruct (Hdownload
                  {| blob_data := "encoded"; blob_type := "image/png" |}
                  corrupt) as (Hlink & _).
      * vm_compute. reflexivity.
      * vm_compute. reflexivity.
      * rewrite Hlink. vm_compute. reflexivity.
Defined.

(** *** Reset, again *)

(** X17. After [resetApp] the handlers of the buttons do nothing: a second
    reset changes nothing, "compress" returns at once, "download" and
    "download all" click no link.  The reset leaves the settings, the
    aspect ratio of the last image and the state of the "compress" button
    as they were, and hands out no object URL. *)
Theorem resetApp_settles (host : Host) (st : State) :
  let st' := resetApp st in
  resetApp st' = st'
  /\ compressImages host st' = inl st'
  /\ downloadCompressedImage st' = (st', [])
  /\ downloadAllCompressedImages st' = (st', [])
  /\ controls st' = controls st
  /\ originalAspectRatio st' = originalAspectRatio st
  /\ compressBtn_disabled (view st') = compressBtn_disabled (view st)
  /\ next_url st' = next_url st.
Proof.
  cbv zeta.
  assert (Hreset : resetApp st
                   = with_view (view (resetApp st))
                       (with_compressedFiles []
                          (with_compressedFile None
                             (with_currentFile None
                                (with_uploadedFiles [] st))))) by reflexivity.
  split; [reflexivity|]. split; [reflexivity|].
  split; [reflexivity|]. split; [reflexivity|].
  rewrite Hreset. cbn. repeat split.
Qed.

Section ResetDuringBatch.

Variable host : Host.

Lemma resetApp_during_urls_ok (b : Batch) :
  batch_urls_ok b -> batch_urls_ok (resetApp_during b).
Proof.
  intros (Hfresh & _ & _ & Hworker & Htemp & Hdup).
  unfold batch_urls_ok, urls_fresh, results_alive, items_alive.
  repeat apply conj; try assumption.
  - intros e [].
  - intros item [].
Qed.

Lemma reachable_keeps_urls_ok (start b : Batch) :
  batch_urls_ok start ->
  (terminated (worker start) = true ->
   object_urls (page start) !! worker_url (worker start) = None) ->
  reachable host start b ->
  batch_urls_ok b
  /\ (terminated (worker b) = true ->
      object_urls (page b) !! worker_url (worker b) = None).
Proof.
  intros Hok Hgone Hreach.
  induction Hreach as [|b b' _ IH Hstep]; [now split|].
  destruct IH as (Hok' & Hgone'). now apply (step_urls_ok host b b').
Qed.

(** With no file chosen any more, no count of results equals the number
    of files. *)
Lemma step_after_reset (b b' : Batch) :
  step host b b' ->
  uploadedFiles (page b) = [] ->
  terminated (worker b) = false ->
  downloadAllBtn_disabled (view (page b)) = true ->
  uploadedFiles (page b') = []
  /\ terminated (worker b') = false
  /\ downloadAllBtn_disabled (view (page b')) = true.
Proof.
  intros Hstep Hnone Hrun Hbtn.
  destruct Hstep as [b t before after tempImg Hl Hd|b t before after Hl Hd
                    |b data before after _ Hl|b result before after _ Hl];
    try (cbn; auto; fail).
  set (b1 := page_takes (before ++ after) b).
  destruct (worker_onmessage_spec result b1)
    as (_ & Hup & _ & _ & _ & _ & _ & Hterm & Hdone).
  cbv zeta in Hterm, Hdone.
  change (page b1) with (page b) in *.
  change (terminated (worker b1)) with (terminated (worker b)) in *.
  rewrite Hnone in Hterm, Hdone. cbn [length Nat.eqb] in Hterm, Hdone.
  rewrite Hrun in Hterm. rewrite Hup, Hterm, Hdone. auto.
Qed.

(** X18. [resetApp] does not stop a batch that is running.  The worker is
    never terminated afterwards, whatever happens: with no file chosen any
    more the count of results never equals the number of files.  So the
    object URL of the worker's code is never revoked and "download all" is
    never enabled, while the results that still arrive are recorded and
    keep their object URLs. *)
Theorem reset_does_not_stop_batch (st : State) (b0 b b' : Batch) :
  urls_fresh st ->
  compressImages host st = inr b0 ->
  reachable host b0 b ->
  terminated (worker b) = false ->
  reachable host (resetApp_during b) b' ->
  terminated (worker b') = false
  /\ object_urls (page b') !! worker_url (worker b') = Some OfWorkerCode
  /\ downloadAllBtn_disabled (view (page b')) = true
  /\ uploadedFiles (page b') = []
  /\ results_alive (page b').
Proof.
  intros Hfresh Hstart Hreach Hrun Hafter.
  apply compressImages_batch in Hstart. subst b0.
  destruct (reachable_urls_ok host (with_compressedFiles [] st) b)
    as (Hok & Hgone); [exact Hfresh|reflexivity|exact Hreach|].
  assert (Hinv : uploadedFiles (page b') = []
                 /\ terminated (worker b') = false
                 /\ downloadAllBtn_disabled (view (page b')) = true).
  { induction Hafter as [|b1 b2 _ IH Hstep].
    - split; [reflexivity|]. split; [exact Hrun|reflexivity].
    - destruct IH as (H1 & H2 & H3). now apply (step_after_reset b1 b2). }
  destruct Hinv as (Hnone & Hrun' & Hbtn).
  destruct (reachable_keeps_urls_ok (resetApp_during b) b')
    as ((_ & Hres & _ & Hworker & _) & _).
  - now apply resetApp_during_urls_ok.
  - cbn. congruence.
  - exact Hafter.
  - split; [exact Hrun'|]. split; [now apply Hworker|].
    split; [exact Hbtn|]. split; [exact Hnone|exact Hres].
Qed.

End ResetDuringBatch.

(** Two files chosen, the first of them compressed by the worker; the
    reset comes before the page receives the result.  The result is
    recorded all the same. *)
Lemma reset_does_not_stop_batch_witness :
  exists b b',
    run sample_host [WorkerHandles 0]
      (processBatchWithWorker (with_compressedFiles [] two_chosen)) = Some b
    /\ run sample_host [PageReceives 0] (resetApp_during b) = Some b'
    /\ terminated (worker b') = false
    /\ downloadAllBtn_disabled (view (page b')) = true
    /\ map entry_name (compressedFiles (page b')) = ["photo-compressed.jpeg"].
Proof.
  destruct (run sample_host [WorkerHandles 0]
              (processBatchWithWorker (with_compressedFiles [] two_chosen)))
    as [b|] eqn:Hrun; [|vm_compute in Hrun; discriminate].
  destruct (run sample_host [PageReceives 0] (resetApp_during b))
    as [b'|] eqn:Hrun'.
  - exists b, b'. split; [reflexivity|]. split; [exact Hrun'|].
    destruct (reset_does_not_stop_batch sample_host two_chosen
                (processBatchWithWorker (with_compressedFiles [] two_chosen))
                b b'
                (urls_fresh_no_urls _ two_chosen_no_urls)
                (compressImages_several _ _ _ _ _ two_chosen_files)
                (run_reachable _ _ _ _ Hrun))
      as (Hterm & _ & Hbtn & _).
    + vm_compute in Hrun. injection Hrun as <-. vm_compute. reflexivity.
    + exact (run_reachable _ _ _ _ Hrun').
    + split; [exact Hterm|]. split; [exact Hbtn|].
      vm_compute in Hrun. injection Hrun as <-.
      vm_compute in Hrun'. injection Hrun' as <-.
      vm_compute. reflexivity.
  - vm_compute in Hrun. injection Hrun as <-.
    vm_compute in Hrun'. discriminate.
Defined.

(** *** The aspect-ratio lock and a field that holds no number *)

Lemma zero_div_positive (r : float) :
  (0 <? r)%float = true -> (0 / r)%float = 0%float.
Proof.
  intros Hpos. apply Prim2SF_inj.
  rewrite ltb_spec in Hpos. rewrite div_spec.
  destruct (Prim2SF r) as [s|s| |s m e]; try discriminate;
    destruct s; try discriminate; reflexivity.
Qed.

Lemma zero_mul_finite_positive (r : float) :
  (0 <? r)%float = true -> (r <? infinity)%float = true ->
  (0 * r)%float = 0%float.
Proof.
  intros Hpos Hfinite. apply Prim2SF_inj.
  rewrite ltb_spec in Hpos, Hfinite. rewrite mul_spec.
  destruct (Prim2SF r) as [s|s| |s m e]; try discriminate;
    destruct s; try discriminate; reflexivity.
Qed.

Lemma or_else_falsy (a b : float) : ToBoolean a = false -> or_else a b = b.
Proof.
  intros Hfalsy. unfold or_else. now rewrite Hfalsy.
Qed.

(** X19. With the lock on and the aspect ratio known, a width field that
    is empty, zero or not a number puts 0 into the height field; a height
    field of that kind puts 0 into the width field when the ratio is
    finite. *)
Theorem cleared_field_gives_zero (st : State) :
  maintainAspect_checked (controls st) = true ->
  (0 <? originalAspectRatio st)%float = true ->
  (ToBoolean (parseInt (widthInput_value (controls st))) = false ->
   heightInput_value (controls (handleWidthChange st)) = "0")
  /\ (ToBoolean (parseInt (heightInput_value (controls st))) = false ->
      (originalAspectRatio st <? infinity)%float = true ->
      widthInput_value (controls (handleHeightChange st)) = "0").
Proof.
  intros Hlock Hratio.
  unfold handleWidthChange, handleHeightChange.
  rewrite Hlock, Hratio. cbn [andb]. split.
  - intros Hfalsy. rewrite (or_else_falsy _ _ Hfalsy).
    rewrite (zero_div_positive _ Hratio). vm_compute. reflexivity.
  - intros Hfalsy Hfinite. rewrite (or_else_falsy _ _ Hfalsy).
    rewrite (zero_mul_finite_positive _ Hratio Hfinite).
    vm_compute. reflexivity.
Qed.

(** The width field of [photo_loaded] emptied, and its height field
    overwritten with a word. *)
Lemma cleared_field_gives_zero_witness :
  heightInput_value
    (controls (handleWidthChange (set_widthInput_value "" photo_loaded)))
  = "0"
  /\ widthInput_value
       (controls
          (handleHeightChange (set_heightInput_value "tall" photo_loaded)))
     = "0".
Proof.
  split.
  - apply (cleared_field_gives_zero (set_widthInput_value "" photo_loaded));
      vm_compute; reflexivity.
  - apply (cleared_field_gives_zero
             (set_heightInput_value "tall" photo_loaded));
      vm_compute; reflexivity.
Defined.

(** *** The preview of the file chosen *)

(** X20. The first admitted file sets the aspect ratio and the two size
    fields only if the host reads and decodes it: then the ratio is its
    width over its height, the fields hold its dimensions and the preview
    section is shown.  Otherwise the ratio, the fields and the preview
    section stay as the file chosen before left them, while "compress" is
    enabled all the same. *)
Theorem selection_sets_dimensions (host : Host) (files : list File)
    (st : State) (first : File) (rest : list File) :
  List.filter supported_type files = first :: rest ->
  let st' := processFiles host files st in
  compressBtn_disabled (view st') = false
  /\ (forall img,
         readable host first = true ->
         decode host (file_data first) = Some img ->
         originalAspectRatio st'
         = (NumberOfN (img_width img) / NumberOfN (img_height img))%float
         /\ widthInput_value (controls st')
            = number_text (NumberOfN (img_width img))
         /\ heightInput_value (controls st')
            = number_text (NumberOfN (img_height img))
         /\ previewSection_display (view st') = block
         /\ originalPreview_src (view st') = DataSrc first)
  /\ (undecodable host first ->
      originalAspectRatio st' = originalAspectRatio st
      /\ controls st' = controls st
      /\ previewSection_display (view st') = previewSection_display (view st)
      /\ originalPreview_src (view st')
         = (if readable host first then DataSrc first
            else originalPreview_src (view st))).
Proof.
  intros Hfilter. cbv zeta. unfold processFiles. rewrite Hfilter.
  unfold displayOriginalImage.
  cbn [called readable with_uploadedFiles with_currentFile showControls
       set_controlsSection_display set_uploadSection_display with_view].
  split; [|split].
  - destruct (readable host first);
      [destruct (decode host (file_data first))|];
      destruct (1 <? _)%nat; reflexivity.
  - intros img Hread Hdecode. rewrite Hread, Hdecode.
    destruct (1 <? _)%nat; cbn; repeat split.
  - intros [Hread|Hdecode].
    + rewrite Hread. destruct (1 <? _)%nat; cbn; repeat split.
    + rewrite Hdecode. destruct (readable host first);
        destruct (1 <? _)%nat; cbn; repeat split;
        destruct (controls st); reflexivity.
Qed.

(** [photo] shown, then the undecodable file chosen: the fields still
    hold the 1000 x 500 of [photo]. *)
Lemma selection_sets_dimensions_witness :
  widthInput_value (controls (processFiles sample_host [corrupt] photo_loaded))
  = "1000"
  /\ heightInput_value
       (controls (processFiles sample_host [corrupt] photo_loaded))
     = "500"
  /\ compressBtn_disabled
       (view (processFiles sample_host [corrupt] photo_loaded))
     = false.
Proof.
  destruct (selection_sets_dimensions sample_host [corrupt] photo_loaded
              corrupt [] eq_refl) as (Hbtn & _ & Hkept).
  destruct Hkept as (_ & Hcontrols & _); [right; reflexivity|].
  rewrite Hcontrols. split; [vm_compute; reflexivity|].
  split; [vm_compute; reflexivity|exact Hbtn].
Defined.

(** *** The page as a whole *)

Lemma continues_same (st st' : State) :
  urls_fresh st ->
  object_urls st' = object_urls st ->
  next_url st' = next_url st ->
  continues st st'.
Proof.
  intros Hfresh Hurls Hnext. unfold continues, urls_fresh.
  rewrite Hurls, Hnext. repeat split; auto.
Qed.

Lemma continues_created (st st' : State) (target : UrlTarget) :
  urls_fresh st ->
  object_urls st' = <[next_url st := target]> (object_urls st) ->
  next_url st' = S (next_url st) ->
  continues st st'.
Proof.
  intros Hfresh Hurls Hnext. unfold continues, urls_fresh.
  rewrite Hurls, Hnext. repeat split.
  - lia.
  - intros url t Hurl Hlt. now rewrite lookup_insert_ne in Hurl by lia.
  - intros url blob Hurl. pose proof (Hfresh _ _ Hurl).
    now rewrite lookup_insert_ne by lia.
  - intros url t Hurl.
    destruct (decide (url = next_url st)) as [->|Hne]; [lia|].
    rewrite lookup_insert_ne in Hurl by congruence.
    apply Hfresh in Hurl. lia.
Qed.

Lemma continues_revoked (st st' : State) (url : nat) :
  urls_fresh st ->
  (forall blob, object_urls st !! url <> Some (OfBlob blob)) ->
  object_urls st' = delete url (object_urls st) ->
  next_url st' = next_url st ->
  continues st st'.
Proof.
  intros Hfresh Hnone Hurls Hnext. unfold continues, urls_fresh.
  rewrite Hurls, Hnext. repeat split.
  - lia.
  - now intros k t [_ Hk]%lookup_delete_Some _.
  - intros k blob Hk. rewrite lookup_delete_ne; [exact Hk|].
    intros <-. exact (Hnone _ Hk).
  - intros k t [_ Hk]%lookup_delete_Some. exact (Hfresh _ _ Hk).
Qed.

Lemma continues_trans (st1 st2 st3 : State) :
  continues st1 st2 -> continues st2 st3 -> continues st1 st3.
Proof.
  intros (Hle & Hold & Hblob & _) (Hle' & Hold' & Hblob' & Hfresh).
  repeat split.
  - lia.
  - intros url target Hurl Hlt. apply Hold; [|exact Hlt].
    apply Hold'; [exact Hurl|lia].
  - intros url blob Hurl. now apply Hblob', Hblob.
  - exact Hfresh.
Qed.

Lemma holds_no_blob_continues (st st' : State) (url : nat) :
  continues st st' -> holds_no_blob st url -> holds_no_blob st' url.
Proof.
  intros (Hle & Hold & _) (Hlt & Hnone). split; [lia|].
  intros blob Hurl. exact (Hnone blob (Hold _ _ Hurl Hlt)).
Qed.

Lemma results_alive_continues (st st' : State) :
  continues st st' ->
  results_alive st ->
  compressedFiles st' = compressedFiles st \/ compressedFiles st' = [] ->
  results_alive st'.
Proof.
  intros (_ & _ & Hblob & _) Hres [Hsame|Hnone] file Hfile.
  - rewrite Hsame in Hfile. now apply Hblob, Hres.
  - rewrite Hnone in Hfile. destruct Hfile.
Qed.

Lemma dispatch_continues (b : Batch) (file : File) :
  urls_fresh (page b) ->
  continues (page b) (page (dispatch b file))
  /\ compressedFiles (page (dispatch b file)) = compressedFiles (page b).
Proof.
  intros Hfresh. unfold dispatch.
  destruct (resizeToggle_checked (controls (page b)));
    [destruct (resize_pixels_checked (controls (page b)));
     [|destruct (resize_percentage_checked (controls (page b)))]|];
    (split; [|reflexivity]);
    try (apply continues_same; [exact Hfresh|reflexivity|reflexivity]).
  cbn. now apply (continues_created _ _ (OfFile file)).
Qed.

Lemma fold_dispatch_continues (files : list File) (b : Batch) :
  urls_fresh (page b) ->
  continues (page b) (page (fold_left dispatch files b))
  /\ compressedFiles (page (fold_left dispatch files b))
     = compressedFiles (page b).
Proof.
  revert b. induction files as [|file files IH]; intros b Hfresh.
  - split; [|reflexivity].
    apply continues_same; [exact Hfresh|reflexivity|reflexivity].
  - cbn [fold_left].
    destruct (dispatch_continues b file Hfresh) as (Hone & Hfiles).
    destruct (IH (dispatch b file)) as (Hrest & Hfiles');
      [apply Hone|].
    split; [now apply (continues_trans _ _ _ Hone)|congruence].
Qed.

Lemma processBatchWithWorker_continues (st : State) :
  urls_fresh st ->
  continues st (page (processBatchWithWorker st))
  /\ compressedFiles (page (processBatchWithWorker st)) = compressedFiles st.
Proof.
  intros Hfresh. unfold processBatchWithWorker. cbn [createObjectURL].
  match goal with
  | |- context [fold_left dispatch ?fs ?b1] =>
      set (files := fs); set (start := b1)
  end.
  assert (Hstart : continues st (page start)).
  { now apply (continues_created _ _ OfWorkerCode). }
  destruct (fold_dispatch_continues files start) as (Hrest & Hfiles);
    [apply Hstart|].
  split; [now apply (continues_trans _ _ _ Hstart)|].
  rewrite Hfiles. reflexivity.
Qed.

Section WholePage.

Variable host : Host.

(** No listener revokes an object URL or gives one a new target, and each
    leaves [compressedFiles] alone or empties it. *)
Lemma listener_continues (e : UserEvent) (a : App) :
  urls_fresh (app_page a) ->
  continues (app_page a) (app_page (listener host e a))
  /\ (compressedFiles (app_page (listener host e a))
      = compressedFiles (app_page a)
      \/ compressedFiles (app_page (listener host e a)) = []).
Proof.
  intros Hfresh. set (st := app_page a) in *.
  destruct e as [c|text|text|files| | | |]; cbn [listener app_page on_page];
    fold st.
  - split; [|now left].
    apply continues_same; [exact Hfresh|reflexivity|reflexivity].
  - unfold handleWidthChange. destruct (_ && _); (split; [|now left]);
      apply continues_same; try exact Hfresh; reflexivity.
  - unfold handleHeightChange. destruct (_ && _); (split; [|now left]);
      apply continues_same; try exact Hfresh; reflexivity.
  - unfold handleFileSelect. destruct (0 <? length files)%nat.
    + destruct (processFiles_keeps host files st)
        as (_ & Hfiles & Hurls & Hnext & _).
      split; [now apply continues_same|now left].
    + split; [|now left].
      apply continues_same; [exact Hfresh|reflexivity|reflexivity].
  - unfold compressImages.
    destruct (uploadedFiles st) as [|file [|file' files]].
    + split; [|now left].
      apply continues_same; [exact Hfresh|reflexivity|reflexivity].
    + destruct (compressImage host file (with_compressedFiles [] st))
        as [[result|message] st1] eqn:Hc.
      * destruct (compressImage_resolved _ _ _ _ _ Hc)
          as (_ & Hnext & Hurls & _ & _ & _ & _ & Hfiles & _).
        split; [|right; exact Hfiles].
        now apply (continues_created _ _ (OfBlob (result_blob result))).
      * destruct (compressImage_rejected _ _ _ _ _ Hc)
          as (Hurls & Hnext & _ & _ & _ & Hfiles & _).
        split; [|right; exact Hfiles]. now apply continues_same.
    + destruct (processBatchWithWorker_continues
                  (with_compressedFiles [] st) Hfresh) as (Hc & Hfiles).
      split; [exact Hc|right; exact Hfiles].
  - unfold downloadCompressedImage.
    destruct (compressedFile st) as [blob|].
    + cbn [createObjectURL currentFile with_object_urls].
      destruct (currentFile st); (split; [|now left]);
        now apply (continues_created _ _ (OfBlob blob)).
    + split; [|now left].
      apply continues_same; [exact Hfresh|reflexivity|reflexivity].
  - destruct (downloadAllCompressedImages_links st)
      as (_ & Hurls & Hnext & Hfiles).
    split; [now apply continues_same|now left].
  - split; [|now right].
    apply continues_same; [exact Hfresh|reflexivity|reflexivity].
Qed.

(** An event of a batch revokes only URLs that hold no blob, and records
    a result together with a URL for it. *)
Lemma step_continues (b b' : Batch) :
  step host b b' ->
  urls_fresh (page b) ->
  results_alive (page b) ->
  holds_no_blob (page b) (worker_url (worker b)) ->
  Forall (fun t => holds_no_blob (page b) (temp_src t)) (loading b) ->
  continues (page b) (page b')
  /\ results_alive (page b')
  /\ worker_url (worker b') = worker_url (worker b)
  /\ incl (loading b') (loading b).
Proof.
  intros Hstep Hfresh Hres Hworker Htemp.
  destruct Hstep as [b t before after tempImg Hl Hd|b t before after Hl Hd
                    |b data before after _ Hl|b result before after _ Hl].
  - assert (Hc : continues (page b)
                   (revokeObjectURL (temp_src t)
                      (called (LoadImage (file_data (temp_file t)))
                         (page b)))).
    { apply (continues_revoked _ _ (temp_src t));
        [exact Hfresh| |reflexivity|reflexivity].
      rewrite List.Forall_forall in Htemp. apply Htemp.
      rewrite Hl. apply in_or_app. right. now left. }
    split; [exact Hc|]. split.
    + apply (results_alive_continues (page b)); [exact Hc|exact Hres|].
      now left.
    + split; [reflexivity|]. cbn. rewrite Hl.
      intros t' Ht'. apply in_app_or in Ht' as [Ht'|Ht'];
        apply in_or_app; [now left|right; now right].
  - split.
    { apply continues_same; [exact Hfresh|reflexivity|reflexivity]. }
    split; [exact Hres|]. split; [reflexivity|]. cbn. rewrite Hl.
    intros t' Ht'. apply in_app_or in Ht' as [Ht'|Ht'];
      apply in_or_app; [now left|right; now right].
  - split.
    { apply continues_same; [exact Hfresh|reflexivity|reflexivity]. }
    split; [exact Hres|]. split; [reflexivity|]. apply incl_refl.
  - set (b1 := page_takes (before ++ after) b).
    destruct (worker_onmessage_spec result b1)
      as (Hfiles & _ & _ & Hload & _).
    destruct (worker_onmessage_urls result b1) as (Hurls & Hnext & _).
    cbv zeta in Hurls, Hnext.
    pose proof (worker_onmessage_worker_url result b1) as Hwurl.
    change (page b1) with (page b) in *.
    change (loading b1) with (loading b) in *.
    change (worker_url (worker b1)) with (worker_url (worker b)) in *.
    set (n := next_url (page b)) in *.
    set (blob := reply_blob result) in *.
    set (st1 := with_object_urls (<[n := OfBlob blob]> (object_urls (page b)))
                  (S n) (page b)).
    set (st2 := with_object_urls
                  (<[S n := OfBlob blob]> (object_urls st1)) (S (S n)) st1).
    assert (H1 : continues (page b) st1)
      by now apply (continues_created _ _ (OfBlob blob)).
    assert (H2 : continues st1 st2).
    { apply (continues_created _ _ (OfBlob blob));
        [apply H1|reflexivity|reflexivity]. }
    assert (H12 : continues (page b) st2)
      by exact (continues_trans _ _ _ H1 H2).
    assert (Hc : continues (page b) (page (worker_onmessage result b1))).
    { destruct (S (length (compressedFiles (page b)))
                =? length (uploadedFiles (page b)))%nat.
      - apply (continues_trans _ _ _ H12).
        apply (continues_revoked _ _ (worker_url (worker b)));
          [apply H12| |exact Hurls|exact Hnext].
        apply (holds_no_blob_continues _ _ _ H12 Hworker).
      - apply (continues_trans _ _ _ H12).
        apply continues_same; [apply H12|exact Hurls|exact Hnext]. }
    split; [exact Hc|]. split.
    + intros file Hfile. rewrite Hfiles in Hfile.
      apply in_app_or in Hfile as [Hfile|[<-|[]]].
      * destruct Hc as (_ & _ & Hkeep & _). now apply Hkeep, Hres.
      * cbn [entry_url entry_blob]. fold n blob. rewrite Hurls.
        assert (Hnew : <[S n := OfBlob blob]>
                         (<[n := OfBlob blob]> (object_urls (page b))) !! n
                       = Some (OfBlob blob)).
        { rewrite lookup_insert_ne by lia. apply lookup_insert_eq. }
        destruct (_ =? _)%nat; [|exact Hnew].
        rewrite lookup_delete_ne; [exact Hnew|].
        intros Heq. destruct Hworker as (Hlt & _). fold n in Hlt. lia.
    + split; [exact Hwurl|]. rewrite Hload. apply incl_refl.
Qed.

(** The batch [compressImages] starts may only revoke URLs that hold no
    blob. *)
Lemma started_batch_ok (st : State) (b : Batch) :
  urls_fresh st ->
  compressImages host st = inr b ->
  holds_no_blob (page b) (worker_url (worker b))
  /\ Forall (fun t => holds_no_blob (page b) (temp_src t)) (loading b).
Proof.
  intros Hfresh Hstart. apply compressImages_batch in Hstart. subst b.
  destruct (reachable_urls_ok host (with_compressedFiles [] st)
              (processBatchWithWorker (with_compressedFiles [] st)))
    as ((Hfresh' & _ & _ & Hworker & Htemp & _) & Hgone);
    [exact Hfresh|reflexivity|apply reachable_start|].
  split.
  - destruct (terminated
                (worker (processBatchWithWorker
                           (with_compressedFiles [] st)))) eqn:Hterm.
    + unfold processBatchWithWorker in Hterm. cbn [createObjectURL] in Hterm.
      match type of Hterm with
      | context [fold_left dispatch ?fs ?b1] =>
          destruct (fold_dispatch_expected host fs b1)
            as (_ & _ & _ & Hsame & _)
      end.
      rewrite Hsame in Hterm. discriminate.
    + specialize (Hworker eq_refl). split.
      * exact (Hfresh' _ _ Hworker).
      * intros blob. rewrite Hworker. discriminate.
  - apply List.Forall_forall. intros t Ht. specialize (Htemp t Ht). split.
    + exact (Hfresh' _ _ Htemp).
    + intros blob. rewrite Htemp. discriminate.
Qed.

Lemma app_step_ok (a a' : App) :
  app_step host a a' ->
  app_ok a ->
  app_ok a' /\ continues (app_page a) (app_page a').
Proof.
  intros Hstep (Hfresh & Hres & Hbatches).
  destruct Hstep as [a e|a before after wl b' Hl Hstep].
  - destruct (listener_continues e a Hfresh) as (Hc & Hfiles).
    split; [|exact Hc]. split; [apply Hc|].
    split; [exact (results_alive_continues _ _ Hc Hres Hfiles)|].
    assert (Hold : Forall
                     (fun wl =>
                        holds_no_blob (app_page (listener host e a))
                          (worker_url (fst wl))
                        /\ Forall
                             (fun t =>
                                holds_no_blob (app_page (listener host e a))
                                  (temp_src t)) (snd wl))
                     (app_batches a)).
    { eapply List.Forall_impl; [|exact Hbatches].
      intros wl (Hw & Ht). split.
      - exact (holds_no_blob_continues _ _ _ Hc Hw).
      - eapply List.Forall_impl; [|exact Ht].
        intros t. apply (holds_no_blob_continues _ _ _ Hc). }
    destruct e as [c|text|text|files| | | |]; try exact Hold.
    cbn [listener] in *.
    destruct (compressImages host (app_page a)) as [st'|b] eqn:Hstart;
      [exact Hold|].
    cbn [app_batches app_page] in *.
    apply List.Forall_app. split; [exact Hold|].
    constructor; [|constructor]. cbn [fst snd].
    exact (started_batch_ok _ _ Hfresh Hstart).
  - rewrite Hl in Hbatches.
    apply List.Forall_app in Hbatches as (Hbefore & Hrest).
    apply List.Forall_cons_iff in Hrest as ((Hw & Ht) & Hafter).
    destruct (step_continues _ _ Hstep Hfresh Hres Hw Ht)
      as (Hc & Hres' & Hwurl & Hincl).
    split; [|exact Hc]. split; [apply Hc|]. split; [exact Hres'|].
    cbn [app_page app_batches].
    assert (Hkeep : forall wl',
               holds_no_blob (app_page a) (worker_url (fst wl'))
               /\ Forall (fun t => holds_no_blob (app_page a) (temp_src t))
                    (snd wl') ->
               holds_no_blob (page b') (worker_url (fst wl'))
               /\ Forall (fun t => holds_no_blob (page b') (temp_src t))
                    (snd wl')).
    { intros wl' (Hw' & Ht'). split.
      - exact (holds_no_blob_continues _ _ _ Hc Hw').
      - eapply List.Forall_impl; [|exact Ht'].
        intros t. apply (holds_no_blob_continues _ _ _ Hc). }
    apply List.Forall_app. split.
    + eapply List.Forall_impl; [|exact Hbefore]. exact Hkeep.
    + constructor.
      * cbn [fst snd]. split.
        -- rewrite Hwurl. exact (holds_no_blob_continues _ _ _ Hc Hw).
        -- apply List.Forall_forall. intros t Hin.
           apply (holds_no_blob_continues _ _ _ Hc).
           rewrite List.Forall_forall in Ht. apply Ht. now apply Hincl.
      * eapply List.Forall_impl; [|exact Hafter]. exact Hkeep.
Qed.

Lemma app_reachable_ok (start a : App) :
  app_ok start ->
  app_reachable host start a ->
  app_ok a /\ continues (app_page start) (app_page a).
Proof.
  intros Hok Hreach. induction Hreach as [|a a' _ IH Hstep].
  - split; [exact Hok|].
    apply continues_same; [apply Hok|reflexivity|reflexivity].
  - destruct IH as (Hok' & Hc).
    destruct (app_step_ok a a' Hstep Hok') as (Hok'' & Hc').
    split; [exact Hok''|exact (continues_trans _ _ _ Hc Hc')].
Qed.

Lemma idle_ok (st : State) :
  urls_fresh st -> results_alive st -> app_ok (idle st).
Proof.
  intros Hfresh Hres. split; [exact Hfresh|]. split; [exact Hres|].
  constructor.
Qed.

(** X21. The script never revokes the object URL of a blob.  Whatever the
    user does and whatever the batches do, in any order and however many
    batches run side by side, an object URL that holds a blob keeps
    holding it, and every element of [compressedFiles] has its object URL
    alive with its blob. *)
Theorem blob_urls_are_never_revoked (st : State) (a a' : App) (url : nat)
    (blob : Blob) :
  urls_fresh st ->
  results_alive st ->
  app_reachable host (idle st) a ->
  app_reachable host a a' ->
  object_urls (app_page a) !! url = Some (OfBlob blob) ->
  object_urls (app_page a') !! url = Some (OfBlob blob)
  /\ results_alive (app_page a').
Proof.
  intros Hfresh Hres Hreach Hlater Hurl.
  destruct (app_reachable_ok (idle st) a (idle_ok st Hfresh Hres) Hreach)
    as (Hok & _).
  destruct (app_reachable_ok a a' Hok Hlater)
    as ((_ & Hres' & _) & (_ & _ & Hkeep & _)).
  split; [now apply Hkeep|exact Hres'].
Qed.

End WholePage.

Lemma split_at_spec {A : Type} (i : nat) (l before after : list A) (x : A) :
  split_at i l = Some (before, x, after) -> l = (before ++ x :: after)%list.
Proof.
  revert i before. induction l as [|y l IH]; intros i before Hsplit;
    [destruct i; discriminate|].
  destruct i as [|i]; cbn in Hsplit.
  - injection Hsplit as <- <- <-. reflexivity.
  - destruct (split_at i l) as [[[before' z] after']|] eqn:Hrest;
      [|discriminate].
    injection Hsplit as <- <- <-. cbn. f_equal. now apply (IH i).
Qed.

Lemma app_fire_step (host : Host) (ev : AppEvent) (a a' : App) :
  app_fire host ev a = Some a' -> app_step host a a'.
Proof.
  destruct ev as [e|i e]; cbn [app_fire].
  - intros [= <-]. apply app_user.
  - destruct (split_at i (app_batches a)) as [[[before wl] after]|] eqn:Hsplit;
      [|discriminate].
    destruct (fire host e (batch_at (app_page a) wl)) as [b'|] eqn:Hfire;
      [|discriminate].
    intros [= <-]. apply (app_batch host a before after wl b').
    + now apply (split_at_spec i).
    + now apply (fire_step host e).
Qed.

Lemma app_reachable_after_step (host : Host) (a a1 a' : App) :
  app_step host a a1 -> app_reachable host a1 a' -> app_reachable host a a'.
Proof.
  intros Hstep Hreach. induction Hreach as [|a2 a3 _ IH Hstep'].
  - eapply app_reachable_step; [apply app_reachable_start|exact Hstep].
  - eapply app_reachable_step; [exact IH|exact Hstep'].
Qed.

Lemma app_run_reachable (host : Host) (events : list AppEvent) (a a' : App) :
  app_run host events a = Some a' -> app_reachable host a a'.
Proof.
  revert a. induction events as [|ev events IH]; intros a; cbn [app_run].
  - intros [= <-]. apply app_reachable_start.
  - destruct (app_fire host ev a) as [a1|] eqn:Hfire; [|discriminate].
    intros Hrun. apply (app_reachable_after_step host a a1 a').
    + now apply (app_fire_step host ev).
    + now apply IH.
Qed.

(** Two files chosen and one of them compressed in a batch; then a reset,
    after which the worker compresses the other file and the page
    receives it.  The URL of the first result is alive all along. *)
Lemma blob_urls_are_never_revoked_witness :
  exists a a',
    app_run sample_host
      [ByUser (FilesChosen [photo; sunset]); ByUser CompressClicked;
       InBatch 0 (WorkerHandles 0); InBatch 0 (PageReceives 0)]
      (idle initial_state) = Some a
    /\ app_run sample_host
         [ByUser ResetClicked; InBatch 0 (WorkerHandles 0);
          InBatch 0 (PageReceives 0)] a = Some a'
    /\ compressedFiles (app_page a') <> []
    /\ object_urls (app_page a') !! 1%nat
       = Some (OfBlob {| blob_data := "encoded"; blob_type := "image/png" |}).
Proof.
  destruct (app_run sample_host
              [ByUser (FilesChosen [photo; sunset]); ByUser CompressClicked;
               InBatch 0 (WorkerHandles 0); InBatch 0 (PageReceives 0)]
              (idle initial_state))
    as [a|] eqn:Hrun; [|vm_compute in Hrun; discriminate].
  destruct (app_run sample_host
              [ByUser ResetClicked; InBatch 0 (WorkerHandles 0);
               InBatch 0 (PageReceives 0)] a)
    as [a'|] eqn:Hrun'.
  - exists a, a'. split; [reflexivity|]. split; [exact Hrun'|].
    split.
    + vm_compute in Hrun. injection Hrun as <-.
      vm_compute in Hrun'. injection Hrun' as <-.
      vm_compute. discriminate.
    + apply (blob_urls_are_never_revoked sample_host initial_state a a').
      * apply urls_fresh_no_urls. reflexivity.
      * intros file [].
      * exact (app_run_reachable _ _ _ _ Hrun).
      * exact (app_run_reachable _ _ _ _ Hrun').
      * vm_compute in Hrun. injection Hrun as <-. vm_compute. reflexivity.
  - vm_compute in Hrun. injection Hrun as <-.
    vm_compute in Hrun'. discriminate.
Defined.

(** *** The files chosen *)

Lemma dispatch_selection (b : Batch) (file : File) :
  uploadedFiles (page (dispatch b file)) = uploadedFiles (page b)
  /\ currentFile (page (dispatch b file)) = currentFile (page b).
Proof.
  unfold dispatch.
  destruct (resizeToggle_checked (controls (page b)));
    [destruct (resize_pixels_checked (controls (page b)));
     [|destruct (resize_percentage_checked (controls (page b)))]|];
    split; reflexivity.
Qed.

Lemma fold_dispatch_selection (files : list File) (b : Batch) :
  uploadedFiles (page (fold_left dispatch files b)) = uploadedFiles (page b)
  /\ currentFile (page (fold_left dispatch files b)) = currentFile (page b).
Proof.
  revert b. induction files as [|file files IH]; intros b;
    [split; reflexivity|].
  cbn [fold_left]. destruct (IH (dispatch b file)) as (-> & ->).
  apply dispatch_selection.
Qed.

Lemma worker_onmessage_selection (result : WorkerReply) (b : Batch) :
  uploadedFiles (page (worker_onmessage result b)) = uploadedFiles (page b)
  /\ currentFile (page (worker_onmessage result b)) = currentFile (page b).
Proof.
  unfold worker_onmessage, set_progress, addBatchResultItem.
  cbn [createObjectURL with_compressedFiles compressedFiles uploadedFiles].
  rewrite List.length_app, Nat.add_1_r.
  destruct (PrimFloat.is_finite _);
    destruct (S _ =? _)%nat; split; reflexivity.
Qed.

Section Selection.

Variable host : Host.

Lemma step_selection (b b' : Batch) :
  step host b b' ->
  uploadedFiles (page b') = uploadedFiles (page b)
  /\ currentFile (page b') = currentFile (page b).
Proof.
  intros Hstep.
  destruct Hstep as [b t before after tempImg Hl Hd|b t before after Hl Hd
                    |b data before after _ Hl|b result before after _ Hl];
    try (split; reflexivity).
  apply (worker_onmessage_selection result (page_takes (before ++ after) b)).
Qed.

(** What a listener does to the files chosen: it leaves them alone,
    forgets them, or replaces them by the admitted files of a new
    selection. *)
Lemma listener_selection (e : UserEvent) (a : App) :
  let st := app_page a in
  let st' := app_page (listener host e a) in
  (uploadedFiles st' = uploadedFiles st /\ currentFile st' = currentFile st)
  \/ (uploadedFiles st' = [] /\ currentFile st' = None)
  \/ (exists files,
         uploadedFiles st' = List.filter supported_type files
         /\ currentFile st' = hd_error (List.filter supported_type files)).
Proof.
  cbv zeta. set (st := app_page a).
  destruct e as [c|text|text|files| | | |]; cbn [listener app_page on_page];
    fold st.
  - left. split; reflexivity.
  - left. unfold handleWidthChange. destruct (_ && _); split; reflexivity.
  - left. unfold handleHeightChange. destruct (_ && _); split; reflexivity.
  - unfold handleFileSelect. destruct (0 <? length files)%nat;
      [|left; split; reflexivity].
    destruct (processFiles_cases host files st)
      as [(_ & Hup & Hcur & _)
         |(first & rest & calls & Hsome & Hup & Hcur & _)].
    + left. now split.
    + right. right. exists files. rewrite Hsome in *. now split.
  - left. unfold compressImages.
    destruct (uploadedFiles st) as [|file [|file' files]] eqn:Hfiles.
    + now split.
    + destruct (compressImage host file (with_compressedFiles [] st))
        as [[result|message] st1] eqn:Hc.
      * destruct (compressImage_resolved _ _ _ _ _ Hc)
          as (_ & _ & _ & _ & Hup & Hcur & _).
        cbn in *. split; congruence.
      * destruct (compressImage_rejected _ _ _ _ _ Hc)
          as (_ & _ & Hup & Hcur & _).
        cbn in *. split; congruence.
    + cbn [app_page]. unfold processBatchWithWorker. cbn [createObjectURL].
      match goal with
      | |- context [fold_left dispatch ?fs ?b1] =>
          destruct (fold_dispatch_selection fs b1) as (-> & ->)
      end.
      cbn. now split.
  - left. unfold downloadCompressedImage.
    destruct (compressedFile st); [|split; reflexivity].
    cbn [createObjectURL currentFile with_object_urls].
    destruct (currentFile st) eqn:Hcur; split; cbn; auto.
  - left. unfold downloadAllCompressedImages.
    destruct (compressedFiles st) as [|file [|file' files]];
      split; reflexivity.
  - right. left. split; reflexivity.
Qed.

Lemma app_step_selection (a a' : App) :
  app_step host a a' ->
  Forall supported (uploadedFiles (app_page a)) ->
  currentFile (app_page a) = hd_error (uploadedFiles (app_page a)) ->
  Forall supported (uploadedFiles (app_page a'))
  /\ currentFile (app_page a') = hd_error (uploadedFiles (app_page a')).
Proof.
  intros Hstep Hall Hcur.
  destruct Hstep as [a e|a before after wl b' Hl Hstep].
  - destruct (listener_selection e a)
      as [(Hup & Hc)|[(Hup & Hc)|(files & Hup & Hc)]];
      rewrite Hup, Hc.
    + now split.
    + split; [constructor|reflexivity].
    + split; [|reflexivity]. apply List.Forall_forall.
      intros file [_ Hfile]%filter_In. now apply supported_type_spec.
  - destruct (step_selection _ _ Hstep) as (Hup & Hc).
    cbn [app_page]. rewrite Hup, Hc. now split.
Qed.

(** X22. Whatever the user and the batches do, every file in
    [uploadedFiles] has one of the three admitted types, and [currentFile]
    is the first of [uploadedFiles], or [null] when there is none. *)
Theorem chosen_files_stay_admitted (st : State) (a : App) :
  Forall supported (uploadedFiles st) ->
  currentFile st = hd_error (uploadedFiles st) ->
  app_reachable host (idle st) a ->
  Forall supported (uploadedFiles (app_page a))
  /\ currentFile (app_page a) = hd_error (uploadedFiles (app_page a)).
Proof.
  intros Hall Hcur Hreach.
  induction Hreach as [|a a' _ IH Hstep]; [now split|].
  destruct IH as (Hall' & Hcur').
  now apply (app_step_selection a a').
Qed.

End Selection.

(** A text file and two images dropped, a batch started and served, then
    a single image chosen. *)
Lemma chosen_files_stay_admitted_witness :
  exists a,
    app_run sample_host
      [ByUser (FilesChosen [notes; photo; sunset]); ByUser CompressClicked;
       InBatch 0 (WorkerHandles 1); ByUser (FilesChosen [notes; sunset]);
       InBatch 0 (PageReceives 0)]
      (idle initial_state) = Some a
    /\ Forall supported (uploadedFiles (app_page a))
    /\ currentFile (app_page a) = Some sunset.
Proof.
  destruct (app_run sample_host
              [ByUser (FilesChosen [notes; photo; sunset]);
               ByUser CompressClicked; InBatch 0 (WorkerHandles 1);
               ByUser (FilesChosen [notes; sunset]);
               InBatch 0 (PageReceives 0)]
              (idle initial_state))
    as [a|] eqn:Hrun; [|vm_compute in Hrun; discriminate].
  exists a. split; [reflexivity|].
  destruct (chosen_files_stay_admitted sample_host initial_state a)
    as (Hall & Hcur).
  - constructor.
  - reflexivity.
  - exact (app_run_reachable _ _ _ _ Hrun).
  - split; [exact Hall|]. rewrite Hcur.
    vm_compute in Hrun. injection Hrun as <-. vm_compute. reflexivity.
Defined.

(** *** Where the results of a batch come from *)

Lemma dispatch_from_chosen (files : list File) (b : Batch) (file : File) :
  In file files -> from_chosen files b -> from_chosen files (dispatch b file).
Proof.
  intros Hin (Hinbox & Hload & Hout & Hdone). unfold from_chosen, dispatch.
  destruct (resizeToggle_checked (controls (page b)));
    [destruct (resize_pixels_checked (controls (page b)));
     [|destruct (resize_percentage_checked (controls (page b)))]|];
    cbn [page worker loading postMessage inbox outbox createObjectURL
         with_object_urls compressedFiles];
    repeat split; try assumption;
    apply List.Forall_app; (split; [assumption|]);
    repeat constructor; exact Hin.
Qed.

Lemma fold_dispatch_from_chosen (files chosen : list File) (b : Batch) :
  incl chosen files ->
  from_chosen files b ->
  from_chosen files (fold_left dispatch chosen b).
Proof.
  revert b. induction chosen as [|file chosen IH]; intros b Hincl Hb;
    [exact Hb|].
  cbn [fold_left]. apply IH.
  - intros f Hf. apply Hincl. now right.
  - apply dispatch_from_chosen; [|exact Hb]. apply Hincl. now left.
Qed.

Lemma self_onmessage_from (host : Host) (files : list File)
    (data : WorkerRequest) (reply : WorkerReply) :
  In (req_file data) files ->
  snd (self_onmessage host data) = Some reply ->
  reply_from files reply.
Proof.
  intros Hin. unfold self_onmessage.
  destruct (readable host (req_file data)); [|discriminate].
  destruct (decode host (file_data (req_file data))); [|discriminate].
  destruct (toBlob host _ _ _); [|discriminate].
  cbn. intros [= <-]. exists (req_file data). now repeat split.
Qed.

Section Provenance.

Variable host : Host.

Lemma step_from_chosen (files : list File) (b b' : Batch) :
  step host b b' -> from_chosen files b -> from_chosen files b'.
Proof.
  intros Hstep (Hinbox & Hload & Hout & Hdone). unfold from_chosen.
  destruct Hstep as [b t before after tempImg Hl Hd|b t before after Hl Hd
                    |b data before after _ Hl|b result before after _ Hl].
  - rewrite Hl in Hload.
    apply List.Forall_app in Hload as (Hb & Ha).
    apply List.Forall_cons_iff in Ha as (Ht & Ha).
    cbn. repeat split; [|now apply List.Forall_app|assumption|assumption].
    apply List.Forall_app. split; [assumption|]. now repeat constructor.
  - rewrite Hl in Hload.
    apply List.Forall_app in Hload as (Hb & Ha).
    apply List.Forall_cons_iff in Ha as (_ & Ha).
    cbn. repeat split; try assumption. now apply List.Forall_app.
  - rewrite Hl in Hinbox.
    apply List.Forall_app in Hinbox as (Hb & Ha).
    apply List.Forall_cons_iff in Ha as (Hd & Ha).
    cbn. repeat split; [now apply List.Forall_app|assumption| |assumption].
    apply List.Forall_app. split; [assumption|].
    destruct (snd (self_onmessage host data)) as [reply|] eqn:Hreply;
      [|constructor].
    repeat constructor. now apply (self_onmessage_from host files data).
  - rewrite Hl in Hout.
    apply List.Forall_app in Hout as (Hb & Ha).
    apply List.Forall_cons_iff in Ha as (Hr & Ha).
    destruct (worker_onmessage_spec result (page_takes (before ++ after) b))
      as (-> & _ & _ & -> & -> & -> & _).
    cbn [page_takes page worker loading inbox outbox].
    repeat split; try assumption; [now apply List.Forall_app|].
    apply List.Forall_app. split; [assumption|].
    repeat constructor. destruct Hr as (file & Hin & Hname & Hsize).
    exists file, (getOutputFormat (page b)
                    (getMimeType (Str (blob_type (reply_blob result))))).
    cbn. rewrite Hname. now repeat split.
Qed.

(** X23. Every result a batch records was made from one of the files
    chosen when the batch started: it carries that file's size as its
    original size, and its name is made from that file's name.  The same
    holds for every request the worker is still to handle, every temporary
    image still awaited and every reply still to be delivered. *)
Theorem batch_results_come_from_chosen_files (st : State) (b0 b : Batch) :
  compressImages host st = inr b0 ->
  reachable host b0 b ->
  Forall (entry_from (uploadedFiles st)) (compressedFiles (page b))
  /\ Forall (reply_from (uploadedFiles st)) (outbox (worker b))
  /\ Forall (fun data => In (req_file data) (uploadedFiles st))
       (inbox (worker b))
  /\ Forall (fun t => In (temp_file t) (uploadedFiles st)) (loading b).
Proof.
  intros Hstart Hreach.
  apply compressImages_batch in Hstart. subst b0.
  assert (Hinv : from_chosen (uploadedFiles st) b).
  { induction Hreach as [|b b' _ IH Hstep].
    - unfold processBatchWithWorker. cbn [createObjectURL].
      apply fold_dispatch_from_chosen; [apply incl_refl|].
      repeat split; constructor.
    - now apply (step_from_chosen _ b b'). }
  destruct Hinv as (Hinbox & Hload & Hout & Hdone).
  repeat split; assumption.
Qed.

End Provenance.

(** Two files chosen and both compressed, the second first. *)
Lemma batch_results_come_from_chosen_files_witness :
  exists b,
    run sample_host
      [WorkerHandles 1; WorkerHandles 0; PageReceives 0; PageReceives 0]
      (processBatchWithWorker (with_compressedFiles [] two_chosen)) = Some b
    /\ Forall (entry_from [photo; sunset]) (compressedFiles (page b))
    /\ map entry_originalSize (compressedFiles (page b)) = [3%N; 6%N].
Proof.
  destruct (run sample_host
              [WorkerHandles 1; WorkerHandles 0; PageReceives 0;
               PageReceives 0]
              (processBatchWithWorker (with_compressedFiles [] two_chosen)))
    as [b|] eqn:Hrun; [|vm_compute in Hrun; discriminate].
  exists b. split; [reflexivity|]. split.
  - rewrite <- two_chosen_files.
    apply (batch_results_come_from_chosen_files sample_host two_chosen
             (processBatchWithWorker (with_compressedFiles [] two_chosen)) b).
    + exact (compressImages_several _ _ _ _ _ two_chosen_files).
    + exact (run_reachable _ _ _ _ Hrun).
  - vm_compute in Hrun. injection Hrun as <-. vm_compute. reflexivity.
Defined.

(** *** The "download" button *)

Lemma dispatch_download (b : Batch) (file : File) :
  view (page (dispatch b file)) = view (page b)
  /\ compressedFile (page (dispatch b file)) = compressedFile (page b).
Proof.
  unfold dispatch.
  destruct (resizeToggle_checked (controls (page b)));
    [destruct (resize_pixels_checked (controls (page b)));
     [|destruct (resize_percentage_checked (controls (page b)))]|];
    split; reflexivity.
Qed.

Lemma fold_dispatch_download (files : list File) (b : Batch) :
  view (page (fold_left dispatch files b)) = view (page b)
  /\ compressedFile (page (fold_left dispatch files b))
     = compressedFile (page b).
Proof.
  revert b. induction files as [|file files IH]; intros b;
    [split; reflexivity|].
  cbn [fold_left]. destruct (IH (dispatch b file)) as (-> & ->).
  apply dispatch_download.
Qed.

Lemma worker_onmessage_download (result : WorkerReply) (b : Batch) :
  downloadBtn_disabled (view (page (worker_onmessage result b)))
  = downloadBtn_disabled (view (page b))
  /\ compressedFile (page (worker_onmessage result b))
     = compressedFile (page b).
Proof.
  unfold worker_onmessage, set_progress, addBatchResultItem.
  cbn [createObjectURL with_compressedFiles compressedFiles uploadedFiles].
  rewrite List.length_app, Nat.add_1_r.
  destruct (PrimFloat.is_finite _);
    destruct (S _ =? _)%nat; split; reflexivity.
Qed.

Section DownloadButton.

Variable host : Host.

Lemma step_download (b b' : Batch) :
  step host b b' ->
  downloadBtn_disabled (view (page b')) = downloadBtn_disabled (view (page b))
  /\ compressedFile (page b') = compressedFile (page b).
Proof.
  intros Hstep.
  destruct Hstep as [b t before after tempImg Hl Hd|b t before after Hl Hd
                    |b data before after _ Hl|b result before after _ Hl];
    try (split; reflexivity).
  apply (worker_onmessage_download result (page_takes (before ++ after) b)).
Qed.

(** A listener disables "download", or leaves it with a blob and a
    current file, or leaves the button and the blob alone and the current
    file in place. *)
Lemma listener_download (e : UserEvent) (a : App) :
  let st := app_page a in
  let st' := app_page (listener host e a) in
  currentFile st = hd_error (uploadedFiles st) ->
  downloadBtn_disabled (view st') = true
  \/ (compressedFile st' <> None /\ currentFile st' <> None)
  \/ (downloadBtn_disabled (view st') = downloadBtn_disabled (view st)
      /\ compressedFile st' = compressedFile st
      /\ (currentFile st' = currentFile st \/ currentFile st' <> None)).
Proof.
  cbv zeta. set (st := app_page a). intros Hhd.
  destruct e as [c|text|text|files| | | |]; cbn [listener app_page on_page];
    fold st.
  - right. right. repeat split. now left.
  - right. right. unfold handleWidthChange.
    destruct (_ && _); repeat split; now left.
  - right. right. unfold handleHeightChange.
    destruct (_ && _); repeat split; now left.
  - right. right. unfold handleFileSelect.
    destruct (0 <? length files)%nat; [|repeat split; now left].
    destruct (processFiles_keeps host files st)
      as (Hblob & _ & _ & _ & _ & Hbtn & _).
    split; [exact Hbtn|]. split; [exact Hblob|].
    destruct (processFiles_cases host files st)
      as [(_ & _ & Hcur & _)|(first & rest & calls & _ & _ & Hcur & _)].
    + now left.
    + right. rewrite Hcur. discriminate.
  - unfold compressImages.
    destruct (uploadedFiles st) as [|file [|file' files]] eqn:Hfiles.
    + right. right. repeat split. now left.
    + destruct (compressImage host file (with_compressedFiles [] st))
        as [[result|message] st1] eqn:Hc.
      * right. left.
        destruct (compressImage_resolved _ _ _ _ _ Hc)
          as (_ & _ & _ & _ & _ & Hcur & _).
        cbn in *. split; [discriminate|]. rewrite Hcur, Hhd. discriminate.
      * right. right.
        destruct (compressImage_rejected _ _ _ _ _ Hc)
          as (_ & _ & _ & Hcur & Hblob & _ & _ & Hview & _).
        cbn in *. rewrite Hview. repeat split; [exact Hblob|now left].
    + right. right. cbn [app_page].
      unfold processBatchWithWorker. cbn [createObjectURL].
      match goal with
      | |- context [fold_left dispatch ?fs ?b1] =>
          destruct (fold_dispatch_download fs b1) as (-> & ->);
          destruct (fold_dispatch_selection fs b1) as (_ & ->)
      end.
      cbn. repeat split. now left.
  - right. right. unfold downloadCompressedImage.
    destruct (compressedFile st) eqn:Hblob; [|cbn; repeat split; auto].
    cbn [createObjectURL currentFile with_object_urls].
    destruct (currentFile st) eqn:Hcur; cbn; repeat split; auto.
  - right. right. unfold downloadAllCompressedImages.
    destruct (compressedFiles st) as [|file [|file' files]];
      repeat split; now left.
  - left. reflexivity.
Qed.

Lemma app_step_download (a a' : App) :
  app_step host a a' ->
  currentFile (app_page a) = hd_error (uploadedFiles (app_page a)) ->
  download_ready (app_page a) ->
  download_ready (app_page a').
Proof.
  intros Hstep Hhd Hready Hon.
  destruct Hstep as [a e|a before after wl b' Hl Hstep].
  - destruct (listener_download e a Hhd)
      as [Hoff|[Hboth|(Hbtn & Hblob & Hcur)]].
    + congruence.
    + exact Hboth.
    + rewrite Hbtn in Hon. destruct (Hready Hon) as (H1 & H2).
      rewrite Hblob. split; [exact H1|].
      destruct Hcur as [->|Hsome]; assumption.
  - destruct (step_download _ _ Hstep) as (Hbtn & Hblob).
    destruct (step_selection host _ _ Hstep) as (_ & Hcur).
    cbn [app_page batch_at page] in *.
    rewrite Hbtn in Hon. rewrite Hblob, Hcur. exact (Hready Hon).
Qed.


End DownloadButton.

